(* ===== verification/_CoqProject ===== *)
-Q . S2P
Prelude.v
JsValue.v
Text.v
Css.v
Storage.v
Page.v
Render.v
Library.v
Theme.v
Timers.v
Notify.v
Download.v
Modal.v
Dashboard.v
ViewMachine.v
EventLoop.v
Overlays.v
Styles.v
Flows.v
