(* ===== verification/Prelude.v ===== *)
(** * A verification development of the DataViz dashboard controller

    The program is [src/static/js/script.js]: one [DOMContentLoaded]
    listener of the DataViz single-page dashboard.  It wires the page
    chrome (sidebar, theme toggle, dataset-info panel), the library
    selector buttons, the request/render cycle that fetches pre-rendered
    charts from the backend and turns them into cards, and the card
    actions (download with toasts, fullscreen, an info modal).  Every
    part reads and writes one shared state, the DOM and [localStorage];
    the parts call each other directly ([loadVisualizations] calls
    [showErrorMessage] and [displayVisualizations], whose cards call
    [downloadImage], [toggleFullscreen] and [showChartInfo], which call
    [showNotification]) or through the browser's event loop (listeners,
    promise continuations, [setTimeout] callbacks).

    ** How the code is modelled

    Every handler is a computation of the state-and-exception monad
    [Page.M] ([M A := page -> outcome A * page]): the [page] record holds
    the DOM fields the code touches, the store, the timer queue, the
    pending requests and image preloads, and the errors written to the
    console by the two [catch] blocks ([console.error], lines 119 and
    309; [Page.console_error]).  A thrown exception is a value
    ([Exc]); a listener's exception is dropped after its state changes,
    as a browser reports and ignores it ([Dashboard.listener]).  The
    browser's own behaviour (the CSS selector engine, the vendor
    fullscreen methods, [toLocaleDateString]) is a [Page.browser] record;
    the laws every conforming browser satisfies are the class
    [Page.browser_ok], and [Page.ref_browser] is one instance, used to
    run the model on concrete inputs.  The network is the host's: a
    settled request is an input event with its response.

    ** Files, in dependency order
    - [Prelude] (this file): the scope [dash_scope], the tactics [invc]
      and [simpl_bool], the hint databases [dash] and [dash_rw], list
      lemmas ([count_if], filters).
    - [JsValue]: JSON values with [undefined], exceptions, and the
      language operations the code relies on: [String(v)]
      ([js_to_string]), truthiness ([truthy]), property reads that throw
      on [null]/[undefined] ([get_own]), [forEach] on arrays
      ([as_array]), [===] with a literal ([js_eq_str]).
    - [Text]: [getLibraryDisplayName] (lines 433-446) with [capitalize],
      and the Plotly element id [plot_id]/[plot_slug]
      ([title.replace(/\s+/g, '-').toLowerCase()], lines 180 and 193).
    - [Css]: the style sheet of lines 450-636 as the string the code
      assigns to [textContent], verbatim; the browser's reading of it
      ([parse_sheet], checked to read all 29 rules), and the cascade
      ([computed]: the inline style, else the most specific matching
      declaration, the later on a tie), with the times of a
      [transition] value ([transition_ms]).
    - [Storage]: the preference store as a class [PrefStore] with its
      laws [PrefStoreLaws] and its [gmap] instance; the keys [darkTheme]
      and [selectedLibrary] and how the code reads them back.
    - [Page]: the page record, the browser record and its laws, the
      monad and its combinators ([fresh], [set_timeout], [set_item],
      [send]), and [keeps R m], the relational postcondition every
      handler's frame lemmas use, with the tactic [solve_keeps].
    - [Render]: [displayVisualizations] (lines 149-277): the two
      [forEach] branches ([render_plotly_card], [render_image_card]), the
      reveal timers ([schedule_reveals]), the Plotly preload and its
      [onload] ([preload_loaded]).
    - [Library]: the library buttons ([library_click], lines 62-70),
      [loadVisualizations] and its promise chain ([parse_response],
      [on_data], [on_failure], [handle_response], lines 83-121), the
      error card and its retry button ([showErrorMessage],
      [retry_click], lines 123-147), the restore of the saved library
      ([restore_library], lines 72-81).
    - [Theme]: the sidebar, theme and panel listeners (lines 14-59) and
      the theme restore (lines 35-40).
    - [Timers]: the order in which the event loop runs [setTimeout]
      callbacks ([next_timer], [fire]).
    - [Notify]: [showNotification] (lines 388-426) and its three
      callbacks.
    - [Download]: [downloadImage] (lines 279-311) and its settlement.
    - [Modal]: [showChartInfo] (lines 337-386) with its listeners, and
      [toggleFullscreen] (lines 313-335).
    - [Dashboard]: [init] (the synchronous part of the listener), the
      click targets and their dispatch with the bubbling to the
      document listener, the host events, the transition function
      [step_fn], the relation [step] and the reachable pages
      [reachable]; the page invariant and the theme invariant.
    - [ViewMachine]: the view-state machine of the specification
      ([aview], [astep]), its refinement under a single request in
      flight, and the stale-response race beyond it.
    - [EventLoop]: the timer queue run by the event loop: a toast's
      whole life, and [drain], the loop that runs timer events until
      none is pending, defined with Equations by well-founded
      recursion on the queue's weight.
    - [Overlays]: the elements appended to the body (toasts, info
      modals) are named by the ids [fresh] draws; their ids are distinct
      on every reachable page, which makes that naming faithful to the
      JavaScript references the code holds.
    - [Styles]: the elements the controller builds (toasts and their
      icons, the modal and its content, the cards) with their classes,
      inline styles and ancestors, and their computed style under the
      sheet once [init] appended it ([the_sheet]); [toasts_ok] (every
      toast has a severity and its icon) and the presence of the sheet
      are kept by every event.
    - [Flows]: end-to-end flows through the real events: the settlement
      of a download, its toast's three callbacks, and the toast's place
      on screen at each step.

    ** What the theorems show
    - Invariants of every reachable page (C1, C2, C29): at most one
      active library button, exactly one once a load started; exactly
      one view state visible; the theme icon shows the theme in force.
      Proved by rule induction on [reachable], with the handlers that
      leave a part of the state alone shown so once and for all by
      [solve_keeps] ([quiet], [theme_pres]).
    - Refinement (C3): while at most one visualization request is in
      flight ([reachable1]), every step maps to a transition of the
      specification's machine Welcome/Loading/Results/Error.  With two
      in flight the refinement fails (C12) and a stale response is shown
      (C11).
    - The request cycle (C4-C7, C10, C13): the click, each way a
      response settles (with what the [catch] logs to the console: the
      cause of a transport failure or of a render exception, nothing
      for an application error), the retry on reachable error pages.
    - Rendering (C8, C9): the cards, timers and preloads
      [displayVisualizations] leaves for each branch.
    - Theme and panel (C14-C17; C18 for the panel under every click,
      with the bubbling), display names (C19), toasts (C20), downloads
      (C22, with the cause of a failure logged; C21: a settled
      download's toast slides in, out and is removed by the next three
      timer events), the info modal (C23), the load listener stopped by
      an invalid saved library (C28).
    - Fullscreen (C24, C32): the button's test reads only the standard
      [document.fullscreenElement]; with it the button enters and leaves
      fullscreen (C32), on a browser with only the prefixed API every
      click requests fullscreen again and the button never leaves it
      (C24).
    - The event loop (C25-C27, C31): a toast is removed 3300 ms after it
      is shown; the timer queue always drains; no chain of timer events
      is longer than the queue's weight; after a render, as many timer
      events as there are cards reveal every card and empty the queue.
    - The body's elements (C30): on every reachable page, opening the
      info modal and closing it (by its button or its background,
      through the bubbling to the modal's listener) gives back the
      elements the body had; distinct element ids ([Overlays.ids_ok])
      make the model's naming of elements faithful.
    - What the page shows (C33-C36): on reachable styled pages every
      toast is fixed in the bottom-right corner, off-screen until
      [show] is added, with its severity's icon colour; the cards and
      the info modal fade in through the callbacks' inline styles; a
      hidden toast is removed after exactly its slide-out transition.

    ** Bounds
    There is no fuel: every recursion of the handlers is structural (the
    [forEach] loops over the descriptor list, the button list, JSON
    fields; the reader of the style sheet recurses on the text), so
    every handler is a total function and every theorem
    about a result states that it is returned.  The one loop that is not
    structural, the event loop draining the timer queue
    ([EventLoop.drain]), is defined by well-founded recursion on
    [queue_weight] (2 per pending toast hiding, 1 per other callback),
    which every timer event lowers.  Time is [nat] milliseconds; HTTP
    statuses are [Z] compared as [response.ok] does (200-299).  The one
    bound the theorems use is the specification's single request in
    flight, and C11/C12 show what happens beyond it.

    ** Not modelled
    The HTML markup of the templates as text (cards, the modal and the
    toasts are records of the fields the code later reads), the CSS text
    of the template's linked style sheet (not in the sources; the
    container and document element are taken to carry none of the
    injected sheet's classes), the pointer ([:hover] rules are read but
    no element is hovered), the text [console.error] prints (only the
    error it is given is recorded),
    the backend endpoints (their responses are inputs),
    [toLocaleDateString] (a field of the browser, called by
    [Render.formatDate]).
    The page the HTML template leaves ([Page.html_page]) is taken from
    the specification: the template is not part of the sources. *)

From stdpp Require Export base list gmap strings.
From Stdlib Require Export Ascii ZArith Lia.
From Stdlib Require String.
Export String.StringSyntax.

Declare Scope dash_scope.
Delimit Scope dash_scope with dash.

(** The hint database of the development: lemmas that close the
    routine goals of the components. *)
Create HintDb dash discriminated.
(** Its rewriting companion, used by [autorewrite with dash_rw]. *)
Create Rewrite HintDb dash_rw.

(** [invc H]: invert a hypothesis and clean up. *)
Ltac invc H := inversion H; subst; clear H.

(** [simpl_bool]: rewrite boolean connectives in hypotheses and goal. *)
Ltac simpl_bool :=
  repeat match goal with
  | H : andb _ _ = true |- _ => apply andb_prop in H as [? ?]
  | H : orb _ _ = false |- _ => apply orb_false_elim in H as [? ?]
  | H : negb _ = true |- _ => apply negb_true_iff in H
  | H : negb _ = false |- _ => apply negb_false_iff in H
  end.

(** ** Generic lemmas on lists *)

Section ListFacts.
Context {A : Type}.

(** The number of elements of a list that satisfy a boolean test. *)
Definition count_if (f : A -> bool) (l : list A) : nat :=
  length (filter (fun x => f x = true) l).

Lemma count_if_nil f : count_if f [] = 0.
Proof. reflexivity. Qed.

Lemma count_if_cons f x l :
  count_if f (x :: l) = (if f x then 1 else 0) + count_if f l.
Proof. unfold count_if. rewrite filter_cons. by destruct (f x). Qed.

Lemma count_if_app f l1 l2 :
  count_if f (l1 ++ l2) = count_if f l1 + count_if f l2.
Proof. unfold count_if. by rewrite filter_app, length_app. Qed.

Lemma count_if_none f l :
  Forall (fun x => f x = false) l -> count_if f l = 0.
Proof.
  induction 1 as [|x l Hx _ IH]; [done|].
  rewrite count_if_cons, Hx. done.
Qed.

Lemma count_if_zero_Forall f l :
  count_if f l = 0 -> Forall (fun x => f x = false) l.
Proof.
  induction l as [|x l IH]; [constructor|].
  rewrite count_if_cons. destruct (f x) eqn:E; [done|].
  intros H. constructor; auto.
Qed.
End ListFacts.

#[export] Hint Rewrite @count_if_nil @count_if_cons @count_if_app : dash_rw.

Section FilterFacts.
Context {A : Type} (P Q : A -> Prop) `{!forall x, Decision (P x)} `{!forall x, Decision (Q x)}.

(** Filtering first cannot make a filter non-empty. *)
Lemma filter_nil_filter (l : list A) :
  filter P l = [] -> filter P (filter Q l) = [].
Proof.
  induction l as [|x l IH]; [done|]. rewrite !filter_cons.
  case_decide as HP; [done|]. intros Hl.
  case_decide as HQ; [rewrite filter_cons; case_decide; [done|]|]; auto.
Qed.
(** Filtering first cannot lengthen a filter. *)
Lemma length_filter_filter (l : list A) :
  length (filter P (filter Q l)) <= length (filter P l).
Proof.
  induction l as [|x l IH]; [done|]. rewrite !filter_cons.
  repeat (case_decide; rewrite ?filter_cons); simpl; lia.
Qed.
(** Filtering cannot raise a weighted sum. *)
Lemma sum_list_with_filter_le (f : A -> nat) (l : list A) :
  sum_list_with f (filter P l) <= sum_list_with f l.
Proof.
  induction l as [|x l IH]; [done|]. rewrite filter_cons.
  case_decide; simpl; lia.
Qed.
(** A property of every element holds of every element kept. *)
Lemma Forall_filter_keep (R : A -> Prop) (l : list A) : Forall R l -> Forall R (filter P l).
Proof.
  rewrite !Forall_forall. intros HR x Hx. apply list_elem_of_filter in Hx. naive_solver.
Qed.
End FilterFacts.
