(* ===== verification/JsValue.v ===== *)
(** * JavaScript values read from the backend's JSON

    [loadVisualizations] passes the parsed body of the response to a
    chain of property reads: [data.error], [data.library],
    [data.visualizations.forEach], [viz.title], [viz.image]
    (src/static/js/script.js, lines 106-277).  What happens when the
    body is not shaped as expected is fixed by the language, not by the
    code: a read on [null] or [undefined] throws a [TypeError], a read of
    a missing key gives [undefined], template literals and DOM setters
    convert with [String(v)], [if (data.error)] tests truthiness and
    [data.library === 'plotly'] is strict equality.  This file models
    that fragment of the language.

    Numbers are JSON integers ([Z]); the decimal printing of fractional
    numbers is not modelled.  Strings are Rocq strings whose characters
    stand for UTF-16 code units of the Latin-1 block. *)

From S2P Require Import Prelude.
From Stdlib Require Import DecimalString.

Local Set Warnings "-register-all".

(** JavaScript values: the JSON values [response.json()] can produce,
    plus [undefined], the value of a missing property. *)
Inductive jval :=
| JUndefined
| JNull
| JBool (b : bool)
| JNum (n : Z)
| JStr (s : string)
| JArr (xs : list jval)
| JObj (fields : list (string * jval)).

(** The exceptions the controller's code can raise or receive. *)
Inductive js_exn :=
| TypeError            (** property read on null/undefined, call of a non-function *)
| SyntaxError          (** an invalid CSS selector given to [querySelector] *)
| HttpError (status : Z)  (** [throw new Error(`HTTP error! Status: ...`)] *)
| DownloadFailed       (** [throw new Error('Download failed')] *)
| JsonParseError       (** [response.json()] rejected *)
| BlobReadError        (** [response.blob()] rejected *)
| NetworkError         (** [fetch] rejected *)
| NotFoundError.       (** [removeChild] of a node that is not a child *)

(** The completion of a JavaScript computation: a value or a thrown
    exception. *)
Inductive outcome (A : Type) :=
| Ret (a : A)
| Exc (e : js_exn).
Arguments Ret {A} a.
Arguments Exc {A} e.

#[export] Instance js_exn_eq_dec : EqDecision js_exn.
Proof. solve_decision. Defined.

(** ** [String(v)] *)

(** Decimal printing of an integer, as [Number.prototype.toString]. *)
Definition z_to_decimal (n : Z) : string :=
  NilZero.string_of_int (Z.to_int n).

(** [String(v)]: the conversion applied by template literals, by
    [FormData.append] and by the [src] and [download] setters.  Arrays
    print as [Array.prototype.join] with [","], where [null] and
    [undefined] elements print as the empty string. *)
Fixpoint js_to_string (v : jval) : string :=
  match v with
  | JUndefined => "undefined"
  | JNull => "null"
  | JBool true => "true"
  | JBool false => "false"
  | JNum n => z_to_decimal n
  | JStr s => s
  | JArr xs =>
      let elem (x : jval) :=
        match x with JUndefined | JNull => ""%string | _ => js_to_string x end in
      (fix join (ys : list jval) : string :=
         match ys with
         | [] => ""
         | [y] => elem y
         | y :: ys' => elem y +:+ "," +:+ join ys'
         end) xs
  | JObj _ => "[object Object]"
  end.

(** ** Truthiness, as tested by [if (data.error)] and
    [if (lastSelectedLibrary)]. *)
Definition truthy (v : jval) : bool :=
  match v with
  | JUndefined | JNull => false
  | JBool b => b
  | JNum n => negb (Z.eqb n 0)
  | JStr s => negb (String.eqb s "")
  | JArr _ | JObj _ => true
  end.

(** ** Property access *)

(** The value bound to [k] in a parsed object: [JSON.parse] keeps the
    last of duplicate keys. *)
Fixpoint field_last (k : string) (fs : list (string * jval)) : option jval :=
  match fs with
  | [] => None
  | (k', v) :: fs' =>
      match field_last k fs' with
      | Some w => Some w
      | None => if String.eqb k k' then Some v else None
      end
  end.

(** [v.k] for the keys the controller reads ([error], [library],
    [visualizations], [title], [image]), none of which is a property of
    the prototypes of strings, numbers, booleans or arrays: a read on
    [null] or [undefined] throws, a read on another primitive or an
    array gives [undefined]. *)
Definition get_own (v : jval) (k : string) : outcome jval :=
  match v with
  | JUndefined | JNull => Exc TypeError
  | JObj fs => Ret (default JUndefined (field_last k fs))
  | _ => Ret JUndefined
  end.

(** [v.forEach(...)]: only arrays have [forEach]; on [null] or
    [undefined] the read throws, on any other value the call of
    [undefined] throws. *)
Definition as_array (v : jval) : outcome (list jval) :=
  match v with
  | JArr xs => Ret xs
  | _ => Exc TypeError
  end.

(** [v === 'lit']: strict equality with a string literal. *)
Definition js_eq_str (v : jval) (lit : string) : bool :=
  match v with
  | JStr s => String.eqb s lit
  | _ => false
  end.

(** ** Lemmas *)

Lemma truthy_str s : truthy (JStr s) = true <-> s <> ""%string.
Proof.
  simpl. rewrite negb_true_iff, String.eqb_neq. done.
Qed.

Lemma get_own_obj_hit k fs v :
  field_last k fs = Some v -> get_own (JObj fs) k = Ret v.
Proof. intros H. simpl. by rewrite H. Qed.

Lemma get_own_obj_miss k fs :
  field_last k fs = None -> get_own (JObj fs) k = Ret JUndefined.
Proof. intros H. simpl. by rewrite H. Qed.

Lemma field_last_app k fs1 fs2 :
  field_last k (fs1 ++ fs2) =
  match field_last k fs2 with Some v => Some v | None => field_last k fs1 end.
Proof.
  induction fs1 as [|[k' v'] fs1 IH]; simpl.
  - by destruct (field_last k fs2).
  - rewrite IH. by destruct (field_last k fs2).
Qed.

(** A key bound once at the end of an object is read back, whatever
    precedes it. *)
Lemma field_last_snoc k v fs :
  field_last k (fs ++ [(k, v)]) = Some v.
Proof. rewrite field_last_app. simpl. by rewrite String.eqb_refl. Qed.

Lemma js_eq_str_spec v lit : js_eq_str v lit = true <-> v = JStr lit.
Proof.
  destruct v; simpl; split; intros H; try done; try congruence.
  - apply String.eqb_eq in H. by subst.
  - invc H. apply String.eqb_refl.
Qed.

Lemma as_array_ret v xs : as_array v = Ret xs <-> v = JArr xs.
Proof. destruct v; simpl; split; intros H; congruence. Qed.

#[export] Hint Resolve get_own_obj_hit get_own_obj_miss field_last_snoc : dash.
