(* ===== verification/Text.v ===== *)
(** * String functions of the controller

    - [getLibraryDisplayName] (script.js, lines 433-446): the heading
      shown above the cards;
    - the id of a Plotly card's plot element (lines 180 and 193):
      ["plotly-" + viz.title.replace(/\s+/g, '-').toLowerCase()];
    - the lower-cased title of the info modal (line 350).

    [String.prototype.toLowerCase]/[toUpperCase] and the class [\s] are
    modelled on the Latin-1 block (code units 0-255), which is what a
    Rocq [ascii] holds.  In that block [\s] is TAB, LF, VT, FF, CR, SPACE
    and NO-BREAK SPACE; [toUpperCase] maps [ß] to ["SS"]; the two
    Latin-1 letters whose upper case lies outside the block ([µ], [ÿ])
    are left unchanged by [upper_char], which is where the model is
    coarser than the language. *)

From S2P Require Import Prelude JsValue.

(** ** Characters *)

(** A member of the regular-expression class [\s]. *)
Definition is_js_space (c : ascii) : bool :=
  let n := nat_of_ascii c in
  ((9 <=? n) && (n <=? 13)) || (n =? 32) || (n =? 160).

(** [toLowerCase] on one code unit. *)
Definition lower_char (c : ascii) : ascii :=
  let n := nat_of_ascii c in
  if ((65 <=? n) && (n <=? 90)) || ((192 <=? n) && (n <=? 222) && negb (n =? 215))
  then ascii_of_nat (n + 32) else c.

(** [toUpperCase] on one code unit; it may produce two ([ß] to ["SS"]). *)
Definition upper_char (c : ascii) : string :=
  let n := nat_of_ascii c in
  if (97 <=? n) && (n <=? 122) then String (ascii_of_nat (n - 32)) EmptyString
  else if (224 <=? n) && (n <=? 254) && negb (n =? 247)
  then String (ascii_of_nat (n - 32)) EmptyString
  else if n =? 223 then "SS"%string
  else String c EmptyString.

(** ** Strings *)

(** Apply a function to every code unit of a string. *)
Fixpoint map_chars (f : ascii -> ascii) (s : string) : string :=
  match s with
  | EmptyString => EmptyString
  | String c s' => String (f c) (map_chars f s')
  end.

(** [s.toLowerCase()]. *)
Definition to_lower (s : string) : string := map_chars lower_char s.

(** [s.replace(/\s+/g, '-')]: every maximal run of [\s] characters is
    replaced by one ['-'].  [in_run] records that the previous character
    was a space of the current run. *)
Fixpoint dash_runs (in_run : bool) (s : string) : string :=
  match s with
  | EmptyString => EmptyString
  | String c s' =>
      if is_js_space c then
        if in_run then dash_runs true s' else String "-" (dash_runs true s')
      else String c (dash_runs false s')
  end.

Definition replace_spaces (s : string) : string := dash_runs false s.

(** [title.replace(/\s+/g, '-').toLowerCase()], the suffix of the plot
    element's id (lines 180 and 193). *)
Definition plot_slug (title : string) : string := to_lower (replace_spaces title).

(** The id of a Plotly card's plot element. *)
Definition plot_id (title : string) : string := "plotly-" +:+ plot_slug title.

(** [library.charAt(0).toUpperCase() + library.slice(1)]. *)
Definition capitalize (s : string) : string :=
  match s with
  | EmptyString => EmptyString
  | String c s' => upper_char c +:+ s'
  end.

(** [getLibraryDisplayName(library)] (lines 433-446): a [switch] with
    strict comparisons against the four library ids, whose default
    branch calls [charAt] on the argument, which throws a [TypeError]
    for every value but a string. *)
Definition getLibraryDisplayName (library : jval) : outcome string :=
  if js_eq_str library "matplotlib" then Ret "Matplotlib"
  else if js_eq_str library "seaborn" then Ret "Seaborn"
  else if js_eq_str library "pandas" then Ret "Pandas"
  else if js_eq_str library "plotly" then Ret "Plotly"
  else match library with
       | JStr s => Ret (capitalize s)
       | _ => Exc TypeError
       end.

(** A character that may appear unescaped in a CSS identifier after its
    first character: letters, digits, [-], [_] and every non-ASCII code
    unit.  An id selector ["#plotly-" + slug] whose slug has only such
    characters is a valid selector naming exactly that id. *)
Definition css_ident_char (c : ascii) : bool :=
  let n := nat_of_ascii c in
  ((48 <=? n) && (n <=? 57)) || ((65 <=? n) && (n <=? 90)) ||
  ((97 <=? n) && (n <=? 122)) || (n =? 45) || (n =? 95) || (128 <=? n).

Fixpoint all_chars (f : ascii -> bool) (s : string) : bool :=
  match s with
  | EmptyString => true
  | String c s' => f c && all_chars f s'
  end.

Definition css_ident (s : string) : bool := all_chars css_ident_char s.

(** ** Lemmas on strings *)

Lemma all_chars_app f s1 s2 :
  all_chars f (s1 +:+ s2) = all_chars f s1 && all_chars f s2.
Proof. induction s1 as [|c s1 IH]; simpl; [done|]. by rewrite IH, andb_assoc. Qed.

(** ** Properties of the text functions *)

(** On every string, the [switch] of [getLibraryDisplayName] returns
    what its default branch would. *)
Lemma getLibraryDisplayName_str s :
  getLibraryDisplayName (JStr s) = Ret (capitalize s).
Proof.
  unfold getLibraryDisplayName. simpl.
  repeat match goal with
  | |- context [String.eqb s ?lit] =>
      destruct (String.eqb_spec s lit) as [->|]; [reflexivity|]
  end.
  reflexivity.
Qed.

(** C19: [getLibraryDisplayName] maps every string to its
    capitalized form (the four library ids of the [switch] included) and
    throws a [TypeError] on every value that is not a string (a response
    whose [library] field is missing, null, a number, ...). *)
Theorem getLibraryDisplayName_spec v :
  getLibraryDisplayName v = match v with JStr s => Ret (capitalize s) | _ => Exc TypeError end.
Proof. destruct v; try reflexivity. apply getLibraryDisplayName_str. Qed.

Lemma css_ident_plot_id t : css_ident (plot_id t) = css_ident (plot_slug t).
Proof. unfold css_ident, plot_id. rewrite all_chars_app. reflexivity. Qed.
