(* ===== verification/Css.v ===== *)
(** * The injected style sheet

    [displayVisualizations], [showNotification] and [showChartInfo] only
    set classes and inline styles; what an element looks like is decided
    by the style sheet the [DOMContentLoaded] listener writes into a
    [style] element (script.js, lines 448-638).  This file holds that
    sheet as the string the code assigns to [textContent] (lines
    450-636, verbatim), the browser's reading of it ([parse_sheet]:
    comments dropped, rules split at braces, declarations at semicolons
    and colons, selectors into compound selectors of a type, classes and
    [:hover] joined by the descendant combinator), and the cascade that
    gives an element its value for a property ([computed]): the inline
    style first, then the matching declaration of highest specificity,
    the later one on a tie.

    The sheet has no id selector, attribute selector, [!important] or
    at-rule; [parse_sheet] fails (returns [None]) on any other pseudo
    class, so the reading is checked to succeed on this sheet. *)

From S2P Require Import Prelude Text.

Local Open Scope string_scope.

(** ** The text of [styleElement.textContent] *)

(** Lines 450-526: the modal rules. *)
Definition styleSheet_modal : string := "
        /* Modal Styles */
        .modal {
            position: fixed;
            top: 0;
            left: 0;
            width: 100%;
            height: 100%;
            background-color: rgba(0, 0, 0, 0.5);
            display: flex;
            align-items: center;
            justify-content: center;
            z-index: 100;
            opacity: 0;
            transition: opacity 0.3s ease;
        }
        
        .modal-content {
            background-color: var(--card-bg);
            border-radius: var(--border-radius-md);
            width: 90%;
            max-width: 600px;
            max-height: 90vh;
            overflow-y: auto;
            box-shadow: var(--shadow-md);
            transform: translateY(-20px);
            transition: transform 0.3s ease;
        }
        
        .modal-header {
            padding: 20px;
            border-bottom: 1px solid var(--border-color);
            display: flex;
            align-items: center;
            justify-content: space-between;
        }
        
        .modal-header h3 {
            margin: 0;
            color: var(--primary-color);
        }
        
        .close-modal {
            background: transparent;
            border: none;
            color: var(--text-secondary);
            font-size: 1.2rem;
            cursor: pointer;
        }
        
        .close-modal:hover {
            color: var(--danger-color);
        }
        
        .modal-body {
            padding: 20px;
        }
        
        .chart-info h4 {
            color: var(--primary-color);
            margin: 20px 0 10px;
        }
        
        .chart-info p {
            line-height: 1.6;
            margin-bottom: 15px;
        }
        
        .chart-info ul {
            padding-left: 20px;
            margin-bottom: 15px;
        }
        
        .chart-info li {
            margin-bottom: 8px;
        }
        ".

(** Lines 527-567: the notification rules. *)
Definition styleSheet_notification : string := "
        /* Notification Styles */
        .notification {
            position: fixed;
            bottom: 20px;
            right: 20px;
            padding: 15px 20px;
            border-radius: var(--border-radius-md);
            background-color: var(--card-bg);
            box-shadow: var(--shadow-md);
            display: flex;
            align-items: center;
            transform: translateX(150%);
            transition: transform 0.3s ease;
            z-index: 90;
        }
        
        .notification.show {
            transform: translateX(0);
        }
        
        .notification i {
            margin-right: 10px;
            font-size: 1.2rem;
        }
        
        .notification.info i {
            color: var(--info-color);
        }
        
        .notification.success i {
            color: var(--success-color);
        }
        
        .notification.warning i {
            color: var(--warning-color);
        }
        
        .notification.error i {
            color: var(--danger-color);
        }
        ".

(** Lines 568-613: the error card rules. *)
Definition styleSheet_errors : string := "
        /* Error Card Styles */
        .error-card {
            background-color: var(--card-bg);
            border-radius: var(--border-radius-md);
            padding: 30px;
            text-align: center;
            box-shadow: var(--shadow-sm);
            max-width: 500px;
            margin: 0 auto;
        }
        
        .error-icon {
            font-size: 3rem;
            color: var(--danger-color);
            margin-bottom: 20px;
        }
        
        .error-card h3 {
            color: var(--text-primary);
            margin-bottom: 15px;
        }
        
        .error-card p {
            color: var(--text-secondary);
            margin-bottom: 25px;
        }
        
        .retry-btn {
            background-color: var(--primary-color);
            color: white;
            border: none;
            padding: 10px 20px;
            border-radius: var(--border-radius-sm);
            cursor: pointer;
            display: inline-flex;
            align-items: center;
        }
        
        .retry-btn i {
            margin-right: 8px;
        }
        
        .retry-btn:hover {
            background-color: var(--secondary-color);
        }
        ".

(** Lines 614-636: the card and library-info rules. *)
Definition styleSheet_cards : string := "
        /* Animation for visualization cards */
        .visualization-card {
            opacity: 0;
            transform: translateY(20px);
            transition: opacity 0.3s ease, transform 0.3s ease;
        }
        
        /* Library info section */
        .library-info {
            margin-bottom: 30px;
            grid-column: 1 / -1;
        }
        
        .library-info h2 {
            color: var(--primary-color);
            font-size: 1.8rem;
            margin-bottom: 10px;
        }
        
        .library-info p {
            color: var(--text-secondary);
        }
    ".


(** [styleElement.textContent = `...`] (lines 449-450): the four parts
    in source order. *)
Definition styleSheet : string :=
  styleSheet_modal +:+ styleSheet_notification +:+ styleSheet_errors +:+ styleSheet_cards.

(** ** Reading the sheet *)

(** CSS whitespace, which is also the separator of [className] tokens:
    TAB, LF, FF, CR, SPACE. *)
Definition is_css_space (c : ascii) : bool :=
  let n := nat_of_ascii c in (Nat.eqb n 9 || Nat.eqb n 10 || Nat.eqb n 12 || Nat.eqb n 13 || Nat.eqb n 32)%bool.

(** Comments [/* ... */] are dropped. *)
Fixpoint strip_comments (s : string) : string :=
  match s with
  | String "/" (String "*" r) => skip_comment r
  | String c r => String c (strip_comments r)
  | EmptyString => EmptyString
  end
with skip_comment (s : string) : string :=
  match s with
  | String "*" (String "/" r) => strip_comments r
  | String _ r => skip_comment r
  | EmptyString => EmptyString
  end.

(** The pieces of [s] between occurrences of [sep]. *)
Fixpoint split_on (sep : ascii) (s : string) : list string :=
  match s with
  | EmptyString => [EmptyString]
  | String c r =>
      if Ascii.eqb c sep then EmptyString :: split_on sep r
      else match split_on sep r with
           | w :: ws => String c w :: ws
           | [] => [String c EmptyString]
           end
  end.

(** [s] cut at the first [sep], which is dropped. *)
Fixpoint break_at (sep : ascii) (s : string) : option (string * string) :=
  match s with
  | EmptyString => None
  | String c r =>
      if Ascii.eqb c sep then Some (EmptyString, r)
      else '(a, b) ← break_at sep r; Some (String c a, b)
  end.

Fixpoint drop_space (s : string) : string :=
  match s with
  | String c r => if is_css_space c then drop_space r else s
  | EmptyString => EmptyString
  end.

Fixpoint rev_string (s : string) : string :=
  match s with
  | String c r => rev_string r +:+ String c EmptyString
  | EmptyString => EmptyString
  end.

(** Leading and trailing whitespace removed. *)
Definition trim (s : string) : string := rev_string (drop_space (rev_string (drop_space s))).

(** The whitespace-separated words of [s]: the tokens of a [className]
    ([classList]) and the compound selectors of a selector. *)
Fixpoint words_acc (cur : string) (s : string) : list string :=
  match s with
  | EmptyString => if String.eqb cur EmptyString then [] else [rev_string cur]
  | String c r =>
      if is_css_space c
      then (if String.eqb cur EmptyString then [] else [rev_string cur]) ++ words_acc EmptyString r
      else words_acc (String c cur) r
  end.
Definition words (s : string) : list string := words_acc EmptyString s.

(** A compound selector: an optional type, classes, and [:hover]. *)
Record compound := mk_compound {
  cp_tag : option string;
  cp_classes : list string;
  cp_hover : bool
}.

(** Compound selectors joined by the descendant combinator, outermost
    first, as written. *)
Definition selector := list compound.

Record rule := mk_rule {
  rule_sel : selector;
  rule_decls : list (string * string)   (** name and value, in order *)
}.

Definition parse_compound (w : string) : option compound :=
  let '(main, hover) :=
    match break_at ":" w with
    | Some (m, ps) => (m, Some ps)
    | None => (w, None)
    end in
  hv ← match hover with
       | None => Some false
       | Some ps => if String.eqb ps "hover" then Some true else None
       end;
  match split_on "." main with
  | t :: cls =>
      if existsb (String.eqb EmptyString) cls then None
      else Some (mk_compound (if String.eqb t EmptyString then None else Some t) cls hv)
  | [] => None
  end.

Definition parse_selector (s : string) : option selector :=
  match words s with
  | [] => None
  | ws => mapM parse_compound ws
  end.

(** A declaration [name: value]; an empty piece (after the last [;]) is
    skipped. *)
Definition parse_decl (d : string) : option (list (string * string)) :=
  let d := trim d in
  if String.eqb d EmptyString then Some []
  else '(n, v) ← break_at ":" d; Some [(trim n, trim v)].

Definition parse_rule (chunk : string) : option rule :=
  '(sel, body) ← break_at "{" chunk;
  sl ← parse_selector sel;
  ds ← mapM parse_decl (split_on ";" body);
  Some (mk_rule sl (concat ds)).

(** The rules of a sheet: every [}] closes a rule, and only whitespace
    may follow the last. *)
Fixpoint parse_rules (chunks : list string) : option (list rule) :=
  match chunks with
  | [] => Some []
  | [last] => if String.eqb (trim last) EmptyString then Some [] else None
  | c :: cs => r ← parse_rule c; rs ← parse_rules cs; Some (r :: rs)
  end.

Definition parse_sheet (s : string) : option (list rule) :=
  parse_rules (split_on "}" (strip_comments s)).

(** The rules the browser reads from the sheet; the reading succeeds
    ([style_rules_parse]). *)
Definition style_rules : list rule := default [] (parse_sheet styleSheet).

(** ** Matching and the cascade *)

(** An element as the cascade sees it: its tag, its class list, whether
    the pointer is over it, and its inline [style] declarations. *)
Record elem := mk_elem {
  el_tag : string;
  el_classes : list string;
  el_hover : bool;
  el_style : list (string * string)
}.

Definition matches_compound (c : compound) (e : elem) : bool :=
  match cp_tag c with Some t => String.eqb t (el_tag e) | None => true end &&
  forallb (fun k => bool_decide (k ∈ el_classes e)) (cp_classes c) &&
  implb (cp_hover c) (el_hover e).

(** The descendant combinator: the compounds, innermost first, match
    ancestors in order, innermost first, skipping any. *)
Fixpoint matches_ancestors (cs : list compound) (anc : list elem) {struct anc} : bool :=
  match cs with
  | [] => true
  | c :: cs' =>
      match anc with
      | [] => false
      | a :: anc' => (matches_compound c a && matches_ancestors cs' anc') || matches_ancestors cs anc'
      end
  end.

(** [path]: the element, then its ancestors from its parent up. *)
Definition matches (sel : selector) (path : list elem) : bool :=
  match reverse sel, path with
  | c :: cs, e :: anc => matches_compound c e && matches_ancestors cs anc
  | _, _ => false
  end.

(** Specificity: classes and pseudo-classes, then types (the sheet has
    no id selector). *)
Definition specificity (sel : selector) : nat * nat :=
  (sum_list_with (fun c => length (cp_classes c) + (if cp_hover c then 1 else 0)) sel,
   sum_list_with (fun c => match cp_tag c with Some _ => 1 | None => 0 end) sel).

Definition spec_le (a b : nat * nat) : bool :=
  (a.1 <? b.1)%nat || ((a.1 =? b.1)%nat && (a.2 <=? b.2)%nat).

(** The last declaration of [prop] in a declaration list. *)
Definition last_decl (prop : string) (ds : list (string * string)) : option string :=
  fold_left (fun acc d => if String.eqb d.1 prop then Some d.2 else acc) ds None.

(** One rule offered to the cascade: it replaces the best declaration so
    far when it matches, declares [prop], and is at least as specific
    (a later rule wins a tie). *)
Definition cascade_step (path : list elem) (prop : string)
    (best : option ((nat * nat) * string)) (r : rule) : option ((nat * nat) * string) :=
  if matches (rule_sel r) path then
    match last_decl prop (rule_decls r) with
    | Some v =>
        match best with
        | Some (s, _) => if spec_le s (specificity (rule_sel r)) then Some (specificity (rule_sel r), v) else best
        | None => Some (specificity (rule_sel r), v)
        end
    | None => best
    end
  else best.

Definition cascade (rs : list rule) (path : list elem) (prop : string) : option string :=
  snd <$> fold_left (cascade_step path prop) rs None.

(** The value of [prop] for the element at the head of [path]: its
    inline style, else the sheet's winning declaration; [None] leaves
    the property to its initial or inherited value. *)
Definition computed (rs : list rule) (path : list elem) (prop : string) : option string :=
  match path with
  | e :: _ =>
      match last_decl prop (el_style e) with
      | Some v => Some v
      | None => cascade rs path prop
      end
  | [] => None
  end.

(** ** Times in a [transition] value *)

Fixpoint digits_acc (acc : nat) (s : string) : option nat :=
  match s with
  | EmptyString => Some acc
  | String c r =>
      let n := nat_of_ascii c in
      if ((48 <=? n) && (n <=? 57))%nat then digits_acc (acc * 10 + (n - 48)) r else None
  end.

Definition nat_of_digits (s : string) : option nat :=
  if String.eqb s EmptyString then None else digits_acc 0 s.

(** A fraction of a second, to the millisecond. *)
Definition frac_ms (f : string) : option nat :=
  match String.length f with
  | 0 => Some 0
  | 1 => (fun d => d * 100) <$> nat_of_digits f
  | 2 => (fun d => d * 10) <$> nat_of_digits f
  | 3 => nat_of_digits f
  | _ => None
  end.

(** A CSS [<time>] in milliseconds: [300ms], [0.3s], [.3s], [2s]. *)
Definition parse_time (w : string) : option nat :=
  match rev_string w with
  | String "s" (String "m" r) => nat_of_digits (rev_string r)
  | String "s" r =>
      let t := rev_string r in
      match break_at "." t with
      | Some (i, f) =>
          i' ← (if String.eqb i EmptyString then Some 0 else nat_of_digits i);
          f' ← frac_ms f; Some (i' * 1000 + f')
      | None => (fun i => i * 1000) <$> nat_of_digits t
      end
  | _ => None
  end.

(** The duration of [prop]'s transition in a [transition] value, a
    comma-separated list of [property duration timing-function]. *)
Definition transition_ms (prop : string) (v : string) : option nat :=
  match List.find (fun piece => match words piece with n :: _ => String.eqb n prop | [] => false end)
                  (split_on "," v) with
  | Some piece => match words piece with _ :: d :: _ => parse_time d | _ => None end
  | None => None
  end.

(** ** The reading succeeds *)

Lemma style_rules_parse : parse_sheet styleSheet = Some style_rules.
Proof. vm_compute. reflexivity. Qed.

