(* ===== verification/Storage.v ===== *)
(** * The preference store ([localStorage])

    The controller keeps two preferences (script.js, lines 32, 36, 73
    and 85): ["darkTheme"], written as [String(isDarkTheme)], and
    ["selectedLibrary"].  [localStorage.getItem] returns [null] for a key
    never written; [setItem] stores [String(value)].

    The store is stated as an interface, the class [PrefStore] with the
    laws [PrefStoreLaws], so that what the theme and library components
    prove about their preferences uses only the laws; the page state
    uses the [gmap] implementation, which discharges them.  Storage
    failures (quota, disabled storage) are not modelled: the spec
    assumes best-effort availability and the code has no error path. *)

From S2P Require Import Prelude JsValue.

Class PrefStore (S : Type) := {
  store_get : S -> string -> option string;   (** [localStorage.getItem(k)] *)
  store_set : string -> string -> S -> S      (** [localStorage.setItem(k, v)] *)
}.

Class PrefStoreLaws (S : Type) `{PrefStore S} := {
  store_get_set_eq : forall s k v, store_get (store_set k v s) k = Some v;
  store_get_set_ne : forall s k k' v, k <> k' -> store_get (store_set k v s) k' = store_get s k'
}.

(** ** The implementation: a finite map from keys to strings *)

#[export] Instance gmap_pref_store : PrefStore (gmap string string) := {
  store_get m k := m !! k;
  store_set k v m := <[k := v]> m
}.

#[export] Instance gmap_pref_store_laws : PrefStoreLaws (gmap string string).
Proof.
  split.
  - intros s k v. apply lookup_insert_eq.
  - intros s k k' v Hne. by apply lookup_insert_ne.
Qed.

(** ** The two preference keys and their encodings *)

Definition key_darkTheme : string := "darkTheme".
Definition key_selectedLibrary : string := "selectedLibrary".

Lemma pref_keys_distinct : key_darkTheme <> key_selectedLibrary.
Proof. discriminate. Qed.

(** [localStorage.setItem('darkTheme', isDarkTheme)] stores
    [String(isDarkTheme)]. *)
Definition theme_string (dark : bool) : string := js_to_string (JBool dark).

(** The test of line 37: [localStorage.getItem('darkTheme') === 'true'];
    a missing key reads as [null], which is not ['true']. *)
Definition saved_dark {S} `{PrefStore S} (s : S) : bool :=
  match store_get s key_darkTheme with
  | Some v => String.eqb v "true"
  | None => false
  end.

(** The test of line 74: [if (lastSelectedLibrary)], a non-empty
    stored string. *)
Definition saved_library {S} `{PrefStore S} (s : S) : option string :=
  match store_get s key_selectedLibrary with
  | Some v => if String.eqb v "" then None else Some v
  | None => None
  end.

Section PrefLaws.
Context {S : Type} `{PrefStoreLaws S}.

Lemma saved_dark_write (s : S) b :
  saved_dark (store_set key_darkTheme (theme_string b) s) = b.
Proof. unfold saved_dark. rewrite store_get_set_eq. by destruct b. Qed.

Lemma saved_dark_other (s : S) k v :
  k <> key_darkTheme -> saved_dark (store_set k v s) = saved_dark s.
Proof. intros Hk. unfold saved_dark. by rewrite store_get_set_ne. Qed.

Lemma saved_library_write (s : S) v :
  v <> ""%string -> saved_library (store_set key_selectedLibrary v s) = Some v.
Proof.
  intros Hv. unfold saved_library. rewrite store_get_set_eq.
  by destruct (String.eqb_spec v "").
Qed.

Lemma saved_library_other (s : S) k v :
  k <> key_selectedLibrary -> saved_library (store_set k v s) = saved_library s.
Proof. intros Hk. unfold saved_library. by rewrite store_get_set_ne. Qed.
End PrefLaws.

#[export] Hint Resolve pref_keys_distinct : dash.
#[export] Hint Rewrite @saved_dark_write @saved_library_write : dash_rw.
