(* ===== verification/Page.v ===== *)
(** * The page state and the handler monad

    Every handler of script.js reads and writes shared state: the DOM
    elements it looked up at [DOMContentLoaded] (lines 3-12), the
    elements it creates, [localStorage], and the host's timer queue and
    network.  [page] collects the parts of that state the code touches;
    each handler is a computation of the monad [M], which threads the
    page and can end in a thrown JavaScript exception, leaving the
    effects made before the throw in place, as JavaScript does.

    [browser] collects what the page's behaviour depends on that the
    code does not fix: the clock's date string, the CSS selector engine
    on the two selectors the code builds from data, and the vendor
    fullscreen entry points.  [browser_ok] states what a conforming
    browser guarantees on well-formed selectors. *)

From S2P Require Import Prelude JsValue Text Storage.

(** ** Elements *)

(** The glyph inside the theme toggle: [fa-moon] (light) or [fa-sun]. *)
Inductive icon := IconMoon | IconSun.

#[export] Instance icon_eq_dec : EqDecision icon.
Proof. solve_decision. Defined.

(** A [.library-btn]: its [data-library] attribute ([getAttribute]
    returns [null] when it is absent) and its [active] class. *)
Record button := mk_button {
  btn_library : option string;
  btn_active : bool
}.

(** A [.visualization-card] built by [displayVisualizations]. *)
Record card := mk_card {
  card_id : nat;
  card_viz : jval;          (** the descriptor [viz] the card's listeners capture *)
  card_plotly : bool;       (** built by the Plotly branch (lines 161-219) *)
  card_imgs : list string;  (** the [src] of each [img] of the card body *)
  card_date : string;       (** [formatDate(new Date())] at render time *)
  card_revealed : bool      (** the reveal timer set opacity 1 (lines 272-275) *)
}.

(** The content of [#visualization-container]. *)
Inductive view :=
| VEmpty                                  (** [innerHTML = ''] *)
| VError (msg : string)                   (** the error card of [showErrorMessage] *)
| VResults (heading : string) (cards : list card).
    (** the [.library-info] block and the cards *)

(** Elements appended to [body]: the info modal and the toasts. *)
Inductive overlay :=
| OModal (id : nat) (title : string) (lower_title : string) (opened : bool)
| OToast (id : nat) (kind : string) (icon_class : string) (msg : string) (shown : bool).

(** ** The event loop's pending work *)

(** The callbacks passed to [setTimeout]. *)
Inductive timer_action :=
| TReveal (card : nat)        (** lines 272-275 *)
| TModalOpen (modal : nat)    (** lines 382-385 *)
| TToastShow (toast : nat)    (** lines 415-417 *)
| TToastHide (toast : nat)    (** lines 420-425 *)
| TToastRemove (toast : nat). (** lines 422-424 *)

Record timer := mk_timer {
  tm_due : nat;        (** the clock value the delay expires at *)
  tm_seq : nat;        (** registration order, which breaks ties *)
  tm_action : timer_action
}.

(** The two kinds of [fetch] the code issues. *)
Inductive request :=
| RqVisualizations (library : string)       (** POST get_visualizations, lines 93-99 *)
| RqDownload (image : string) (title : string).  (** POST /download_image, lines 280-287 *)

(** An [Image] preload of a Plotly card (lines 194-202): the card, whether
    [plotElement] was found, and the [src]. *)
Record preload := mk_preload {
  pl_id : nat;
  pl_card : nat;
  pl_found : bool;
  pl_src : string
}.

(** ** The page *)

Record page := mk_page {
  sidebar_active : bool   (** [.sidebar] has class [active] (line 16) *);
  dark_theme : bool   (** [body] has class [dark-theme] (lines 21, 38) *);
  theme_icon : icon   (** the glyph inside [#theme-toggle] (lines 25, 27, 39) *);
  panel_active : bool   (** [#dataset-info-panel] has class [active] (lines 44-58) *);
  buttons : list button   (** the [.library-btn] elements, in document order *);
  welcome_shown : bool   (** [#welcome-message] is displayed (line 88) *);
  loading_shown : bool   (** [#loading] is displayed (lines 89, 107, 117) *);
  container : view   (** the content of [#visualization-container] *);
  overlays : list overlay   (** modals and toasts appended to [body], in order *);
  store : gmap string string   (** [localStorage] *);
  timers : list timer   (** pending [setTimeout] callbacks *);
  requests : list (nat * request)   (** pending [fetch] calls, by request id *);
  preloads : list preload   (** pending [Image] preloads of Plotly cards (line 194) *);
  fullscreen : option nat   (** the card shown fullscreen, if any *);
  downloads : list string   (** the file names saved by downloads, latest last *);
  styles_in : bool   (** the [style] element of lines 449-638 is in [head] *);
  clock : nat   (** the host's clock, in milliseconds *);
  next_id : nat   (** source of fresh ids for elements, timers and requests *);
  console : list js_exn   (** the errors passed to [console.error] (lines 119, 309), in order *)
}.

Definition set_sidebar_active (v : bool) (p : page) : page :=
  mk_page v (dark_theme p) (theme_icon p) (panel_active p) (buttons p) (welcome_shown p) (loading_shown p) (container p) (overlays p) (store p) (timers p) (requests p) (preloads p) (fullscreen p) (downloads p) (styles_in p) (clock p) (next_id p) (console p).
Definition set_dark_theme (v : bool) (p : page) : page :=
  mk_page (sidebar_active p) v (theme_icon p) (panel_active p) (buttons p) (welcome_shown p) (loading_shown p) (container p) (overlays p) (store p) (timers p) (requests p) (preloads p) (fullscreen p) (downloads p) (styles_in p) (clock p) (next_id p) (console p).
Definition set_theme_icon (v : icon) (p : page) : page :=
  mk_page (sidebar_active p) (dark_theme p) v (panel_active p) (buttons p) (welcome_shown p) (loading_shown p) (container p) (overlays p) (store p) (timers p) (requests p) (preloads p) (fullscreen p) (downloads p) (styles_in p) (clock p) (next_id p) (console p).
Definition set_panel_active (v : bool) (p : page) : page :=
  mk_page (sidebar_active p) (dark_theme p) (theme_icon p) v (buttons p) (welcome_shown p) (loading_shown p) (container p) (overlays p) (store p) (timers p) (requests p) (preloads p) (fullscreen p) (downloads p) (styles_in p) (clock p) (next_id p) (console p).
Definition set_buttons (v : list button) (p : page) : page :=
  mk_page (sidebar_active p) (dark_theme p) (theme_icon p) (panel_active p) v (welcome_shown p) (loading_shown p) (container p) (overlays p) (store p) (timers p) (requests p) (preloads p) (fullscreen p) (downloads p) (styles_in p) (clock p) (next_id p) (console p).
Definition set_welcome_shown (v : bool) (p : page) : page :=
  mk_page (sidebar_active p) (dark_theme p) (theme_icon p) (panel_active p) (buttons p) v (loading_shown p) (container p) (overlays p) (store p) (timers p) (requests p) (preloads p) (fullscreen p) (downloads p) (styles_in p) (clock p) (next_id p) (console p).
Definition set_loading_shown (v : bool) (p : page) : page :=
  mk_page (sidebar_active p) (dark_theme p) (theme_icon p) (panel_active p) (buttons p) (welcome_shown p) v (container p) (overlays p) (store p) (timers p) (requests p) (preloads p) (fullscreen p) (downloads p) (styles_in p) (clock p) (next_id p) (console p).
Definition set_container (v : view) (p : page) : page :=
  mk_page (sidebar_active p) (dark_theme p) (theme_icon p) (panel_active p) (buttons p) (welcome_shown p) (loading_shown p) v (overlays p) (store p) (timers p) (requests p) (preloads p) (fullscreen p) (downloads p) (styles_in p) (clock p) (next_id p) (console p).
Definition set_overlays (v : list overlay) (p : page) : page :=
  mk_page (sidebar_active p) (dark_theme p) (theme_icon p) (panel_active p) (buttons p) (welcome_shown p) (loading_shown p) (container p) v (store p) (timers p) (requests p) (preloads p) (fullscreen p) (downloads p) (styles_in p) (clock p) (next_id p) (console p).
Definition set_store (v : gmap string string) (p : page) : page :=
  mk_page (sidebar_active p) (dark_theme p) (theme_icon p) (panel_active p) (buttons p) (welcome_shown p) (loading_shown p) (container p) (overlays p) v (timers p) (requests p) (preloads p) (fullscreen p) (downloads p) (styles_in p) (clock p) (next_id p) (console p).
Definition set_timers (v : list timer) (p : page) : page :=
  mk_page (sidebar_active p) (dark_theme p) (theme_icon p) (panel_active p) (buttons p) (welcome_shown p) (loading_shown p) (container p) (overlays p) (store p) v (requests p) (preloads p) (fullscreen p) (downloads p) (styles_in p) (clock p) (next_id p) (console p).
Definition set_requests (v : list (nat * request)) (p : page) : page :=
  mk_page (sidebar_active p) (dark_theme p) (theme_icon p) (panel_active p) (buttons p) (welcome_shown p) (loading_shown p) (container p) (overlays p) (store p) (timers p) v (preloads p) (fullscreen p) (downloads p) (styles_in p) (clock p) (next_id p) (console p).
Definition set_preloads (v : list preload) (p : page) : page :=
  mk_page (sidebar_active p) (dark_theme p) (theme_icon p) (panel_active p) (buttons p) (welcome_shown p) (loading_shown p) (container p) (overlays p) (store p) (timers p) (requests p) v (fullscreen p) (downloads p) (styles_in p) (clock p) (next_id p) (console p).
Definition set_fullscreen (v : option nat) (p : page) : page :=
  mk_page (sidebar_active p) (dark_theme p) (theme_icon p) (panel_active p) (buttons p) (welcome_shown p) (loading_shown p) (container p) (overlays p) (store p) (timers p) (requests p) (preloads p) v (downloads p) (styles_in p) (clock p) (next_id p) (console p).
Definition set_downloads (v : list string) (p : page) : page :=
  mk_page (sidebar_active p) (dark_theme p) (theme_icon p) (panel_active p) (buttons p) (welcome_shown p) (loading_shown p) (container p) (overlays p) (store p) (timers p) (requests p) (preloads p) (fullscreen p) v (styles_in p) (clock p) (next_id p) (console p).
Definition set_styles_in (v : bool) (p : page) : page :=
  mk_page (sidebar_active p) (dark_theme p) (theme_icon p) (panel_active p) (buttons p) (welcome_shown p) (loading_shown p) (container p) (overlays p) (store p) (timers p) (requests p) (preloads p) (fullscreen p) (downloads p) v (clock p) (next_id p) (console p).
Definition set_clock (v : nat) (p : page) : page :=
  mk_page (sidebar_active p) (dark_theme p) (theme_icon p) (panel_active p) (buttons p) (welcome_shown p) (loading_shown p) (container p) (overlays p) (store p) (timers p) (requests p) (preloads p) (fullscreen p) (downloads p) (styles_in p) v (next_id p) (console p).
Definition set_next_id (v : nat) (p : page) : page :=
  mk_page (sidebar_active p) (dark_theme p) (theme_icon p) (panel_active p) (buttons p) (welcome_shown p) (loading_shown p) (container p) (overlays p) (store p) (timers p) (requests p) (preloads p) (fullscreen p) (downloads p) (styles_in p) (clock p) v (console p).
Definition set_console (v : list js_exn) (p : page) : page :=
  mk_page (sidebar_active p) (dark_theme p) (theme_icon p) (panel_active p) (buttons p) (welcome_shown p) (loading_shown p) (container p) (overlays p) (store p) (timers p) (requests p) (preloads p) (fullscreen p) (downloads p) (styles_in p) (clock p) (next_id p) v.

(** The page as the HTML leaves it: light theme, moon icon, sidebar and
    panel closed, the welcome message shown, the loading indicator
    hidden, an empty container. *)
Definition html_page (bs : list button) (st : gmap string string) : page :=
  mk_page false false IconMoon false bs true false VEmpty [] st [] [] [] None [] false 0 0 [].

(** ** The host browser *)

(** The vendor fullscreen entry points an element or the document has,
    in the order the code tests them (lines 315-333). *)
Inductive fs_vendor := FsStd | FsMoz | FsWebkit | FsMs.

Record browser := mk_browser {
  (** [formatDate(new Date())] at a clock value ([toLocaleDateString]). *)
  date_of : nat -> string;
  (** [card.querySelector('#' + id)] on a card holding an element with
      that id: found ([true]), [null] ([false]) or a [SyntaxError]. *)
  id_query : string -> outcome bool;
  (** [document.querySelector('.library-btn[data-library="v"]')] over
      the buttons' attributes: the index of the element found. *)
  attr_query : string -> list (option string) -> outcome (option nat);
  (** which [requestFullscreen] variants an element has *)
  fs_request : list fs_vendor;
  (** which [exitFullscreen] variants the document has *)
  fs_exit : list fs_vendor;
  (** whether the document implements the standard
      [document.fullscreenElement] (line 314); a browser with only the
      prefixed API leaves it [undefined] *)
  fs_element : bool
}.

(** The first index whose attribute is [Some v]. *)
Fixpoint find_attr (v : string) (attrs : list (option string)) : option nat :=
  match attrs with
  | [] => None
  | a :: attrs' =>
      if decide (a = Some v) then Some 0 else S <$> find_attr v attrs'
  end.

(** A value that can be written inside a double-quoted CSS string
    without an escape: no double quote (34), no backslash (92), no line
    break (10, 12, 13). *)
Definition attr_plain_char (c : ascii) : bool :=
  let n := nat_of_ascii c in
  negb ((n =? 34) || (n =? 92) || (n =? 10) || (n =? 12) || (n =? 13)).

Definition attr_plain (v : string) : bool := all_chars attr_plain_char v.

(** What any conforming selector engine does on the selectors the code
    builds from well-formed data. *)
Class browser_ok (B : browser) := {
  id_query_ident : forall s, css_ident s = true -> id_query B s = Ret true;
  attr_query_plain : forall v attrs,
    attr_plain v = true -> attr_query B v attrs = Ret (find_attr v attrs);
  (** the element found is one of the buttons *)
  attr_query_range : forall v attrs i,
    attr_query B v attrs = Ret (Some i) -> i < length attrs
}.

Lemma find_attr_range v attrs i : find_attr v attrs = Some i -> i < length attrs.
Proof.
  revert i. induction attrs as [|a attrs IH]; intros i; simpl; [done|].
  case_decide; [intros [= <-]; lia|].
  destruct (find_attr v attrs) as [j|] eqn:E; simpl; [|done].
  intros [= <-]. specialize (IH j eq_refl). lia.
Qed.

(** A reference browser: a selector whose id is a plain identifier is
    found, any other raises [SyntaxError]; attribute values are matched
    literally when plain.  It is one browser satisfying [browser_ok],
    used to run the model on concrete inputs. *)
Definition ref_browser : browser := {|
  date_of := fun _ => "Nov 9, 2026"%string;
  id_query := fun s => if css_ident s then Ret true else Exc SyntaxError;
  attr_query := fun v attrs => if attr_plain v then Ret (find_attr v attrs) else Exc SyntaxError;
  fs_request := [FsStd; FsWebkit];
  fs_exit := [FsStd; FsWebkit];
  fs_element := true
|}.

#[export] Instance ref_browser_ok : browser_ok ref_browser.
Proof.
  split.
  - intros s H. simpl. by rewrite H.
  - intros v attrs H. simpl. by rewrite H.
  - intros v attrs i. simpl. destruct (attr_plain v); [|done].
    intros [= H]. by apply find_attr_range in H.
Qed.

(** ** The handler monad: state passing with JavaScript exceptions *)

Definition M (A : Type) : Type := page -> outcome A * page.

Definition mret {A} (a : A) : M A := fun p => (Ret a, p).

Definition mbind {A B} (m : M A) (k : A -> M B) : M B :=
  fun p => match m p with
           | (Ret a, p') => k a p'
           | (Exc e, p') => (Exc e, p')
           end.

Notation "'let*' x ':=' m 'in' k" := (mbind m (fun x => k))
  (at level 10, x name, m at level 100, k at level 200) : dash_scope.
Notation "m ;;; k" := (mbind m (fun _ => k))
  (at level 100, right associativity) : dash_scope.
Open Scope dash_scope.

(** [throw e]. *)
Definition mthrow {A} (e : js_exn) : M A := fun p => (Exc e, p).

(** A pure JavaScript expression that may throw. *)
Definition lift {A} (o : outcome A) : M A := fun p => (o, p).

Definition gets {A} (f : page -> A) : M A := fun p => (Ret (f p), p).

Definition modify (f : page -> page) : M unit := fun p => (Ret tt, f p).

(** [try { m } catch (e) { h(e) }]. *)
Definition mcatch {A} (m : M A) (h : js_exn -> M A) : M A :=
  fun p => match m p with
           | (Exc e, p') => h e p'
           | r => r
           end.

(** [xs.forEach(f)]: stops at the first exception. *)
Fixpoint for_each {A} (f : A -> M unit) (xs : list A) : M unit :=
  match xs with
  | [] => mret tt
  | x :: xs' => f x ;;; for_each f xs'
  end.

(** [for_each] with the index, as [forEach((x, index) => ...)]. *)
Fixpoint for_each_i {A} (f : nat -> A -> M unit) (i : nat) (xs : list A) : M unit :=
  match xs with
  | [] => mret tt
  | x :: xs' => f i x ;;; for_each_i f (S i) xs'
  end.

(** The state a computation leaves, whatever it returns. *)
Definition run {A} (m : M A) (p : page) : page := snd (m p).

(** ** Primitive effects *)

(** A fresh id for a new element, timer or request. *)
Definition fresh : M nat :=
  fun p => (Ret (next_id p), set_next_id (S (next_id p)) p).

(** [setTimeout(f, delay)]. *)
Definition set_timeout (delay : nat) (a : timer_action) : M unit :=
  let* id := fresh in
  modify (fun p => set_timers (timers p ++ [mk_timer (clock p + delay) id a]) p).

(** [localStorage.setItem(k, v)]. *)
Definition set_item (k v : string) : M unit :=
  modify (fun p => set_store (store_set k v (store p)) p).

(** Issue a [fetch]: it stays pending until the host completes it. *)
Definition send (r : request) : M unit :=
  let* id := fresh in
  modify (fun p => set_requests (requests p ++ [(id, r)]) p).

(** [document.body.appendChild(el)]. *)
Definition append_overlay (o : overlay) : M unit :=
  modify (fun p => set_overlays (overlays p ++ [o]) p).

(** [console.error('Error:', error)]: the error is recorded. *)
Definition console_error (e : js_exn) : M unit :=
  modify (fun p => set_console (console p ++ [e]) p).

(** ** Monad laws and computation rules *)

Lemma mbind_ret {A B} (a : A) (k : A -> M B) : mbind (mret a) k = k a.
Proof. reflexivity. Qed.

Lemma run_mbind_ret {A B} (m : M A) (k : A -> M B) p a p' :
  m p = (Ret a, p') -> mbind m k p = k a p'.
Proof. intros H. unfold mbind. by rewrite H. Qed.

Lemma run_mbind_exc {A B} (m : M A) (k : A -> M B) p e p' :
  m p = (Exc e, p') -> mbind m k p = (Exc e, p').
Proof. intros H. unfold mbind. by rewrite H. Qed.

Lemma mbind_assoc {A B C} (m : M A) (k1 : A -> M B) (k2 : B -> M C) p :
  mbind (mbind m k1) k2 p = mbind m (fun a => mbind (k1 a) k2) p.
Proof. unfold mbind. by destruct (m p) as [[a|e] p']. Qed.

Lemma for_each_app {A} (f : A -> M unit) xs ys p :
  for_each f (xs ++ ys) p = mbind (for_each f xs) (fun _ => for_each f ys) p.
Proof.
  revert p. induction xs as [|x xs IH]; intros p; [reflexivity|].
  simpl. rewrite mbind_assoc. unfold mbind at 1 2.
  destruct (f x p) as [[[]|e] p']; [apply IH|reflexivity].
Qed.

#[export] Hint Resolve run_mbind_ret run_mbind_exc : dash.

(** ** Relational postconditions of handlers

    [keeps R m]: whatever [m] returns, the page it leaves is related by
    [R] to the page it started from.  For a preorder [R] this is closed
    under the monad's combinators, so frame conditions ("this handler
    never touches the buttons") follow from the primitives' by
    [auto with dash]. *)

Definition keeps {A} (R : relation page) (m : M A) : Prop :=
  forall p, R p (run m p).

Section Keeps.
Context (R : relation page) `{!PreOrder R}.

Lemma keeps_ret {A} (a : A) : keeps R (mret a).
Proof. intros p. unfold run. simpl. reflexivity. Qed.

Lemma keeps_throw {A} e : keeps R (mthrow (A:=A) e).
Proof. intros p. unfold run. simpl. reflexivity. Qed.

Lemma keeps_lift {A} (o : outcome A) : keeps R (lift o).
Proof. intros p. unfold run. simpl. reflexivity. Qed.

Lemma keeps_gets {A} (f : page -> A) : keeps R (gets f).
Proof. intros p. unfold run. simpl. reflexivity. Qed.

Lemma keeps_modify f : (forall p, R p (f p)) -> keeps R (modify f).
Proof. intros H p. apply H. Qed.

Lemma keeps_bind {A B} (m : M A) (k : A -> M B) :
  keeps R m -> (forall a, keeps R (k a)) -> keeps R (mbind m k).
Proof.
  intros Hm Hk p. unfold run, mbind. specialize (Hm p). unfold run in Hm.
  destruct (m p) as [[a|e] p'] eqn:E; simpl in *; [|done].
  etrans; [exact Hm|]. apply Hk.
Qed.

Lemma keeps_catch {A} (m : M A) h :
  keeps R m -> (forall e, keeps R (h e)) -> keeps R (mcatch m h).
Proof.
  intros Hm Hh p. unfold run, mcatch. specialize (Hm p). unfold run in Hm.
  destruct (m p) as [[a|e] p'] eqn:E; simpl in *; [done|].
  etrans; [exact Hm|]. apply Hh.
Qed.

Lemma keeps_for_each {A} (f : A -> M unit) xs :
  (forall x, keeps R (f x)) -> keeps R (for_each f xs).
Proof.
  intros Hf. induction xs as [|x xs IH]; simpl.
  - apply keeps_ret.
  - apply keeps_bind; auto.
Qed.

Lemma keeps_for_each_i {A} (f : nat -> A -> M unit) xs :
  (forall i x, keeps R (f i x)) -> forall i, keeps R (for_each_i f i xs).
Proof.
  intros Hf. induction xs as [|x xs IH]; intros i; simpl.
  - apply keeps_ret.
  - apply keeps_bind; auto.
Qed.

Lemma keeps_match_option {A B} (o : option A) (k : A -> M B) (d : M B) :
  (forall a, keeps R (k a)) -> keeps R d ->
  keeps R (match o with Some a => k a | None => d end).
Proof. destruct o; auto. Qed.

Lemma keeps_if {A} (b : bool) (m1 m2 : M A) :
  keeps R m1 -> keeps R m2 -> keeps R (if b then m1 else m2).
Proof. destruct b; auto. Qed.
End Keeps.

#[export] Hint Resolve keeps_ret keeps_throw keeps_lift keeps_gets keeps_bind
  keeps_catch keeps_for_each keeps_for_each_i keeps_match_option keeps_if : dash.

(** The fields the renderer never writes: it writes only the container,
    the timers, the preloads and the id counter. *)
Definition render_frame (p p' : page) : Prop :=
  sidebar_active p' = sidebar_active p /\ dark_theme p' = dark_theme p /\
  theme_icon p' = theme_icon p /\ panel_active p' = panel_active p /\
  buttons p' = buttons p /\ store p' = store p /\ welcome_shown p' = welcome_shown p /\
  loading_shown p' = loading_shown p /\
  overlays p' = overlays p /\ requests p' = requests p /\
  fullscreen p' = fullscreen p /\ downloads p' = downloads p /\
  styles_in p' = styles_in p /\ clock p' = clock p /\ console p' = console p.

(** A stronger relation implies a weaker one after any handler. *)
Lemma keeps_weaken {A} (R1 R2 : relation page) (m : M A) :
  (forall p p', R1 p p' -> R2 p p') -> keeps R1 m -> keeps R2 m.
Proof. intros H Hm p. apply H, Hm. Qed.

#[export] Instance render_frame_preorder : PreOrder render_frame.
Proof.
  split.
  - intros p. unfold render_frame. repeat split.
  - intros p1 p2 p3 H12 H23. unfold render_frame in *. destruct_and!. repeat split; congruence.
Qed.

Lemma keeps_fresh_frame : keeps render_frame fresh.
Proof. intros p. destruct p. unfold render_frame. naive_solver. Qed.

Lemma keeps_set_timeout_frame d a : keeps render_frame (set_timeout d a).
Proof.
  unfold set_timeout. apply keeps_bind; [apply _|apply keeps_fresh_frame|].
  intros id. apply keeps_modify. intros p. destruct p. unfold render_frame. naive_solver.
Qed.

#[export] Hint Resolve keeps_fresh_frame keeps_set_timeout_frame : dash.

(** [solve_keeps]: decompose a handler along its combinators and close
    the leaves with the [dash] hints. *)
Ltac solve_keeps :=
  repeat match goal with
  | |- keeps _ (mbind _ _) => apply keeps_bind; [apply _| |intros]
  | |- keeps _ (mcatch _ _) => apply keeps_catch; [apply _| |intros]
  | |- keeps _ (for_each _ _) => apply keeps_for_each; [apply _|intros]
  | |- keeps _ (for_each_i _ _ _) => apply keeps_for_each_i; [apply _|intros]
  | |- keeps _ (mret _) => apply keeps_ret; apply _
  | |- keeps _ (mthrow _) => apply keeps_throw; apply _
  | |- keeps _ (lift _) => apply keeps_lift; apply _
  | |- keeps _ (gets _) => apply keeps_gets; apply _
  | |- keeps _ (if _ then _ else _) => apply keeps_if
  | |- keeps _ (match ?o with _ => _ end) => destruct o
  | |- keeps _ (modify _) => apply keeps_modify; intros
  | |- keeps _ (console_error _) => unfold console_error
  end; auto with dash.
