(* ===== verification/Render.v ===== *)
(** * The card renderer: [displayVisualizations]

    [displayVisualizations(data)] (script.js, lines 149-277) clears the
    container, appends the [.library-info] heading, builds one card per
    element of [data.visualizations] and schedules the staggered reveal.
    The Plotly branch (lines 161-219) leaves the plot element empty and
    issues an [Image] preload whose [onload] inserts the image; the
    other branch (lines 220-266) inserts the image at once.

    The card's three buttons get listeners that capture [viz]; they are
    modelled by the card keeping [viz] ([card_viz]) and by the handlers
    of [Download] and [Modal] reading it when clicked.  Every read that
    can throw is kept where the code makes it, so a malformed
    descriptor stops the loop exactly where JavaScript would, with the
    cards built so far already appended. *)

From S2P Require Import Prelude JsValue Text Storage Page.

(** ** Cards in the container *)

(** The cards of a view ([container.querySelectorAll('.visualization-card')]). *)
Definition view_cards (v : view) : list card :=
  match v with
  | VResults _ cs => cs
  | _ => []
  end.

(** [visualizationContainer.appendChild(vizCard)] after the heading. *)
Definition append_card (c : card) : M unit :=
  modify (fun p =>
    set_container
      (match container p with
       | VResults h cs => VResults h (cs ++ [c])
       | v => v
       end) p).

(** Apply [f] to the card with id [cid] of the container, if it is there;
    a callback that reaches a card no longer in the container changes
    nothing visible. *)
Definition update_card (cid : nat) (f : card -> card) (v : view) : view :=
  match v with
  | VResults h cs => VResults h (map (fun c => if decide (card_id c = cid) then f c else c) cs)
  | v => v
  end.

Definition set_revealed (c : card) : card :=
  mk_card (card_id c) (card_viz c) (card_plotly c) (card_imgs c) (card_date c) true.

Definition add_img (src : string) (c : card) : card :=
  mk_card (card_id c) (card_viz c) (card_plotly c) (card_imgs c ++ [src]) (card_date c)
    (card_revealed c).

(** A method of [String.prototype] called on [v]: only strings have it. *)
Definition str_method (v : jval) (f : string -> string) : outcome string :=
  match v with
  | JStr s => Ret (f s)
  | _ => Exc TypeError
  end.

Section Render.
Context (B : browser).

(** [formatDate(new Date())] (lines 428-431): the host's
    [toLocaleDateString('en-US', ...)] of the current time. *)
Definition formatDate (now : nat) : string := date_of B now.

(** One iteration of the Plotly branch (lines 163-218). *)
Definition render_plotly_card (viz : jval) : M unit :=
  (* the template of lines 167-188: ${viz.title}, then the id built
     with viz.title.replace(/\s+/g, '-').toLowerCase(), then the date *)
  let* title := lift (get_own viz "title") in
  let* _ := lift (str_method title plot_slug) in
  let* now := gets clock in
  let* cid := fresh in
  append_card (mk_card cid viz true [] (formatDate now) false) ;;;      (* line 190 *)
  let* id := lift (str_method title plot_id) in
  let* found := lift (id_query B id) in                                (* line 193 *)
  let* image := lift (get_own viz "image") in                          (* line 202 *)
  let* pid := fresh in
  modify (fun p => set_preloads (preloads p ++ [mk_preload pid cid found (js_to_string image)]) p).

(** One iteration of the other branch (lines 222-265): the template
    reads [viz.title], [viz.image], [viz.title] and the date. *)
Definition render_image_card (viz : jval) : M unit :=
  let* title := lift (get_own viz "title") in
  let* image := lift (get_own viz "image") in
  let* now := gets clock in
  let* cid := fresh in
  append_card (mk_card cid viz false [js_to_string image] (formatDate now) false).

(** The staggered reveal (lines 270-276): card [index] after
    [100 * index] ms. *)
Definition schedule_reveals : M unit :=
  let* cs := gets (fun p => view_cards (container p)) in
  for_each_i (fun i c => set_timeout (100 * i) (TReveal (card_id c))) 0 cs.

(** [displayVisualizations(data)] (lines 149-277). *)
Definition displayVisualizations (data : jval) : M unit :=
  modify (set_container VEmpty) ;;;                                     (* line 150 *)
  let* library := lift (get_own data "library") in
  let* name := lift (getLibraryDisplayName library) in                  (* lines 155-158 *)
  modify (set_container (VResults name [])) ;;;                         (* line 159 *)
  let* vizs := lift (get_own data "visualizations") in
  let* xs := lift (as_array vizs) in
  (if js_eq_str library "plotly"                                        (* line 161 *)
   then for_each render_plotly_card xs
   else for_each render_image_card xs) ;;;
  schedule_reveals.
End Render.

(** ** Callbacks the renderer leaves pending *)

(** The reveal timer of one card (lines 272-275). *)
Definition reveal_card (cid : nat) : M unit :=
  modify (fun p => set_container (update_card cid set_revealed (container p)) p).

(** [image.onload] of a Plotly preload (lines 195-201): an [img] with the
    preloaded source is appended to the plot element; when the element
    was not found ([plotElement] is [null]) the handler throws. *)
Definition preload_loaded (pl : preload) : M unit :=
  if pl_found pl
  then modify (fun p => set_container (update_card (pl_card pl) (add_img (pl_src pl)) (container p)) p)
  else mthrow TypeError.

(** ** Frame: rendering writes only the container, the timers, the
    preloads and the id counter *)

Lemma frame_set_container v p : render_frame p (set_container v p).
Proof. destruct p. unfold render_frame. naive_solver. Qed.

Lemma frame_set_preloads v p : render_frame p (set_preloads v p).
Proof. destruct p. unfold render_frame. naive_solver. Qed.

#[export] Hint Resolve frame_set_container frame_set_preloads : dash.

Lemma keeps_frame_append_card c : keeps render_frame (append_card c).
Proof. unfold append_card. solve_keeps. Qed.

#[export] Hint Resolve keeps_frame_append_card : dash.

Lemma keeps_frame_displayVisualizations B data :
  keeps render_frame (displayVisualizations B data).
Proof.
  unfold displayVisualizations, render_plotly_card, render_image_card, schedule_reveals.
  solve_keeps.
Qed.

(** ** The container stays a results view once the heading is in *)

Definition is_results (v : view) : bool :=
  match v with VResults _ _ => true | _ => false end.

Definition stays_results (p p' : page) : Prop :=
  is_results (container p) = true -> is_results (container p') = true.

#[export] Instance stays_results_preorder : PreOrder stays_results.
Proof. split; unfold stays_results; [intros p|intros p1 p2 p3]; auto. Qed.

Lemma stays_results_same (p p' : page) :
  container p' = container p -> stays_results p p'.
Proof. intros H. unfold stays_results. by rewrite H. Qed.

Lemma keeps_results_append_card c : keeps stays_results (append_card c).
Proof.
  unfold append_card. solve_keeps. unfold stays_results. simpl.
  by destruct (container p).
Qed.

Lemma keeps_results_fresh : keeps stays_results fresh.
Proof. intros p. by apply stays_results_same. Qed.

Lemma keeps_results_set_timeout d a : keeps stays_results (set_timeout d a).
Proof.
  unfold set_timeout. solve_keeps.
  - apply keeps_results_fresh.
  - by apply stays_results_same.
Qed.

#[export] Hint Resolve keeps_results_append_card keeps_results_fresh
  keeps_results_set_timeout : dash.

(** What runs after the heading is appended (line 161 on). *)
Lemma keeps_results_cards B library xs :
  keeps stays_results
    ((if js_eq_str library "plotly"
      then for_each (render_plotly_card B) xs
      else for_each (render_image_card B) xs) ;;; schedule_reveals).
Proof.
  unfold render_plotly_card, render_image_card, schedule_reveals.
  solve_keeps. by apply stays_results_same.
Qed.

(** A [displayVisualizations] that returns normally leaves a results view
    in the container. *)
Lemma displayVisualizations_results B data p p' :
  displayVisualizations B data p = (Ret tt, p') -> is_results (container p') = true.
Proof.
  unfold displayVisualizations, mbind at 1, modify, lift.
  cbn -[getLibraryDisplayName js_eq_str for_each schedule_reveals].
  destruct (get_own data "library") as [library|e]; [|done].
  destruct (getLibraryDisplayName library) as [name|e]; [|done].
  destruct (get_own data "visualizations") as [vizs|e]; [|done].
  destruct (as_array vizs) as [xs|e]; [|done].
  intros H. pose proof (keeps_results_cards B library xs
    (set_container (VResults name []) (set_container VEmpty p))) as K.
  unfold run in K. rewrite H in K. by apply K.
Qed.

(** ** Functional specification of the two branches *)

(** [viz.k] for a descriptor the loop can read ([undefined] when [viz]
    itself is [null] or [undefined], a case the specs below exclude). *)
Definition prop_or_undef (v : jval) (k : string) : jval :=
  match get_own v k with Ret x => x | Exc _ => JUndefined end.

(** A descriptor whose properties can be read: neither [null] nor
    [undefined]. *)
Definition readable (v : jval) : bool :=
  match v with JUndefined | JNull => false | _ => true end.

Lemma get_own_readable v k : readable v = true -> get_own v k = Ret (prop_or_undef v k).
Proof. unfold prop_or_undef. by destruct v. Qed.

(** The cards the image branch builds from [xs], ids from [n], at clock [t]. *)
Fixpoint image_cards (B : browser) (t n : nat) (xs : list jval) : list card :=
  match xs with
  | [] => []
  | x :: xs' =>
      mk_card n x false [js_to_string (prop_or_undef x "image")] (formatDate B t) false
        :: image_cards B t (S n) xs'
  end.

(** The reveal timers of lines 271-276 for cards [cs], the [i]-th one
    due [100 * i] ms after [t], registered with sequence numbers from [n]. *)
Fixpoint reveal_timers (t n i : nat) (cs : list card) : list timer :=
  match cs with
  | [] => []
  | c :: cs' => mk_timer (t + 100 * i) n (TReveal (card_id c)) :: reveal_timers t (S n) (S i) cs'
  end.

Lemma render_image_cards_run B xs p h cs :
  forallb readable xs = true -> container p = VResults h cs ->
  for_each (render_image_card B) xs p =
  (Ret tt, set_next_id (next_id p + length xs)
             (set_container (VResults h (cs ++ image_cards B (clock p) (next_id p) xs)) p)).
Proof.
  revert p cs. induction xs as [|x xs IH]; intros p cs Hxs Hc; simpl in *.
  - rewrite Nat.add_0_r, app_nil_r, <- Hc. by destruct p.
  - apply andb_prop in Hxs as [Hx Hxs].
    unfold mbind at 1, render_image_card. rewrite !get_own_readable by done.
    unfold mbind, lift, gets, fresh, append_card, modify. simpl. rewrite Hc.
    rewrite (IH _ (cs ++ _)) by done. destruct p. simpl.
    rewrite <- app_assoc, Nat.add_succ_r. reflexivity.
Qed.

Lemma schedule_reveals_run cs i p :
  for_each_i (fun i c => set_timeout (100 * i) (TReveal (card_id c))) i cs p =
  (Ret tt, set_next_id (next_id p + length cs)
             (set_timers (timers p ++ reveal_timers (clock p) (next_id p) i cs) p)).
Proof.
  revert i p. induction cs as [|c cs IH]; intros i p; simpl.
  - rewrite Nat.add_0_r, app_nil_r. by destruct p.
  - unfold mbind at 1, set_timeout, mbind, fresh, modify. simpl.
    rewrite IH. destruct p. simpl. rewrite <- app_assoc, Nat.add_succ_r. reflexivity.
Qed.

Lemma display_images_post B fs s xs p :
  field_last "library" fs = Some (JStr s) -> s <> "plotly"%string ->
  field_last "visualizations" fs = Some (JArr xs) -> forallb readable xs = true ->
  exists p', displayVisualizations B (JObj fs) p = (Ret tt, p') /\
  (let cards := image_cards B (clock p) (next_id p) xs in
   container p' = VResults (capitalize s) cards /\
   timers p' = timers p ++ reveal_timers (clock p) (next_id p + length xs) 0 cards /\
   preloads p' = preloads p).
Proof.
  intros Hlib Hs Hviz Hxs. eexists. split; [|shelve].
  unfold displayVisualizations.
  cbn -[getLibraryDisplayName for_each schedule_reveals js_eq_str].
  rewrite Hlib, Hviz.
  change (default JUndefined (Some (JStr s))) with (JStr s).
  change (default JUndefined (Some (JArr xs))) with (JArr xs).
  rewrite getLibraryDisplayName_str.
  cbn -[for_each schedule_reveals js_eq_str].
  replace (js_eq_str (JStr s) "plotly") with false
    by (symmetry; simpl; by apply String.eqb_neq).
  unfold mbind at 1.
  rewrite (render_image_cards_run _ _ _ _ []) by (done || by destruct p). simpl.
  unfold schedule_reveals, mbind, gets. simpl. rewrite schedule_reveals_run.
  reflexivity.
  Unshelve. destruct p. simpl. repeat split.
Qed.

(** C8: on a response [{library: s, visualizations: xs}] with [s]
    a string other than ["plotly"] and every descriptor readable,
    [displayVisualizations] returns normally; the container holds the
    heading [capitalize s] and one card per descriptor, in order, each
    with its image already in the body; one reveal timer per card is
    registered, card [i] due [100 * i] ms after the render; no preload
    is issued. *)
Theorem displayVisualizations_images B fs s xs p :
  field_last "library" fs = Some (JStr s) -> s <> "plotly"%string ->
  field_last "visualizations" fs = Some (JArr xs) -> forallb readable xs = true ->
  exists p', displayVisualizations B (JObj fs) p = (Ret tt, p') /\
  (let cards := image_cards B (clock p) (next_id p) xs in
   container p' = VResults (capitalize s) cards /\
   timers p' = timers p ++ reveal_timers (clock p) (next_id p + length xs) 0 cards /\
   preloads p' = preloads p).
Proof. apply display_images_post. Qed.

Lemma displayVisualizations_images_witness :
  let fs := [("library", JStr "seaborn");
             ("visualizations", JArr [JObj [("title", JStr "Pair plot"); ("image", JStr "iVBOR")]])] in
  let p := html_page [] ∅ in
  exists p', displayVisualizations ref_browser (JObj fs) p = (Ret tt, p') /\
  (let cards := image_cards ref_browser (clock p) (next_id p)
                  [JObj [("title", JStr "Pair plot"); ("image", JStr "iVBOR")]] in
   container p' = VResults (capitalize "seaborn") cards /\
   timers p' = timers p ++ reveal_timers (clock p) (next_id p + 1) 0 cards /\
   preloads p' = preloads p).
Proof.
  apply displayVisualizations_images; [reflexivity|discriminate|reflexivity|reflexivity].
Defined.

(** A Plotly descriptor the branch renders to the end: readable, with a
    string title whose plot id is a plain CSS identifier. *)
Definition plotly_ready (x : jval) : bool :=
  match prop_or_undef x "title" with
  | JStr t => readable x && css_ident (plot_id t)
  | _ => false
  end.

(** The cards and preloads the Plotly branch builds from [xs]: each
    descriptor takes two ids, the card's and the preload's. *)
Fixpoint plotly_cards (B : browser) (t n : nat) (xs : list jval) : list card :=
  match xs with
  | [] => []
  | x :: xs' => mk_card n x true [] (formatDate B t) false :: plotly_cards B t (S (S n)) xs'
  end.

Fixpoint plotly_preloads (n : nat) (xs : list jval) : list preload :=
  match xs with
  | [] => []
  | x :: xs' =>
      mk_preload (S n) n true (js_to_string (prop_or_undef x "image")) :: plotly_preloads (S (S n)) xs'
  end.

Lemma length_plotly_cards B t n xs : length (plotly_cards B t n xs) = length xs.
Proof. revert n. induction xs; simpl; auto. Qed.

Lemma length_image_cards B t n xs : length (image_cards B t n xs) = length xs.
Proof. revert n. induction xs; simpl; auto. Qed.

Lemma render_plotly_card_step B `{!browser_ok B} x t p h cs :
  readable x = true -> prop_or_undef x "title" = JStr t -> css_ident (plot_id t) = true ->
  container p = VResults h cs ->
  render_plotly_card B x p =
  (Ret tt, set_preloads (preloads p ++ [mk_preload (S (next_id p)) (next_id p) true
                                          (js_to_string (prop_or_undef x "image"))])
             (set_next_id (S (S (next_id p)))
               (set_container (VResults h (cs ++ [mk_card (next_id p) x true []
                                                    (formatDate B (clock p)) false]))
                 (set_next_id (S (next_id p)) p)))).
Proof.
  intros Hr Ht Hid Hc. unfold render_plotly_card.
  rewrite !get_own_readable by done. rewrite Ht.
  cbn -[plot_slug plot_id]. rewrite (id_query_ident _ Hid).
  cbn -[plot_slug plot_id]. by rewrite Hc.
Qed.

Lemma render_plotly_cards_run B `{!browser_ok B} xs p h cs :
  forallb plotly_ready xs = true -> container p = VResults h cs ->
  exists p', for_each (render_plotly_card B) xs p = (Ret tt, p') /\
    container p' = VResults h (cs ++ plotly_cards B (clock p) (next_id p) xs) /\
    preloads p' = preloads p ++ plotly_preloads (next_id p) xs /\
    next_id p' = next_id p + 2 * length xs /\ timers p' = timers p /\ clock p' = clock p.
Proof.
  revert p cs. induction xs as [|x xs IH]; intros p cs Hxs Hc; simpl in *.
  - exists p. rewrite !app_nil_r, Nat.add_0_r. repeat split; auto.
  - apply andb_prop in Hxs as [Hx Hxs]. unfold plotly_ready in Hx.
    destruct (prop_or_undef x "title") as [| | | |t| |] eqn:Ht; try done.
    apply andb_prop in Hx as [Hr Hid].
    unfold mbind at 1. rewrite (render_plotly_card_step _ _ _ _ _ _ Hr Ht Hid Hc).
    match goal with |- exists _, for_each _ _ ?p1 = _ /\ _ =>
      edestruct (IH p1 (cs ++ [mk_card (next_id p) x true [] (formatDate B (clock p)) false])
                   Hxs eq_refl) as (p' & Hrun & Hcont & Hpre & Hid' & Htm & Hcl)
    end.
    exists p'. rewrite Hrun. simpl in *.
    rewrite Hcont, Hpre, Hid', Htm, Hcl, <- !app_assoc. repeat split. lia.
Qed.

(** C9: on a response [{library: "plotly", visualizations: xs}]
    whose descriptors are readable and have string titles that make
    plain CSS ids, under any conforming browser, [displayVisualizations]
    returns normally with the heading "Plotly" and one card per
    descriptor whose body is still empty; one preload per card is
    pending, with the plot element found, and one reveal timer per card
    is registered. *)
Theorem displayVisualizations_plotly B `{!browser_ok B} fs xs p :
  field_last "library" fs = Some (JStr "plotly") ->
  field_last "visualizations" fs = Some (JArr xs) -> forallb plotly_ready xs = true ->
  exists p', displayVisualizations B (JObj fs) p = (Ret tt, p') /\
  (let cards := plotly_cards B (clock p) (next_id p) xs in
   container p' = VResults "Plotly" cards /\
   Forall (fun c => card_imgs c = []) cards /\
   preloads p' = preloads p ++ plotly_preloads (next_id p) xs /\
   timers p' = timers p ++ reveal_timers (clock p) (next_id p + 2 * length xs) 0 cards).
Proof.
  intros Hlib Hviz Hxs.
  destruct (render_plotly_cards_run B xs (set_container (VResults "Plotly" []) (set_container VEmpty p))
              "Plotly" []) as (p1 & Hrun & Hcont & Hpre & Hid & Htm & Hcl); [done|done|].
  eexists. split.
  - unfold displayVisualizations.
    cbn -[getLibraryDisplayName for_each schedule_reveals js_eq_str].
    rewrite Hlib, Hviz.
    change (default JUndefined (Some (JStr "plotly"))) with (JStr "plotly").
    change (default JUndefined (Some (JArr xs))) with (JArr xs).
    cbn -[for_each schedule_reveals].
    unfold mbind at 1. rewrite Hrun.
    unfold schedule_reveals, mbind, gets. rewrite schedule_reveals_run. reflexivity.
  - simpl in *. rewrite Hcont, Hpre, Hid, Htm, Hcl. simpl.
    rewrite ?length_plotly_cards. repeat split.
    clear. generalize (next_id p). induction xs; simpl; constructor; auto.
Qed.

Lemma displayVisualizations_plotly_witness :
  let xs := [JObj [("title", JStr "Sales by month"); ("image", JStr "iVBOR")]] in
  let fs := [("library", JStr "plotly"); ("visualizations", JArr xs)] in
  let p := html_page [] ∅ in
  exists p', displayVisualizations ref_browser (JObj fs) p = (Ret tt, p') /\
  (let cards := plotly_cards ref_browser (clock p) (next_id p) xs in
   container p' = VResults "Plotly" cards /\
   Forall (fun c => card_imgs c = []) cards /\
   preloads p' = preloads p ++ plotly_preloads (next_id p) xs /\
   timers p' = timers p ++ reveal_timers (clock p) (next_id p + 2 * length xs) 0 cards).
Proof.
  apply (displayVisualizations_plotly ref_browser); [reflexivity|reflexivity|vm_compute; reflexivity].
Defined.

(** A Plotly descriptor whose id the selector engine rejects stops the
    rendering with the engine's exception, after its card is appended. *)
Lemma render_plotly_card_exc B viz t e p :
  get_own viz "title" = Ret (JStr t) -> id_query B (plot_id t) = Exc e ->
  exists p', render_plotly_card B viz p = (Exc e, p').
Proof.
  intros Ht Hq. unfold render_plotly_card, mbind at 1, lift at 1. rewrite Ht.
  unfold append_card, modify at 1, mbind at 1. cbn -[plot_id plot_slug]. rewrite Hq. eauto.
Qed.

Lemma displayVisualizations_plotly_exc B fs v rest t e p :
  field_last "library" fs = Some (JStr "plotly") ->
  field_last "visualizations" fs = Some (JArr (v :: rest)) ->
  get_own v "title" = Ret (JStr t) -> id_query B (plot_id t) = Exc e ->
  exists p', displayVisualizations B (JObj fs) p = (Exc e, p').
Proof.
  intros Hlib Hviz Ht Hq. unfold displayVisualizations.
  cbn -[getLibraryDisplayName js_eq_str render_plotly_card for_each schedule_reveals].
  rewrite Hlib, Hviz.
  change (default JUndefined (Some (JStr "plotly"))) with (JStr "plotly").
  change (default JUndefined (Some (JArr (v :: rest)))) with (JArr (v :: rest)).
  rewrite getLibraryDisplayName_str. cbn -[render_plotly_card for_each schedule_reveals].
  set (q := set_container _ _).
  destruct (render_plotly_card_exc B v t e q Ht Hq) as [p' Hp'].
  exists p'. simpl. unfold mbind at 1. by rewrite (run_mbind_exc _ _ _ _ _ Hp').
Qed.
