(* ===== verification/Library.v ===== *)
(** * The visualization request cycle

    - the library buttons' click handler (script.js, lines 62-70);
    - the restore of the saved library at load (lines 73-81);
    - [loadVisualizations] (lines 83-121): persist the library, hide the
      welcome message, show the loading indicator, clear the container,
      issue the [fetch]; and the promise chain that handles its
      settlement;
    - [showErrorMessage] and its retry button (lines 123-147).

    The [fetch] is split as the event loop splits it: [loadVisualizations]
    issues the request (it stays in [requests]); the host later settles
    it with a [vis_response], and [handle_response] runs the three
    callbacks of the chain.  The first [then] (lines 100-105) changes
    no state, so running the chain in one step, when the body is
    available, is the same as running it in two. *)

From S2P Require Import Prelude JsValue Text Storage Page Render.

(** ** Library buttons *)

(** [String(btn.getAttribute('data-library'))]: the value the handlers
    pass on is used only through [setItem] and [FormData.append], which
    both convert to a string, so an absent attribute ([null]) becomes
    ["null"]. *)
Definition attr_string (a : option string) : string :=
  match a with Some s => s | None => "null" end.

(** [btn.classList.remove('active')] / [add('active')]. *)
Definition deactivate (b : button) : button := mk_button (btn_library b) false.
Definition activate (b : button) : button := mk_button (btn_library b) true.

(** Lines 64-65 (and 77-78): remove [active] from every button, then add
    it to button [i]. *)
Fixpoint activate_only (i : nat) (bs : list button) : list button :=
  match bs, i with
  | [], _ => []
  | b :: bs', 0 => activate b :: map deactivate bs'
  | b :: bs', S i' => deactivate b :: activate_only i' bs'
  end.

(** [document.querySelector('.library-btn.active')]: the first active
    button. *)
Fixpoint first_active (bs : list button) : option button :=
  match bs with
  | [] => None
  | b :: bs' => if btn_active b then Some b else first_active bs'
  end.

(** The number of active buttons. *)
Definition active_count (bs : list button) : nat := count_if btn_active bs.

(** ** [showErrorMessage] (lines 123-147) *)

(** The container shows the error card with [${message}]; the retry
    button it holds is always found (line 139) and gets the listener of
    [retry_click]. *)
Definition showErrorMessage (message : string) : M unit :=
  modify (set_container (VError message)).

(** The message of the [catch] branch (line 118). *)
Definition generic_failure : string := "Failed to load visualizations. Please try again.".

(** ** [loadVisualizations] (lines 83-121) *)

(** The part that runs synchronously (lines 85-99). *)
Definition loadVisualizations (library : string) : M unit :=
  set_item key_selectedLibrary library ;;;               (* line 85 *)
  modify (set_welcome_shown false) ;;;                   (* line 88 *)
  modify (set_loading_shown true) ;;;                    (* line 89 *)
  modify (set_container VEmpty) ;;;                      (* line 90 *)
  send (RqVisualizations library).                       (* lines 93-99 *)

(** How the host settles the request: [fetch] rejects, or a response
    arrives with a status and a body that [response.json()] parses
    ([Some]) or rejects ([None]). *)
Inductive vis_response :=
| VisNetworkError
| VisHttp (status : Z) (body : option jval).

(** [response.ok]: a status in 200-299. *)
Definition response_ok (status : Z) : bool := (200 <=? status)%Z && (status <=? 299)%Z.

(** The first [then] (lines 100-105): throw on a non-2xx status, else the
    parsed body. *)
Definition parse_response (r : vis_response) : outcome jval :=
  match r with
  | VisNetworkError => Exc NetworkError
  | VisHttp status body =>
      if response_ok status
      then match body with Some v => Ret v | None => Exc JsonParseError end
      else Exc (HttpError status)
  end.

Section Cycle.
Context (B : browser).

(** The second [then] (lines 106-115). *)
Definition on_data (data : jval) : M unit :=
  modify (set_loading_shown false) ;;;
  let* err := lift (get_own data "error") in
  if truthy err
  then showErrorMessage (js_to_string err)
  else displayVisualizations B data.

(** The [catch] (lines 116-120), given the rejection reason. *)
Definition on_failure (error : js_exn) : M unit :=
  modify (set_loading_shown false) ;;;
  showErrorMessage generic_failure ;;;
  console_error error.

(** The whole chain, once the request has settled. *)
Definition handle_response (r : vis_response) : M unit :=
  mcatch (let* data := lift (parse_response r) in on_data data) on_failure.

(** The click handler of button [i] (lines 63-69). *)
Definition library_click (i : nat) : M unit :=
  modify (fun p => set_buttons (activate_only i (buttons p)) p) ;;;
  let* bs := gets buttons in
  match bs !! i with
  | Some b => loadVisualizations (attr_string (btn_library b))
  | None => mret tt
  end.

(** The retry button's listener (lines 140-145). *)
Definition retry_click : M unit :=
  let* bs := gets buttons in
  match first_active bs with
  | Some b => loadVisualizations (attr_string (btn_library b))
  | None => mret tt
  end.

(** The restore of the saved library (lines 73-81).  The selector of
    line 75 is built from the stored string; [attr_query] is the
    browser's answer. *)
Definition restore_library : M unit :=
  let* st := gets store in
  match saved_library st with
  | Some last =>
      let* bs := gets buttons in
      let* found := lift (attr_query B last (map btn_library bs)) in
      match found with
      | Some i =>
          modify (fun p => set_buttons (activate_only i (buttons p)) p) ;;;
          loadVisualizations last
      | None => mret tt
      end
  | None => mret tt
  end.
End Cycle.

(** ** Lemmas on the buttons *)

Lemma length_activate_only i bs : length (activate_only i bs) = length bs.
Proof.
  revert i. induction bs as [|b bs IH]; intros [|i]; simpl; rewrite ?length_map; auto.
Qed.

Lemma active_count_deactivated bs : active_count (map deactivate bs) = 0.
Proof. apply count_if_none. induction bs; constructor; auto. Qed.

Lemma active_count_activate_only i bs :
  i < length bs -> active_count (activate_only i bs) = 1.
Proof.
  revert i. unfold active_count.
  induction bs as [|b bs IH]; intros [|i] Hi; simpl in *; try lia.
  - rewrite count_if_cons. simpl. fold (active_count (map deactivate bs)).
    rewrite active_count_deactivated. done.
  - rewrite count_if_cons. simpl. apply IH. lia.
Qed.

Lemma activate_only_lookup i bs b :
  bs !! i = Some b -> activate_only i bs !! i = Some (activate b).
Proof.
  revert i. induction bs as [|b' bs IH]; intros [|i] H; simpl in *; try done.
  - by invc H.
  - by apply IH.
Qed.

Lemma first_active_activate_only i bs b :
  bs !! i = Some b -> first_active (activate_only i bs) = Some (activate b).
Proof.
  revert i. induction bs as [|b' bs IH]; intros [|i] H; simpl in *; try done.
  - by invc H.
  - by apply IH.
Qed.

Lemma active_count_first_active bs :
  active_count bs <> 0 -> exists b, first_active bs = Some b.
Proof.
  unfold active_count. induction bs as [|b bs IH]; simpl; [done|].
  rewrite count_if_cons. destruct (btn_active b); eauto.
Qed.

(** With exactly one active button, [first_active] finds it, and no
    other button is active. *)
Lemma first_active_unique bs b :
  active_count bs = 1 -> first_active bs = Some b ->
  exists i, bs !! i = Some b /\ btn_active b = true /\
    forall j c, bs !! j = Some c -> btn_active c = true -> j = i.
Proof.
  unfold active_count. induction bs as [|b0 bs IH]; simpl; [done|].
  rewrite count_if_cons. destruct (btn_active b0) eqn:E.
  - intros Hc [= <-]. exists 0. split_and!; [done|done|].
    assert (count_if btn_active bs = 0) as Hc0 by lia.
    apply count_if_zero_Forall in Hc0. intros [|j] c; simpl; [done|].
    intros Hj Ha. rewrite Forall_lookup in Hc0. by rewrite (Hc0 j c Hj) in Ha.
  - intros Hc Hf. destruct (IH Hc Hf) as (i & Hi & Ha & Hu). exists (S i).
    split_and!; [done|done|]. intros [|j] c; simpl; [intros [= ->]; congruence|].
    intros Hj Hac. f_equal. by apply (Hu j c).
Qed.

#[export] Hint Resolve activate_only_lookup first_active_activate_only : dash.

(** ** The synchronous part of a load *)

(** What [loadVisualizations L] leaves: the fields it writes, every other
    field unchanged. *)
Definition load_post (L : string) (p p' : page) : Prop :=
  store p' = <[key_selectedLibrary := L]> (store p) /\
  welcome_shown p' = false /\ loading_shown p' = true /\ container p' = VEmpty /\
  requests p' = requests p ++ [(next_id p, RqVisualizations L)] /\
  next_id p' = S (next_id p) /\
  buttons p' = buttons p /\ timers p' = timers p /\ overlays p' = overlays p /\
  preloads p' = preloads p /\ clock p' = clock p.

Lemma loadVisualizations_post L p :
  fst (loadVisualizations L p) = Ret tt /\ load_post L p (run (loadVisualizations L) p).
Proof. split; [reflexivity|]. repeat split. Qed.

(** ** Properties of the request cycle *)

Lemma library_click_post p i b :
  buttons p !! i = Some b ->
  let p' := run (library_click i) p in
  let L := attr_string (btn_library b) in
  active_count (buttons p') = 1 /\ buttons p' !! i = Some (activate b) /\
  store p' !! key_selectedLibrary = Some L /\
  welcome_shown p' = false /\ loading_shown p' = true /\ container p' = VEmpty /\
  requests p' = requests p ++ [(next_id p, RqVisualizations L)].
Proof.
  intros Hb. unfold run, library_click. cbn -[activate_only active_count].
  rewrite (activate_only_lookup _ _ _ Hb). cbn -[activate_only active_count].
  rewrite lookup_insert_eq, active_count_activate_only, (activate_only_lookup _ _ _ Hb)
    by (apply lookup_lt_Some in Hb; lia).
  repeat split.
Qed.

(** C4: clicking library button [i] leaves exactly one active
    button, button [i]; persists its library id as [selectedLibrary];
    hides the welcome message, shows the loading indicator, clears the
    container and issues one request for that library. *)
Theorem library_click_spec p i b :
  buttons p !! i = Some b ->
  let p' := run (library_click i) p in
  let L := attr_string (btn_library b) in
  active_count (buttons p') = 1 /\ buttons p' !! i = Some (activate b) /\
  store p' !! key_selectedLibrary = Some L /\
  welcome_shown p' = false /\ loading_shown p' = true /\ container p' = VEmpty /\
  requests p' = requests p ++ [(next_id p, RqVisualizations L)].
Proof. apply library_click_post. Qed.

Lemma library_click_spec_witness :
  let p := html_page [mk_button (Some "seaborn") false; mk_button (Some "pandas") true] ∅ in
  buttons p !! 0 = Some (mk_button (Some "seaborn") false) /\
  let p' := run (library_click 0) p in
  let L := attr_string (Some "seaborn") in
  active_count (buttons p') = 1 /\ buttons p' !! 0 = Some (activate (mk_button (Some "seaborn") false)) /\
  store p' !! key_selectedLibrary = Some L /\
  welcome_shown p' = false /\ loading_shown p' = true /\ container p' = VEmpty /\
  requests p' = requests p ++ [(next_id p, RqVisualizations L)].
Proof. split; [reflexivity|]. apply library_click_spec. reflexivity. Defined.

Lemma handle_response_data B r data p :
  parse_response r = Ret data -> handle_response B r p = mcatch (on_data B data) on_failure p.
Proof. intros H. unfold handle_response, mcatch, mbind, lift. by rewrite H. Qed.

Lemma handle_response_fail B r e p :
  parse_response r = Exc e -> handle_response B r p = on_failure e (snd (Exc (A:=unit) e, p)).
Proof. intros H. unfold handle_response, mcatch, mbind, lift. by rewrite H. Qed.

(** C6: a 2xx response whose payload has a truthy [error] field
    ends loading and shows the error card with [String(data.error)];
    for a non-empty string [X] the card shows [X] verbatim.  Nothing
    reaches the console: the [catch] is not taken. *)
Theorem response_error_field B status fs X p :
  response_ok status = true -> field_last "error" fs = Some (JStr X) -> X <> ""%string ->
  let p' := run (handle_response B (VisHttp status (Some (JObj fs)))) p in
  container p' = VError X /\ loading_shown p' = false /\ console p' = console p.
Proof.
  intros Hok Herr HX. unfold run.
  rewrite (handle_response_data _ _ (JObj fs)) by (simpl; by rewrite Hok).
  unfold mcatch, on_data, mbind, lift, modify. simpl. rewrite Herr. simpl.
  destruct (String.eqb_spec X ""); [done|]. split_and!; reflexivity.
Qed.

Lemma response_error_field_witness :
  response_ok 200 = true /\ field_last "error" [("error", JStr "Unknown library")] = Some (JStr "Unknown library") /\
  "Unknown library"%string <> ""%string /\
  let p' := run (handle_response ref_browser (VisHttp 200 (Some (JObj [("error", JStr "Unknown library")]))))
                (html_page [] ∅) in
  container p' = VError "Unknown library" /\ loading_shown p' = false /\ console p' = console (html_page [] ∅).
Proof.
  split; [reflexivity|split; [reflexivity|split; [discriminate|]]].
  apply response_error_field; [reflexivity|reflexivity|discriminate].
Defined.

(** C5: a transport failure (rejected fetch, non-2xx status or a
    body that is not JSON) ends loading and shows the generic message,
    not the HTTP status; the cause (the rejection, the [HTTP error!
    Status] error, the JSON error) is logged once to the console (line
    119). *)
Theorem response_failure B r p :
  (r = VisNetworkError \/
   (exists status body, r = VisHttp status body /\ response_ok status = false) \/
   (exists status, r = VisHttp status None)) ->
  let cause := match r with
               | VisNetworkError => NetworkError
               | VisHttp st _ => if response_ok st then JsonParseError else HttpError st
               end in
  let p' := run (handle_response B r) p in
  container p' = VError generic_failure /\ loading_shown p' = false /\ console p' = console p ++ [cause].
Proof.
  intros Hr cause p'.
  assert (He : parse_response r = Exc cause).
  { unfold cause. destruct Hr as [->|[(st & body & -> & Hst)|(st & ->)]]; simpl;
      [done|by rewrite Hst|by destruct (response_ok st)]. }
  unfold p', run. rewrite (handle_response_fail _ _ _ _ He). split_and!; reflexivity.
Qed.

Lemma response_failure_witness :
  let p' := run (handle_response ref_browser (VisHttp 500 (Some (JObj [])))) (html_page [] ∅) in
  container p' = VError generic_failure /\ loading_shown p' = false /\
  console p' = console (html_page [] ∅) ++ [HttpError 500].
Proof. apply response_failure. right; left. exists 500%Z, (Some (JObj [])). split; reflexivity. Defined.

(** ** Settling a request *)

(** The fields a response handler never writes: everything but the
    loading indicator, the container, the timers, the preloads and the
    id counter. *)
Definition response_frame (p p' : page) : Prop :=
  sidebar_active p' = sidebar_active p /\ dark_theme p' = dark_theme p /\
  theme_icon p' = theme_icon p /\ panel_active p' = panel_active p /\
  buttons p' = buttons p /\ store p' = store p /\ welcome_shown p' = welcome_shown p /\
  overlays p' = overlays p /\ requests p' = requests p /\
  fullscreen p' = fullscreen p /\ downloads p' = downloads p /\
  styles_in p' = styles_in p /\ clock p' = clock p.

#[export] Instance response_frame_preorder : PreOrder response_frame.
Proof.
  split.
  - intros p. unfold response_frame. repeat split.
  - intros p1 p2 p3 H12 H23. unfold response_frame in *. destruct_and!. repeat split; congruence.
Qed.

Lemma response_frame_render p p' : render_frame p p' -> response_frame p p'.
Proof. unfold render_frame, response_frame. intros. destruct_and!. by repeat split. Qed.

Lemma response_frame_set_loading v p : response_frame p (set_loading_shown v p).
Proof. destruct p. unfold response_frame. naive_solver. Qed.

Lemma response_frame_set_console v p : response_frame p (set_console v p).
Proof. destruct p. unfold response_frame. naive_solver. Qed.

Lemma response_frame_set_container v p : response_frame p (set_container v p).
Proof. destruct p. unfold response_frame. naive_solver. Qed.

Lemma keeps_response_display B data : keeps response_frame (displayVisualizations B data).
Proof.
  eapply keeps_weaken; [apply response_frame_render|apply keeps_frame_displayVisualizations].
Qed.

#[export] Hint Resolve response_frame_set_loading response_frame_set_container response_frame_set_console
  keeps_response_display : dash.

Lemma keeps_response_handle B r : keeps response_frame (handle_response B r).
Proof.
  unfold handle_response, on_data, on_failure, showErrorMessage. solve_keeps.
Qed.

Lemma on_failure_run e p :
  on_failure e p = (Ret tt, set_console (console p ++ [e])
                              (set_container (VError generic_failure) (set_loading_shown false p))).
Proof. reflexivity. Qed.

Lemma display_keeps_loading B data p :
  loading_shown (run (displayVisualizations B data) p) = loading_shown p.
Proof. apply (keeps_frame_displayVisualizations B data p). Qed.

(** [on_data] hides the loading indicator; when it returns normally it
    leaves an error card or a results view. *)
Lemma on_data_settles B data p :
  loading_shown (snd (on_data B data p)) = false /\
  (fst (on_data B data p) = Ret tt -> container (snd (on_data B data p)) <> VEmpty).
Proof.
  unfold on_data, mbind at 1, modify, lift. cbn -[displayVisualizations].
  destruct (get_own data "error") as [err|e]; [|done].
  destruct (truthy err); [done|].
  pose proof (display_keeps_loading B data (set_loading_shown false p)) as HL.
  unfold run in HL.
  destruct (displayVisualizations B data (set_loading_shown false p)) as [o p2] eqn:E.
  simpl in *. split; [done|]. intros ->.
  apply displayVisualizations_results in E. by destruct (container p2).
Qed.

(** Whatever the request's outcome, handling it hides the loading
    indicator and leaves a non-empty container (an error card or the
    results), touching nothing outside the response frame. *)
Lemma handle_response_settles B r p :
  let p' := run (handle_response B r) p in
  loading_shown p' = false /\ container p' <> VEmpty /\ response_frame p p'.
Proof.
  simpl. split; [|split]; [| |apply keeps_response_handle].
  all: unfold run; destruct (parse_response r) as [data|e] eqn:Hr;
       [rewrite (handle_response_data _ _ _ _ Hr)
       |rewrite (handle_response_fail _ _ _ _ Hr), on_failure_run; done].
  all: pose proof (on_data_settles B data p) as [HL HC]; unfold mcatch.
  all: destruct (on_data B data p) as [[[]|e] p2];
       [simpl in *|rewrite on_failure_run; done].
  - done.
  - by apply HC.
Qed.

(** C7: a 2xx response [{library: s, visualizations: []}] with no
    truthy [error] field shows the heading [capitalize s] and no card,
    no error, registers no timer, and hides the loading indicator. *)
Theorem response_empty_results B status fs s p :
  response_ok status = true -> truthy (prop_or_undef (JObj fs) "error") = false ->
  field_last "library" fs = Some (JStr s) -> field_last "visualizations" fs = Some (JArr []) ->
  let p' := run (handle_response B (VisHttp status (Some (JObj fs)))) p in
  container p' = VResults (capitalize s) [] /\ timers p' = timers p /\ loading_shown p' = false.
Proof.
  intros Hok Herr Hlib Hviz. unfold run.
  rewrite (handle_response_data _ _ (JObj fs)) by (simpl; by rewrite Hok).
  unfold mcatch, on_data, mbind at 1, modify, lift. cbn -[displayVisualizations truthy].
  unfold prop_or_undef in Herr. simpl in Herr. rewrite Herr.
  unfold displayVisualizations. cbn -[getLibraryDisplayName js_eq_str].
  rewrite Hlib, Hviz.
  change (default JUndefined (Some (JStr s))) with (JStr s).
  change (default JUndefined (Some (JArr []))) with (JArr (@nil jval)).
  rewrite getLibraryDisplayName_str. cbn -[js_eq_str].
  destruct (js_eq_str (JStr s) "plotly"); by repeat split.
Qed.

(** The payload [{error: "", library: "seaborn", visualizations: []}]: an
    empty [error] string is falsy and the payload renders as results. *)
Lemma response_empty_results_witness :
  let fs := [("error", JStr ""); ("library", JStr "seaborn"); ("visualizations", JArr [])] in
  truthy (prop_or_undef (JObj fs) "error") = false /\
  let p := html_page [] ∅ in
  let p' := run (handle_response ref_browser (VisHttp 200 (Some (JObj fs)))) p in
  container p' = VResults (capitalize "seaborn") [] /\ timers p' = timers p /\ loading_shown p' = false.
Proof.
  split; [reflexivity|]. apply response_empty_results; reflexivity.
Defined.

(** C13: a 2xx Plotly payload whose first descriptor has a title
    whose element id [querySelector] rejects (a title with parentheses,
    for instance) ends with the generic error card: the results built so
    far are replaced, loading ends, and the selector engine's exception
    is logged to the console. *)
Theorem response_plotly_bad_selector B status fs v rest t e p :
  response_ok status = true -> truthy (prop_or_undef (JObj fs) "error") = false ->
  field_last "library" fs = Some (JStr "plotly") ->
  field_last "visualizations" fs = Some (JArr (v :: rest)) ->
  get_own v "title" = Ret (JStr t) -> id_query B (plot_id t) = Exc e ->
  let p' := run (handle_response B (VisHttp status (Some (JObj fs)))) p in
  container p' = VError generic_failure /\ loading_shown p' = false /\ console p' = console p ++ [e].
Proof.
  intros Hok Herr Hlib Hviz Ht Hq. unfold run.
  rewrite (handle_response_data _ _ (JObj fs)) by (simpl; by rewrite Hok).
  unfold mcatch, on_data, mbind at 1, modify, lift. cbn -[displayVisualizations truthy].
  unfold prop_or_undef in Herr. simpl in Herr. rewrite Herr.
  destruct (displayVisualizations_plotly_exc B fs v rest t e
              (set_loading_shown false p) Hlib Hviz Ht Hq) as [p' Hd].
  pose proof (keeps_frame_displayVisualizations B (JObj fs) (set_loading_shown false p)) as Hf.
  unfold run in Hf. rewrite Hd in Hf. destruct Hf as (_ & _ & _ & _ & _ & _ & _ & _ & _ & _ & _ & _ & _ & _ & Hc).
  rewrite Hd. cbn. split_and!; [reflexivity|reflexivity|]. cbn in Hc. by rewrite Hc.
Qed.

(** A title with parentheses: ["plotly-x(y)"] is not a CSS identifier. *)
Lemma response_plotly_bad_selector_witness :
  let v := JObj [("title", JStr "x(y)"); ("image", JStr "iVBOR")] in
  let fs := [("library", JStr "plotly"); ("visualizations", JArr [v])] in
  id_query ref_browser (plot_id "x(y)") = Exc SyntaxError /\
  let p' := run (handle_response ref_browser (VisHttp 200 (Some (JObj fs)))) (html_page [] ∅) in
  container p' = VError generic_failure /\ loading_shown p' = false /\
  console p' = console (html_page [] ∅) ++ [SyntaxError].
Proof.
  split; [vm_compute; reflexivity|].
  apply (response_plotly_bad_selector _ _ _ (JObj [("title", JStr "x(y)"); ("image", JStr "iVBOR")]) [] "x(y)" SyntaxError);
    [reflexivity|reflexivity|reflexivity|reflexivity|reflexivity|vm_compute; reflexivity].
Defined.
