(* ===== verification/Theme.v ===== *)
(** * The page chrome: sidebar, theme, dataset-info panel

    - the menu toggle (script.js, lines 15-17) flips the sidebar's
      [active] class;
    - the theme toggle (lines 20-33) flips [dark-theme] on [body], sets
      the icon from the new class and stores [String(isDarkTheme)];
    - the restore at load (lines 36-40) applies the dark theme when the
      stored flag is exactly ['true'];
    - the dataset-info panel opens on its toggle (lines 43-45), closes on
      its close button (48-50) and on any click whose target is outside
      both the panel and the toggle (53-59). *)

From S2P Require Import Prelude JsValue Text Storage Page.

(** The icon the theme toggle shows for a theme (lines 24-28). *)
Definition icon_of (dark : bool) : icon := if dark then IconSun else IconMoon.

(** Lines 15-17. *)
Definition menu_click : M unit :=
  modify (fun p => set_sidebar_active (negb (sidebar_active p)) p).

(** Lines 20-33. *)
Definition theme_click : M unit :=
  modify (fun p => set_dark_theme (negb (dark_theme p)) p) ;;;     (* line 21 *)
  let* dark := gets dark_theme in                                 (* line 24 *)
  modify (set_theme_icon (icon_of dark)) ;;;                      (* lines 25, 27 *)
  let* isDark := gets dark_theme in                               (* line 31 *)
  set_item key_darkTheme (theme_string isDark).                   (* line 32 *)

(** Lines 36-40. *)
Definition restore_theme : M unit :=
  let* st := gets store in
  if saved_dark st
  then modify (set_dark_theme true) ;;; modify (set_theme_icon IconSun)
  else mret tt.

(** Lines 43-45. *)
Definition info_toggle_click : M unit := modify (set_panel_active true).

(** Lines 48-50. *)
Definition close_panel_click : M unit := modify (set_panel_active false).

(** The document's click listener (lines 53-59), run for every click
    after the target's own listener; [in_panel] and [in_toggle] say
    whether the target lies inside the panel or the toggle. *)
Definition document_click (in_panel in_toggle : bool) : M unit :=
  let* active := gets panel_active in
  if negb in_panel && negb in_toggle && active
  then modify (set_panel_active false)
  else mret tt.

(** The icon shows the theme in force. *)
Definition theme_consistent (p : page) : Prop := theme_icon p = icon_of (dark_theme p).

(** ** Properties *)

(** C14: the theme toggle keeps the icon consistent with the theme
    and persists the new theme, so that the flag read at the next load is
    the theme in force. *)
Theorem theme_click_spec p :
  let p' := run theme_click p in
  dark_theme p' = negb (dark_theme p) /\ theme_consistent p' /\
  saved_dark (store p') = dark_theme p'.
Proof.
  unfold run, theme_click, theme_consistent. cbn -[store_set saved_dark icon_of theme_string].
  repeat split. apply saved_dark_write.
Qed.

(** C15: toggling the theme twice gives back exactly the page it
    started from, when the icon shows the theme and the stored flag is
    [String] of the theme in force. *)
Theorem theme_click_twice p :
  theme_consistent p -> store p !! key_darkTheme = Some (theme_string (dark_theme p)) ->
  run (theme_click ;;; theme_click) p = p.
Proof.
  unfold theme_consistent. intros Hi Hs. destruct p as [? dark ? ? ? ? ? ? ? st]. simpl in *.
  subst. unfold run, theme_click, set_item. simpl.
  rewrite insert_insert_eq, negb_involutive, insert_id by done.
  by destruct dark.
Qed.

Lemma theme_click_twice_witness :
  let p := html_page [] {[key_darkTheme := "false"%string]} in
  theme_consistent p /\ store p !! key_darkTheme = Some (theme_string (dark_theme p)) /\
  run (theme_click ;;; theme_click) p = p.
Proof.
  split; [reflexivity|split; [reflexivity|]].
  apply theme_click_twice; reflexivity.
Defined.

(** C16: toggling the theme twice from a store that never held the
    flag leaves ["false"] stored where [getItem] returned [null]: the
    persisted flag does not return to its original value. *)
Theorem theme_click_twice_fresh p :
  dark_theme p = false -> store p !! key_darkTheme = None ->
  let p' := run (theme_click ;;; theme_click) p in
  dark_theme p' = false /\ store p' !! key_darkTheme = Some "false"%string /\
  store p' !! key_darkTheme <> store p !! key_darkTheme.
Proof.
  intros Hd Hs. simpl. rewrite Hd, Hs. simpl.
  rewrite lookup_insert_eq. repeat split. done.
Qed.

Lemma theme_click_twice_fresh_witness :
  let p := html_page [] ∅ in
  dark_theme p = false /\ store p !! key_darkTheme = None /\
  let p' := run (theme_click ;;; theme_click) p in
  dark_theme p' = false /\ store p' !! key_darkTheme = Some "false"%string /\
  store p' !! key_darkTheme <> store p !! key_darkTheme.
Proof.
  split; [reflexivity|split; [reflexivity|]].
  apply theme_click_twice_fresh; reflexivity.
Defined.

(** C17: the restore at load leaves the icon consistent with the
    theme, from a consistent page, and applies the dark theme exactly
    when the stored flag is ['true']. *)
Theorem restore_theme_spec p :
  theme_consistent p ->
  let p' := run restore_theme p in
  theme_consistent p' /\ dark_theme p' = (saved_dark (store p) || dark_theme p).
Proof.
  unfold theme_consistent, run, restore_theme, mbind, gets. intros H. simpl.
  destruct (saved_dark (store p)); simpl; repeat split; auto.
Qed.

Lemma restore_theme_spec_witness :
  let p := html_page [] {[key_darkTheme := "true"%string]} in
  theme_consistent p /\
  let p' := run restore_theme p in
  theme_consistent p' /\ dark_theme p' = (saved_dark (store p) || dark_theme p).
Proof. split; [reflexivity|]. apply restore_theme_spec. reflexivity. Defined.

(** The document listener closes the panel on a click outside both the
    panel and its toggle. *)
Lemma document_click_outside p :
  panel_active (run (document_click false false) p) = false.
Proof.
  unfold run, document_click, mbind, gets. simpl.
  destruct (panel_active p) eqn:E; simpl; auto.
Qed.

Lemma document_click_inside p in_panel in_toggle :
  in_panel = true \/ in_toggle = true ->
  run (document_click in_panel in_toggle) p = p.
Proof.
  intros [-> | ->]; unfold run, document_click, mbind, gets; simpl;
    by rewrite ?andb_false_r.
Qed.

(** The two handlers that write the theme leave it consistent. *)
Lemma theme_click_consistent p : theme_consistent (run theme_click p).
Proof. reflexivity. Qed.

Lemma restore_theme_consistent p : theme_consistent p -> theme_consistent (run restore_theme p).
Proof.
  unfold theme_consistent, run, restore_theme, mbind, gets. intros H. simpl.
  by destruct (saved_dark (store p)).
Qed.

