(* ===== verification/Timers.v ===== *)
(** * The timer queue of the event loop

    [setTimeout(f, d)] (modelled by [Page.set_timeout]) registers [f]
    to run no earlier than [d] ms later.  The host runs the callbacks in
    order of their due time, and of registration among those due at the
    same time.  [next_timer] picks the callback the loop runs next;
    [fire] removes it from the queue and advances the clock to its due
    time when the clock is behind.  What the callback does belongs to
    the component that registered it ([Render], [Notify], [Modal]);
    [Dashboard] dispatches on the [timer_action]. *)

From S2P Require Import Prelude JsValue Text Storage Page.

(** [t1] runs no later than [t2]. *)
Definition timer_before (t1 t2 : timer) : bool :=
  (tm_due t1 <? tm_due t2) || ((tm_due t1 =? tm_due t2) && (tm_seq t1 <=? tm_seq t2)).

(** The earliest of [t] and the timers of [ts]. *)
Fixpoint earliest (t : timer) (ts : list timer) : timer :=
  match ts with
  | [] => t
  | u :: ts' => earliest (if timer_before t u then t else u) ts'
  end.

(** The callback the loop runs next, if any is pending. *)
Definition next_timer (ts : list timer) : option timer :=
  match ts with
  | [] => None
  | t :: ts' => Some (earliest t ts')
  end.

(** The queue without the timer registered as [seq]. *)
Definition remove_timer (seq : nat) (ts : list timer) : list timer :=
  filter (fun t => tm_seq t <> seq) ts.

(** Take the next timer off the queue and advance the clock to its due
    time: the first half of running it. *)
Definition fire : M (option timer_action) :=
  let* ts := gets timers in
  match next_timer ts with
  | None => mret None
  | Some t =>
      modify (fun p => set_clock (Nat.max (clock p) (tm_due t))
                          (set_timers (remove_timer (tm_seq t) (timers p)) p)) ;;;
      mret (Some (tm_action t))
  end.

(** ** Lemmas *)

Lemma timer_before_refl t : timer_before t t = true.
Proof. unfold timer_before. rewrite Nat.eqb_refl, Nat.leb_refl. apply orb_true_r. Qed.

Lemma timer_before_trans t1 t2 t3 :
  timer_before t1 t2 = true -> timer_before t2 t3 = true -> timer_before t1 t3 = true.
Proof.
  unfold timer_before. rewrite !orb_true_iff, !andb_true_iff, !Nat.ltb_lt, !Nat.eqb_eq, !Nat.leb_le.
  lia.
Qed.

Lemma timer_before_total t1 t2 :
  timer_before t1 t2 = false -> timer_before t2 t1 = true.
Proof.
  unfold timer_before. rewrite !orb_false_iff, !andb_false_iff, !orb_true_iff, !andb_true_iff,
    !Nat.ltb_lt, !Nat.ltb_ge, !Nat.eqb_eq, !Nat.eqb_neq, !Nat.leb_le, !Nat.leb_gt.
  lia.
Qed.

Lemma earliest_in t ts : earliest t ts = t \/ In (earliest t ts) ts.
Proof.
  revert t. induction ts as [|u ts IH]; intros t; simpl; [auto|].
  destruct (timer_before t u); [destruct (IH t) as [H|H]|destruct (IH u) as [H|H]];
    rewrite ?H; naive_solver.
Qed.

Lemma earliest_before t ts :
  timer_before (earliest t ts) t = true /\ Forall (fun u => timer_before (earliest t ts) u = true) ts.
Proof.
  revert t. induction ts as [|u ts IH]; intros t; simpl.
  - split; [apply timer_before_refl|constructor].
  - destruct (timer_before t u) eqn:E; destruct (IH (if timer_before t u then t else u)) as [H1 H2];
      rewrite E in H1, H2; (split; [|constructor]); auto;
      eauto using timer_before_trans, timer_before_total.
Qed.

(** The timer [next_timer] picks is pending and runs no later than any
    other pending timer. *)
Theorem next_timer_earliest ts t :
  next_timer ts = Some t -> In t ts /\ Forall (fun u => timer_before t u = true) ts.
Proof.
  destruct ts as [|t0 ts]; simpl; [discriminate|]. intros H. invc H.
  destruct (earliest_before t0 ts) as [H1 H2].
  split; [destruct (earliest_in t0 ts) as [->|]; auto|constructor; auto].
Qed.

Lemma length_remove_timer seq ts :
  In seq (map tm_seq ts) -> length (remove_timer seq ts) < length ts.
Proof.
  unfold remove_timer. induction ts as [|t ts IH]; simpl; [done|].
  rewrite filter_cons. intros [E|H].
  - rewrite decide_False by tauto. pose proof (length_filter (fun t => tm_seq t <> seq) ts). lia.
  - case_decide; simpl; [specialize (IH H)|pose proof (length_filter (fun t => tm_seq t <> seq) ts)]; lia.
Qed.

(** A timer due strictly earlier runs first. *)
Lemma timer_before_due t1 t2 : tm_due t1 < tm_due t2 -> timer_before t1 t2 = true.
Proof. intros H. unfold timer_before. apply Nat.ltb_lt in H. by rewrite H. Qed.

(** Removing the head timer by its sequence number, when no other
    timer has it. *)
Lemma remove_timer_hit s t ts :
  tm_seq t = s -> Forall (fun u => tm_seq u <> s) ts -> remove_timer s (t :: ts) = ts.
Proof.
  intros Ht Hts. unfold remove_timer. rewrite filter_cons_False by tauto.
  induction Hts as [|u ts Hu _ IH]; [done|]. by rewrite filter_cons_True, IH.
Qed.

