(* ===== verification/Notify.v ===== *)
(** * Toast notifications: [showNotification]

    [showNotification(message, type = 'info')] (script.js, lines
    388-426) appends a [.notification] element of class [type] with the
    icon of its severity (lines 392-405), adds [show] 10 ms later (slide
    in), removes [show] 3000 ms later and removes the element from
    [body] 300 ms after that.  There is no queue: toasts coexist.

    The element is an [OToast] overlay; the three callbacks are the
    timer actions [TToastShow], [TToastHide] and [TToastRemove]. *)

From S2P Require Import Prelude JsValue Text Storage Page.

(** The icon of a severity (lines 393-405). *)
Definition notification_icon (type : string) : string :=
  if String.eqb type "success" then "fas fa-check-circle"
  else if String.eqb type "error" then "fas fa-exclamation-circle"
  else if String.eqb type "warning" then "fas fa-exclamation-triangle"
  else "fas fa-info-circle".

(** Lines 388-426. *)
Definition showNotification (message type : string) : M unit :=
  let* id := fresh in
  append_overlay (OToast id type (notification_icon type) message false) ;;;  (* 389-412 *)
  set_timeout 10 (TToastShow id) ;;;                                          (* 415-417 *)
  set_timeout 3000 (TToastHide id).                                           (* 420-425 *)

(** The id of an overlay element. *)
Definition overlay_id (o : overlay) : nat :=
  match o with OModal id _ _ _ => id | OToast id _ _ _ _ => id end.

Definition is_toast (id : nat) (o : overlay) : bool :=
  match o with OToast id' _ _ _ _ => id' =? id | _ => false end.

(** [classList.add('show')] / [remove('show')] on toast [id]. *)
Definition set_toast_shown (id : nat) (b : bool) (o : overlay) : overlay :=
  match o with
  | OToast id' k i m _ => if id' =? id then OToast id' k i m b else o
  | _ => o
  end.

(** [document.body.removeChild(el)]: a [NotFoundError] when [el] is not a
    child of [body]. *)
Definition remove_overlay (id : nat) : M unit :=
  let* os := gets overlays in
  if existsb (fun o => overlay_id o =? id) os
  then modify (fun p => set_overlays (filter (fun o => overlay_id o <> id) (overlays p)) p)
  else mthrow NotFoundError.

(** The callback of line 416. *)
Definition toast_show (id : nat) : M unit :=
  modify (fun p => set_overlays (map (set_toast_shown id true) (overlays p)) p).

(** The callback of lines 421-424. *)
Definition toast_hide (id : nat) : M unit :=
  modify (fun p => set_overlays (map (set_toast_shown id false) (overlays p)) p) ;;;
  set_timeout 300 (TToastRemove id).

(** The callback of line 423. *)
Definition toast_remove (id : nat) : M unit := remove_overlay id.

(** The number of toasts in [body]. *)
Definition toast_count (os : list overlay) : nat :=
  count_if (fun o => match o with OToast _ _ _ _ _ => true | _ => false end) os.

(** ** Properties *)

(** C20: [showNotification] appends exactly one toast, hidden
    (off-screen), with the severity's class and icon, and schedules its
    slide-in 10 ms and its hiding 3000 ms after the call. *)
Theorem showNotification_spec message type p :
  let id := next_id p in
  let p' := run (showNotification message type) p in
  overlays p' = overlays p ++ [OToast id type (notification_icon type) message false] /\
  timers p' = timers p ++ [mk_timer (clock p + 10) (S id) (TToastShow id);
                           mk_timer (clock p + 3000) (S (S id)) (TToastHide id)].
Proof. simpl. split; [done|]. by rewrite <- app_assoc. Qed.

(** ** The toast callbacks, field by field *)

Lemma showNotification_fields message type p :
  let id := next_id p in
  let p' := run (showNotification message type) p in
  overlays p' = overlays p ++ [OToast id type (notification_icon type) message false] /\
  timers p' = timers p ++ [mk_timer (clock p + 10) (S id) (TToastShow id);
                           mk_timer (clock p + 3000) (S (S id)) (TToastHide id)] /\
  clock p' = clock p /\ next_id p' = S (S (S id)).
Proof. simpl. split_and!; [done| |done|done]. by rewrite <- app_assoc. Qed.

Lemma run_toast_show_overlays id q :
  overlays (run (toast_show id) q) = map (set_toast_shown id true) (overlays q).
Proof. done. Qed.

Lemma run_toast_show_timers id q : timers (run (toast_show id) q) = timers q.
Proof. done. Qed.

Lemma run_toast_hide_overlays id q :
  overlays (run (toast_hide id) q) = map (set_toast_shown id false) (overlays q).
Proof. done. Qed.

Lemma run_toast_hide_timers id q :
  timers (run (toast_hide id) q) = timers q ++ [mk_timer (clock q + 300) (next_id q) (TToastRemove id)].
Proof. done. Qed.

Lemma run_toast_remove id q :
  existsb (fun o => overlay_id o =? id) (overlays q) = true ->
  run (toast_remove id) q = set_overlays (filter (fun o => overlay_id o <> id) (overlays q)) q.
Proof. intros H. unfold run, toast_remove, remove_overlay, mbind, gets. simpl. by rewrite H. Qed.

Lemma run_toast_remove_timers id q : timers (run (toast_remove id) q) = timers q.
Proof.
  unfold run, toast_remove, remove_overlay, mbind, gets. simpl.
  by destruct (existsb _ (overlays q)).
Qed.

(** Overlays with ids other than [id] are left alone. *)
Lemma map_set_toast_shown_other id b os :
  Forall (fun o => overlay_id o <> id) os -> map (set_toast_shown id b) os = os.
Proof.
  induction 1 as [|o os Ho _ IH]; [done|]. simpl. rewrite IH. f_equal.
  destruct o; simpl in *; [done|]. by rewrite (proj2 (Nat.eqb_neq _ _) Ho).
Qed.

Lemma filter_overlay_other id os :
  Forall (fun o => overlay_id o <> id) os -> filter (fun o => overlay_id o <> id) os = os.
Proof.
  induction 1 as [|o os Ho _ IH]; [done|]. by rewrite filter_cons_True, IH.
Qed.

Lemma set_toast_shown_last id b b' os ty ic msg :
  Forall (fun o => overlay_id o <> id) os ->
  map (set_toast_shown id b) (os ++ [OToast id ty ic msg b']) = os ++ [OToast id ty ic msg b].
Proof.
  intros H. rewrite map_app, map_set_toast_shown_other by done. simpl. by rewrite Nat.eqb_refl.
Qed.

Lemma remove_overlay_last id os o :
  Forall (fun o => overlay_id o <> id) os -> overlay_id o = id ->
  filter (fun o => overlay_id o <> id) (os ++ [o]) = os.
Proof.
  intros H Ho. rewrite filter_app, filter_overlay_other, filter_cons_False by auto.
  by rewrite app_nil_r.
Qed.

Lemma existsb_overlay_last id os o :
  overlay_id o = id -> existsb (fun o => overlay_id o =? id) (os ++ [o]) = true.
Proof. intros Ho. rewrite existsb_app. simpl. rewrite Ho, Nat.eqb_refl. apply orb_true_r. Qed.
