(* ===== verification/Download.v ===== *)
(** * Downloads: [downloadImage]

    The card's download button calls [downloadImage(viz.image,
    viz.title)] (script.js, lines 206 and 253); [downloadImage]
    (lines 279-311) posts the image and title to [/download_image].  On
    a 2xx response the blob is saved through a temporary anchor named
    [`${title}.png`], appended to [body] and removed in the same
    callback, and a success toast is shown; on a non-2xx status, a
    rejected [fetch] or a rejected [response.blob()] the [catch] shows
    an error toast.  The anchor never outlives the callback, so it is
    not an overlay of the model; the save is recorded in [downloads]. *)

From S2P Require Import Prelude JsValue Text Storage Page Library Notify.

(** Lines 279-287: the request carries [String(imageData)] and
    [String(title)], as [FormData.append] converts them. *)
Definition downloadImage (imageData title : jval) : M unit :=
  send (RqDownload (js_to_string imageData) (js_to_string title)).

(** How the host settles a download request: [fetch] rejects, or a
    response arrives with a status and a body that [response.blob()]
    reads ([true]) or rejects ([false]). *)
Inductive dl_response :=
| DlNetworkError
| DlHttp (status : Z) (blob_ok : bool).

Definition download_success_msg : string := "Chart downloaded successfully!".
Definition download_failure_msg : string := "Failed to download image".

(** The [catch] (lines 307-310), given the rejection reason. *)
Definition download_catch (error : js_exn) : M unit :=
  showNotification download_failure_msg "error" ;;;                    (* 308 *)
  console_error error.                                                  (* 309 *)

(** Lines 288-310, for the request of title [title]: a non-2xx status
    throws [Error('Download failed')] (line 290), a rejected [fetch] or
    [blob()] rejects the chain; each reaches the [catch]. *)
Definition download_settled (title : string) (r : dl_response) : M unit :=
  match r with
  | DlHttp status blob_ok =>
      if response_ok status                                                 (* 289-291 *)
      then if blob_ok                                                       (* 292 *)
           then modify (fun p => set_downloads (downloads p ++ [title +:+ ".png"]) p) ;;;  (* 295-302 *)
                showNotification download_success_msg "success"             (* 305 *)
           else download_catch BlobReadError
      else download_catch DownloadFailed
  | DlNetworkError => download_catch NetworkError
  end.

(** The download button's listener (lines 205-206, 252-253): the card's
    descriptor is read when the button is clicked. *)
Definition card_download_click (c : card) : M unit :=
  let* image := lift (get_own (card_viz c) "image") in
  let* title := lift (get_own (card_viz c) "title") in
  downloadImage image title.

(** ** Properties *)

Lemma toast_count_app os1 os2 : toast_count (os1 ++ os2) = toast_count os1 + toast_count os2.
Proof. apply count_if_app. Qed.

(** C22: a successful download saves exactly one file, named
    [title.png], shows exactly one toast, a success toast, and logs
    nothing; a failed one (non-2xx status, rejected [fetch] or rejected
    [blob()]) saves nothing, shows exactly one error toast and logs its
    cause once ([console.error], line 309).  Either way the results
    view, the loading indicator and the pending requests are untouched. *)
Theorem download_settled_spec title r p :
  let p' := run (download_settled title r) p in
  let ok := match r with DlHttp st b => response_ok st && b | DlNetworkError => false end in
  let cause := match r with
               | DlHttp st _ => if response_ok st then BlobReadError else DownloadFailed
               | DlNetworkError => NetworkError
               end in
  container p' = container p /\ loading_shown p' = loading_shown p /\ requests p' = requests p /\
  exists msg kind,
    overlays p' = overlays p ++ [OToast (next_id p) kind (notification_icon kind) msg false] /\
    (if ok then kind = "success"%string /\ msg = download_success_msg /\
                downloads p' = downloads p ++ [title +:+ ".png"] /\ console p' = console p
     else kind = "error"%string /\ msg = download_failure_msg /\ downloads p' = downloads p /\
          console p' = console p ++ [cause]).
Proof.
  unfold run, download_settled.
  destruct r as [|st b]; [|destruct (response_ok st); [destruct b|]]; cbn;
    (split_and!; [reflexivity..|]); do 2 eexists; repeat split; reflexivity.
Qed.
