(* ===== verification/Modal.v ===== *)
(** * The info modal and fullscreen

    - [showChartInfo(chartTitle)] (script.js, lines 337-386) builds a
      [.modal] whose text uses [${chartTitle}] and
      [${chartTitle.toLowerCase()}], appends it to [body], wires its close
      button (lines 369-372) and its background click (lines 375-379,
      [e.target === modal]), and fades it in after 10 ms (382-385).
    - [toggleFullscreen(element)] (lines 313-335) requests fullscreen on
      the card through the first of [requestFullscreen],
      [mozRequestFullScreen], [webkitRequestFullscreen],
      [msRequestFullscreen] the element has, or, when
      [document.fullscreenElement] is set, exits through the first of the
      four exit methods the document has.  The test reads the standard
      property only ([fullscreenElement]): a browser without it
      ([fs_element] false, the prefixed-only API) reads [undefined]
      whatever is fullscreen.  The browser's change of the element in
      fullscreen ([Page.fullscreen]) is taken to follow the call. *)

From S2P Require Import Prelude JsValue Text Storage Page Render Notify.

(** ** The info modal *)

(** Lines 337-366 and 382-385: the template throws a [TypeError] before
    anything is appended when the title is not a string. *)
Definition showChartInfo (chartTitle : jval) : M unit :=
  let* lower := lift (str_method chartTitle to_lower) in            (* line 350 *)
  let* id := fresh in
  append_overlay (OModal id (js_to_string chartTitle) lower false) ;;;  (* line 366 *)
  set_timeout 10 (TModalOpen id).                                    (* lines 382-385 *)

(** The info button's listener (lines 215-218, 262-265). *)
Definition card_info_click (c : card) : M unit :=
  let* title := lift (get_own (card_viz c) "title") in
  showChartInfo title.

(** The close button (lines 370-372). *)
Definition modal_close_click (id : nat) : M unit := remove_overlay id.

(** A click on the modal element (lines 375-379): [on_background] tells
    whether the target is the modal itself rather than its content. *)
Definition modal_click (id : nat) (on_background : bool) : M unit :=
  if on_background then remove_overlay id else mret tt.

Definition set_modal_opened (id : nat) (o : overlay) : overlay :=
  match o with
  | OModal id' t l _ => if id' =? id then OModal id' t l true else o
  | _ => o
  end.

(** The fade-in callback (lines 383-384). *)
Definition modal_open (id : nat) : M unit :=
  modify (fun p => set_overlays (map (set_modal_opened id) (overlays p)) p).

(** ** Fullscreen *)

(** The method a toggle calls. *)
Inductive fs_call :=
| FsRequestOn (v : fs_vendor) (card : nat)
| FsExitVia (v : fs_vendor)
| FsNoCall.

#[export] Instance fs_vendor_eq_dec : EqDecision fs_vendor.
Proof. solve_decision. Defined.

(** The first element of [order] that [has] contains. *)
Fixpoint first_in (order has : list fs_vendor) : option fs_vendor :=
  match order with
  | [] => None
  | v :: order' => if bool_decide (v ∈ has) then Some v else first_in order' has
  end.

(** The [if]/[else if] chains of lines 315-322 and 325-332. *)
Definition vendor_order : list fs_vendor := [FsStd; FsMoz; FsWebkit; FsMs].

Definition fullscreen_call (B : browser) (current : option nat) (cid : nat) : fs_call :=
  match current with
  | None => match first_in vendor_order (fs_request B) with
            | Some v => FsRequestOn v cid
            | None => FsNoCall
            end
  | Some _ => match first_in vendor_order (fs_exit B) with
              | Some v => FsExitVia v
              | None => FsNoCall
              end
  end.

(** [document.fullscreenElement] (line 314): the element in fullscreen
    when the browser implements the standard property, [undefined]
    otherwise, whichever method entered fullscreen. *)
Definition fullscreenElement (B : browser) (current : option nat) : option nat :=
  if fs_element B then current else None.

(** The fullscreen button's listener (lines 209-212, 256-259), with the
    browser applying the call. *)
Definition toggleFullscreen (B : browser) (cid : nat) : M unit :=
  let* current := gets fullscreen in
  match fullscreen_call B (fullscreenElement B current) cid with
  | FsRequestOn _ c => modify (set_fullscreen (Some c))
  | FsExitVia _ => modify (set_fullscreen None)
  | FsNoCall => mret tt
  end.

(** A browser with the WebKit-prefixed API only. *)
Definition webkit_only_browser : browser := {|
  date_of := date_of ref_browser;
  id_query := id_query ref_browser;
  attr_query := attr_query ref_browser;
  fs_request := [FsWebkit];
  fs_exit := [FsWebkit];
  fs_element := false
|}.

(** ** Properties *)

(** C23: the info modal of a card whose title is the string [t]
    appends one modal holding [t] and its lower case, not yet faded in,
    and schedules the fade-in 10 ms later; for a title that is not a
    string, [toLowerCase] throws and nothing is appended. *)
Theorem showChartInfo_spec v p :
  let p' := run (showChartInfo v) p in
  match v with
  | JStr t =>
      overlays p' = overlays p ++ [OModal (next_id p) t (to_lower t) false] /\
      timers p' = timers p ++ [mk_timer (clock p + 10) (S (next_id p)) (TModalOpen (next_id p))]
  | _ => fst (showChartInfo v p) = Exc TypeError /\ p' = p
  end.
Proof. destruct v; simpl; auto. Qed.

(** C32: with a browser that implements [document.fullscreenElement]
    and has a request method on elements and an exit method on the
    document, the fullscreen button toggles: the first click puts card
    [cid] in fullscreen, the second leaves it. *)
Theorem toggleFullscreen_roundtrip B cid p :
  fs_element B = true ->
  first_in vendor_order (fs_request B) <> None -> first_in vendor_order (fs_exit B) <> None ->
  fullscreen p = None ->
  fullscreen (run (toggleFullscreen B cid) p) = Some cid /\
  fullscreen (run (toggleFullscreen B cid ;;; toggleFullscreen B cid) p) = None.
Proof.
  intros Hel Hr He Hf. unfold run, toggleFullscreen, mbind, gets. cbn [fst snd]. rewrite Hf.
  unfold fullscreen_call, fullscreenElement. rewrite Hel.
  destruct (first_in vendor_order (fs_request B)); [|done].
  destruct (first_in vendor_order (fs_exit B)); [|done]. split; reflexivity.
Qed.

Lemma toggleFullscreen_roundtrip_witness :
  fs_element ref_browser = true /\
  first_in vendor_order (fs_request ref_browser) <> None /\
  first_in vendor_order (fs_exit ref_browser) <> None /\
  fullscreen (run (toggleFullscreen ref_browser 5) (html_page [] ∅)) = Some 5 /\
  fullscreen (run (toggleFullscreen ref_browser 5 ;;; toggleFullscreen ref_browser 5) (html_page [] ∅)) = None.
Proof.
  split; [reflexivity|split; [discriminate|split; [discriminate|]]].
  apply toggleFullscreen_roundtrip; [reflexivity|discriminate|discriminate|reflexivity].
Defined.

(** C24: on a browser with only a prefixed fullscreen API (no standard
    [document.fullscreenElement]) but a request method, every click on
    the fullscreen button requests fullscreen for the card, whatever is
    fullscreen already: the test of line 314 never sees the element, so
    the exit chain of lines 325-332 is never reached and the button
    cannot leave fullscreen. *)
Theorem toggleFullscreen_prefixed_never_exits B cid p :
  fs_element B = false -> first_in vendor_order (fs_request B) <> None ->
  fullscreen (run (toggleFullscreen B cid) p) = Some cid.
Proof.
  intros Hel Hr. unfold run, toggleFullscreen, mbind, gets. cbn [fst snd].
  unfold fullscreenElement, fullscreen_call. rewrite Hel.
  destruct (first_in vendor_order (fs_request B)); [reflexivity|done].
Qed.

(** Card 5 is already fullscreen: the click requests it again. *)
Lemma toggleFullscreen_prefixed_never_exits_witness :
  let p := set_fullscreen (Some 5) (html_page [] ∅) in
  fs_element webkit_only_browser = false /\
  first_in vendor_order (fs_request webkit_only_browser) <> None /\
  fullscreen (run (toggleFullscreen webkit_only_browser 5) p) = Some 5.
Proof.
  split; [reflexivity|split; [discriminate|]].
  apply toggleFullscreen_prefixed_never_exits; [reflexivity|discriminate].
Defined.
