(* ===== verification/Dashboard.v ===== *)
(** * The dashboard: initialisation, event dispatch, reachable pages

    [init] is the [DOMContentLoaded] listener (script.js, lines 1-639)
    as far as it changes state: the theme restore (36-40), the library
    restore (73-81) and the [style] element (448-638); the listeners it
    registers are the handlers [dispatch] runs.  A click runs the
    target's listeners and then the document's click listener (53-59):
    an exception in a listener is reported by the browser and does not
    stop the others.  The host's events settle requests, fire preloads
    and timers, and advance the clock.  [step] is the transition
    relation and [reachable] the pages the dashboard can show.

    The DOM contract (the HTML is not part of the sources): the close
    button of the dataset-info panel lies inside the panel; the panel,
    its toggle and the other controls are disjoint. *)

From S2P Require Import Prelude JsValue Text Storage Page Render Library Theme Timers Notify Download Modal.

(** ** Initialisation *)

(** [document.head.appendChild(styleElement)] (line 638). *)
Definition inject_styles : M unit := modify (set_styles_in true).

(** The state changes of the [DOMContentLoaded] listener, in order; a
    [SyntaxError] of the library restore stops it before the styles. *)
Definition init (B : browser) : M unit :=
  restore_theme ;;; restore_library B ;;; inject_styles.

(** ** Click targets *)

Inductive target :=
| TgMenu | TgTheme | TgInfoToggle | TgClosePanel
| TgPanel                         (** anywhere else inside the panel *)
| TgLibrary (i : nat)
| TgRetry
| TgCardDownload (cid : nat) | TgCardFullscreen (cid : nat) | TgCardInfo (cid : nat)
| TgModalClose (mid : nat) | TgModalBackground (mid : nat) | TgModalContent (mid : nat)
| TgElsewhere.

Definition in_panel (t : target) : bool :=
  match t with TgPanel | TgClosePanel => true | _ => false end.

Definition in_toggle (t : target) : bool :=
  match t with TgInfoToggle => true | _ => false end.

(** The card with id [cid] in the container. *)
Definition card_of (cid : nat) (p : page) : option card :=
  List.find (fun c => card_id c =? cid) (view_cards (container p)).

Definition has_modal (mid : nat) (p : page) : bool :=
  existsb (fun o => match o with OModal id _ _ _ => id =? mid | _ => false end) (overlays p).

Definition is_error_view (v : view) : bool :=
  match v with VError _ => true | _ => false end.

(** The targets a user can click on the page. *)
Definition enabled (t : target) (p : page) : bool :=
  match t with
  | TgLibrary i => i <? length (buttons p)
  | TgRetry => is_error_view (container p)
  | TgCardDownload c | TgCardFullscreen c | TgCardInfo c => bool_decide (is_Some (card_of c p))
  | TgModalClose m | TgModalBackground m | TgModalContent m => has_modal m p
  | _ => true
  end.

(** The target's own listeners, innermost first. *)
Definition target_handler (B : browser) (t : target) : M unit :=
  match t with
  | TgMenu => menu_click
  | TgTheme => theme_click
  | TgInfoToggle => info_toggle_click
  | TgClosePanel => close_panel_click
  | TgLibrary i => library_click i
  | TgRetry => retry_click
  | TgCardDownload c =>
      let* oc := gets (card_of c) in
      match oc with Some cd => card_download_click cd | None => mret tt end
  | TgCardFullscreen c => toggleFullscreen B c
  | TgCardInfo c =>
      let* oc := gets (card_of c) in
      match oc with Some cd => card_info_click cd | None => mret tt end
  | TgModalClose m => modal_close_click m ;;; modal_click m false
  | TgModalBackground m => modal_click m true
  | TgModalContent m => modal_click m false
  | TgPanel | TgElsewhere => mret tt
  end.

(** An exception thrown by a listener is reported and dropped. *)
Definition listener (m : M unit) : M unit := mcatch m (fun _ => mret tt).

(** A click: the target's listeners, then the document's. *)
Definition dispatch (B : browser) (t : target) : M unit :=
  listener (target_handler B t) ;;; document_click (in_panel t) (in_toggle t).

(** ** Host events *)

Inductive event :=
| EvClick (t : target)
| EvVisSettled (rid : nat) (r : vis_response)
| EvDlSettled (rid : nat) (r : dl_response)
| EvPreloadLoad (pid : nat)
| EvPreloadError (pid : nat)   (** the image fails: no [onerror] is set *)
| EvTimer
| EvTick (d : nat)
| EvFsExit.                    (** the user leaves fullscreen (Escape) *)

Definition find_request (rid : nat) (rs : list (nat * request)) : option request :=
  snd <$> List.find (fun r => fst r =? rid) rs.

Definition drop_request (rid : nat) (p : page) : page :=
  set_requests (filter (fun r => fst r <> rid) (requests p)) p.

Definition find_preload (pid : nat) (ps : list preload) : option preload :=
  List.find (fun pl => pl_id pl =? pid) ps.

Definition drop_preload (pid : nat) (p : page) : page :=
  set_preloads (filter (fun pl => pl_id pl <> pid) (preloads p)) p.

(** The callbacks of the timer queue. *)
Definition run_timer_action (a : timer_action) : M unit :=
  match a with
  | TReveal c => reveal_card c
  | TModalOpen m => modal_open m
  | TToastShow t => toast_show t
  | TToastHide t => toast_hide t
  | TToastRemove t => toast_remove t
  end.

(** The effect of one event, or [None] when it cannot happen. *)
Definition step_fn (B : browser) (ev : event) (p : page) : option page :=
  match ev with
  | EvClick t => if enabled t p then Some (run (dispatch B t) p) else None
  | EvVisSettled rid r =>
      match find_request rid (requests p) with
      | Some (RqVisualizations _) => Some (run (handle_response B r) (drop_request rid p))
      | _ => None
      end
  | EvDlSettled rid r =>
      match find_request rid (requests p) with
      | Some (RqDownload _ title) => Some (run (download_settled title r) (drop_request rid p))
      | _ => None
      end
  | EvPreloadLoad pid =>
      match find_preload pid (preloads p) with
      | Some pl => Some (run (listener (preload_loaded pl)) (drop_preload pid p))
      | None => None
      end
  | EvPreloadError pid =>
      match find_preload pid (preloads p) with
      | Some _ => Some (drop_preload pid p)
      | None => None
      end
  | EvTimer =>
      match next_timer (timers p) with
      | Some _ =>
          Some (run (let* a := fire in
                     match a with Some a => listener (run_timer_action a) | None => mret tt end) p)
      | None => None
      end
  | EvTick d => Some (set_clock (clock p + d) p)
  | EvFsExit =>
      match fullscreen p with
      | Some _ => Some (set_fullscreen None p)
      | None => None
      end
  end.

Definition step (B : browser) (p p' : page) : Prop := exists ev, step_fn B ev p = Some p'.

(** The pages reachable from the loaded page, for HTML buttons with at
    most one marked active and any stored preferences. *)
Inductive reachable (B : browser) : page -> Prop :=
| reach_init bs st :
    active_count bs <= 1 -> reachable B (run (init B) (html_page bs st))
| reach_step p p' : reachable B p -> step B p p' -> reachable B p'.

(** Two buttons and the page the dashboard loads with them. *)
Definition two_buttons : list button :=
  [mk_button (Some "seaborn") false; mk_button (Some "pandas") false].

Definition empty_results (lib : string) : vis_response :=
  VisHttp 200 (Some (JObj [("library", JStr lib); ("visualizations", JArr [])])).

(** A timer event runs the callback of the timer [next_timer] picks on
    the page with that timer removed and the clock advanced to it. *)
Lemma step_timer B p t : next_timer (timers p) = Some t ->
  step_fn B EvTimer p =
  Some (run (run_timer_action (tm_action t))
          (set_clock (Nat.max (clock p) (tm_due t)) (set_timers (remove_timer (tm_seq t) (timers p)) p))).
Proof.
  intros H. cbn [step_fn]. rewrite H. f_equal.
  unfold run at 1. unfold mbind at 1, fire. unfold mbind at 1, gets. rewrite H.
  unfold mbind, modify, mret. cbn [fst snd]. unfold run, listener, mcatch.
  by destruct (run_timer_action _ _) as [[[]|e] q].
Qed.

(** ** The page invariant *)

Definition is_vis (r : nat * request) : bool :=
  match snd r with RqVisualizations _ => true | _ => false end.

(** The pending visualization requests. *)
Definition vis_requests (p : page) : list (nat * request) := filter (fun r => is_vis r = true) (requests p).

(** Exactly one view state is visible: the welcome message, the loading
    indicator, or a non-empty container. *)
Definition view_ok (p : page) : Prop :=
  (welcome_shown p = true /\ loading_shown p = false /\ container p = VEmpty) \/
  (welcome_shown p = false /\ loading_shown p = true /\ container p = VEmpty) \/
  (welcome_shown p = false /\ loading_shown p = false /\ container p <> VEmpty).

(** The invariant of reachable pages. *)
Definition page_inv (p : page) : Prop :=
  active_count (buttons p) <= 1 /\ view_ok p /\
  (welcome_shown p = false -> active_count (buttons p) = 1) /\
  (welcome_shown p = true -> vis_requests p = []).

(** The handlers outside the request cycle leave the buttons, the welcome
    message, the loading indicator and whether the container is empty as
    they are, and add no visualization request. *)
Definition quiet (p p' : page) : Prop :=
  buttons p' = buttons p /\ welcome_shown p' = welcome_shown p /\
  loading_shown p' = loading_shown p /\ (container p' = VEmpty <-> container p = VEmpty) /\
  length (vis_requests p') <= length (vis_requests p) /\
  is_error_view (container p') = is_error_view (container p).

#[export] Instance quiet_preorder : PreOrder quiet.
Proof.
  split.
  - intros p. unfold quiet. repeat split; auto.
  - intros p1 p2 p3 (Hb1 & Hw1 & Hl1 & Hc1 & Hv1 & He1) (Hb2 & Hw2 & Hl2 & Hc2 & Hv2 & He2).
    repeat split; try congruence.
    + intros H. by apply Hc1, Hc2. + intros H. by apply Hc2, Hc1. + lia.
Qed.

Lemma quiet_vis_nil p p' : quiet p p' -> vis_requests p = [] -> vis_requests p' = [].
Proof.
  intros (_ & _ & _ & _ & Hv & _) H. rewrite H in Hv. simpl in Hv.
  apply nil_length_inv; lia.
Qed.

Lemma quiet_page_inv p p' : quiet p p' -> page_inv p -> page_inv p'.
Proof.
  intros Hq. pose proof (quiet_vis_nil p p' Hq) as Hv. revert Hq.
  unfold quiet, page_inv, view_ok. intros (Hb & Hw & Hl & Hc & _ & _) (H1 & H2 & H3 & H4).
  rewrite Hb, Hw, Hl. split; [done|]. split; [|split; [done|intros Hw'; apply Hv, H4, Hw']].
  destruct H2 as [(? & ? & Hc0)|[(? & ? & Hc0)|(? & ? & Hc0)]];
    [left|right; left|right; right]; (split; [done|split; [done|]]).
  - by apply Hc. - by apply Hc. - intros E. by apply Hc0, Hc.
Qed.

Lemma quiet_set_sidebar_active v p : quiet p (set_sidebar_active v p).
Proof. destruct p. unfold quiet, vis_requests. repeat split; auto. Qed.

Lemma quiet_set_dark_theme v p : quiet p (set_dark_theme v p).
Proof. destruct p. unfold quiet, vis_requests. repeat split; auto. Qed.

Lemma quiet_set_theme_icon v p : quiet p (set_theme_icon v p).
Proof. destruct p. unfold quiet, vis_requests. repeat split; auto. Qed.

Lemma quiet_set_panel_active v p : quiet p (set_panel_active v p).
Proof. destruct p. unfold quiet, vis_requests. repeat split; auto. Qed.

Lemma quiet_set_overlays v p : quiet p (set_overlays v p).
Proof. destruct p. unfold quiet, vis_requests. repeat split; auto. Qed.

Lemma quiet_set_store v p : quiet p (set_store v p).
Proof. destruct p. unfold quiet, vis_requests. repeat split; auto. Qed.

Lemma quiet_set_timers v p : quiet p (set_timers v p).
Proof. destruct p. unfold quiet, vis_requests. repeat split; auto. Qed.

Lemma quiet_set_preloads v p : quiet p (set_preloads v p).
Proof. destruct p. unfold quiet, vis_requests. repeat split; auto. Qed.

Lemma quiet_set_fullscreen v p : quiet p (set_fullscreen v p).
Proof. destruct p. unfold quiet, vis_requests. repeat split; auto. Qed.

Lemma quiet_set_downloads v p : quiet p (set_downloads v p).
Proof. destruct p. unfold quiet, vis_requests. repeat split; auto. Qed.

Lemma quiet_set_styles_in v p : quiet p (set_styles_in v p).
Proof. destruct p. unfold quiet, vis_requests. repeat split; auto. Qed.

Lemma quiet_set_console v p : quiet p (set_console v p).
Proof. destruct p. unfold quiet, vis_requests. repeat split; auto. Qed.

Lemma quiet_set_clock v p : quiet p (set_clock v p).
Proof. destruct p. unfold quiet, vis_requests. repeat split; auto. Qed.

Lemma quiet_set_next_id v p : quiet p (set_next_id v p).
Proof. destruct p. unfold quiet, vis_requests. repeat split; auto. Qed.


Lemma quiet_update_card cid f p : quiet p (set_container (update_card cid f (container p)) p).
Proof.
  destruct p as [? ? ? ? ? ? ? c]. unfold quiet, vis_requests. simpl.
  repeat split; auto; destruct c; simpl; done.
Qed.

Lemma quiet_drop_request rid p : quiet p (drop_request rid p).
Proof.
  destruct p. unfold quiet, vis_requests, drop_request. simpl. repeat split; auto.
  apply length_filter_filter.
Qed.

Lemma quiet_drop_preload pid p : quiet p (drop_preload pid p).
Proof. apply quiet_set_preloads. Qed.

#[export] Hint Resolve quiet_update_card quiet_drop_request quiet_drop_preload : dash.

#[export] Hint Resolve quiet_set_sidebar_active quiet_set_dark_theme quiet_set_theme_icon quiet_set_panel_active quiet_set_overlays quiet_set_store quiet_set_timers quiet_set_preloads quiet_set_fullscreen quiet_set_downloads quiet_set_styles_in quiet_set_console quiet_set_clock quiet_set_next_id : dash.

Lemma keeps_quiet_fresh : keeps quiet fresh.
Proof. intros p. apply quiet_set_next_id. Qed.

Lemma quiet_set_clock_timers v w p : quiet p (set_clock v (set_timers w p)).
Proof. destruct p. unfold quiet, vis_requests. repeat split; auto. Qed.

#[export] Hint Resolve keeps_quiet_fresh quiet_set_clock_timers : dash.

Lemma keeps_quiet_set_timeout d a : keeps quiet (set_timeout d a).
Proof. unfold set_timeout. solve_keeps. Qed.

Lemma keeps_quiet_send_download i t : keeps quiet (send (RqDownload i t)).
Proof.
  unfold send. solve_keeps. destruct p. unfold quiet, vis_requests. simpl.
  rewrite filter_app. simpl. rewrite app_nil_r. repeat split; auto.
Qed.

Lemma keeps_quiet_remove_overlay id : keeps quiet (remove_overlay id).
Proof. unfold remove_overlay. solve_keeps. Qed.

#[export] Hint Resolve keeps_quiet_set_timeout keeps_quiet_send_download
  keeps_quiet_remove_overlay : dash.

Lemma keeps_quiet_showNotification m t : keeps quiet (showNotification m t).
Proof. unfold showNotification, append_overlay. solve_keeps. Qed.

#[export] Hint Resolve keeps_quiet_showNotification : dash.

Lemma keeps_quiet_listener m : keeps quiet m -> keeps quiet (listener m).
Proof. intros H. unfold listener. solve_keeps. Qed.

#[export] Hint Resolve keeps_quiet_listener : dash.

(** The listeners of every target but the library buttons and the retry
    button. *)
Lemma keeps_quiet_target B t :
  (forall i, t <> TgLibrary i) -> t <> TgRetry -> keeps quiet (target_handler B t).
Proof.
  intros Hl Hr. destruct t as [| | | | |i| | | | | | | |];
    [| | | | |by destruct (Hl i)|done| | | | | | |]; simpl;
    unfold menu_click, theme_click, set_item, info_toggle_click, close_panel_click,
      toggleFullscreen, card_download_click, downloadImage, card_info_click, showChartInfo,
      append_overlay, modal_close_click, modal_click;
    solve_keeps.
Qed.

Lemma keeps_quiet_document_click a b : keeps quiet (document_click a b).
Proof. unfold document_click. solve_keeps. Qed.

Lemma keeps_quiet_timer_action a : keeps quiet (run_timer_action a).
Proof.
  destruct a; simpl; unfold reveal_card, modal_open, toast_show, toast_hide, toast_remove;
    solve_keeps.
Qed.

Lemma keeps_quiet_fire : keeps quiet fire.
Proof. unfold fire. solve_keeps. Qed.

Lemma keeps_quiet_download_settled t r : keeps quiet (download_settled t r).
Proof. unfold download_settled, download_catch. solve_keeps. Qed.

Lemma keeps_quiet_preload pl : keeps quiet (listener (preload_loaded pl)).
Proof. unfold listener, preload_loaded. solve_keeps. Qed.

Lemma keeps_quiet_restore_theme : keeps quiet restore_theme.
Proof. unfold restore_theme. solve_keeps. Qed.

(** ** Preservation of the invariant *)

Lemma run_listener m p : run (listener m) p = run m p.
Proof. unfold run, listener, mcatch. by destruct (m p) as [[[]|e] p']. Qed.

Lemma run_dispatch B t p :
  run (dispatch B t) p = run (document_click (in_panel t) (in_toggle t)) (run (target_handler B t) p).
Proof.
  unfold dispatch, run, mbind at 1, listener, mcatch.
  by destruct (target_handler B t p) as [[[]|e] p'].
Qed.

Lemma load_page_inv L p :
  active_count (buttons p) = 1 -> page_inv (run (loadVisualizations L) p).
Proof.
  intros H. destruct (loadVisualizations_post L p) as [_ (? & Hw & Hl & Hc & _ & _ & Hb & _)].
  unfold page_inv, view_ok. rewrite Hw, Hl, Hc, Hb, H.
  repeat split; auto; try lia; try (right; left; auto).
Qed.

Lemma library_click_page_inv p i :
  i < length (buttons p) -> page_inv (run (library_click i) p).
Proof.
  intros Hi. destruct (lookup_lt_is_Some_2 _ _ Hi) as [b Hb].
  destruct (library_click_post p i b Hb) as (Ha & _ & _ & Hw & Hl & Hc & _).
  unfold page_inv, view_ok. rewrite Ha, Hw, Hl, Hc.
  repeat split; auto; try lia; try (right; left; auto).
Qed.

Lemma error_view_welcome p :
  page_inv p -> is_error_view (container p) = true -> welcome_shown p = false.
Proof.
  intros (_ & H2 & _) He.
  destruct H2 as [(_ & _ & Hc)|[(_ & _ & Hc)|(Hw & _)]]; [rewrite Hc in He..|]; done.
Qed.

Lemma run_retry_click p b :
  first_active (buttons p) = Some b ->
  run retry_click p = run (loadVisualizations (attr_string (btn_library b))) p.
Proof. intros Hb. unfold run, retry_click, mbind, gets. simpl. by rewrite Hb. Qed.

Lemma retry_page_inv p :
  page_inv p -> is_error_view (container p) = true -> page_inv (run retry_click p).
Proof.
  intros Hi He. pose proof (error_view_welcome p Hi He) as Hw. destruct Hi as (H1 & H2 & H3 & H4).
  specialize (H3 Hw). destruct (active_count_first_active (buttons p)) as [b Hb]; [lia|].
  rewrite (run_retry_click p b Hb). by apply load_page_inv.
Qed.

Lemma find_request_vis rid rs L :
  find_request rid rs = Some (RqVisualizations L) -> filter (fun r => is_vis r = true) rs <> [].
Proof.
  unfold find_request. induction rs as [|[i r] rs IH]; simpl; [done|].
  rewrite filter_cons. destruct (i =? rid); simpl.
  - intros [= ->]. rewrite decide_True by done. done.
  - intros H. case_decide; [done|]. by apply IH.
Qed.

Lemma settle_page_inv B p rid L r :
  page_inv p -> find_request rid (requests p) = Some (RqVisualizations L) ->
  page_inv (run (handle_response B r) (drop_request rid p)).
Proof.
  intros (H1 & H2 & H3 & H4) Hf.
  assert (welcome_shown p = false) as Hw.
  { destruct (welcome_shown p); [|done]. exfalso.
    apply (find_request_vis _ _ _ Hf), H4. done. }
  destruct (handle_response_settles B r (drop_request rid p))
    as (Hl & Hc & (_ & _ & _ & _ & Hb & _ & Hw' & _)).
  unfold page_inv, view_ok. rewrite Hb, Hw'. simpl. rewrite Hw, (H3 Hw).
  repeat split; auto; try lia; try done; try (right; right; auto).
Qed.

Lemma keeps_quiet_timer_step : keeps quiet
  (let* a := fire in match a with Some a => listener (run_timer_action a) | None => mret tt end).
Proof.
  apply keeps_bind; [apply _|apply keeps_quiet_fire|].
  intros [a|]; [apply keeps_quiet_listener, keeps_quiet_timer_action|apply keeps_ret; apply _].
Qed.

(** One step keeps the invariant. *)
Lemma step_page_inv B p p' : page_inv p -> step B p p' -> page_inv p'.
Proof.
  intros Hinv [ev Hs]. destruct ev as [t|rid r|rid r|pid|pid| |d|]; simpl in Hs.
  - destruct (enabled t p) eqn:He; [|done]. invc Hs. rewrite run_dispatch.
    eapply quiet_page_inv; [apply keeps_quiet_document_click|].
    destruct t; simpl in He;
      try (eapply quiet_page_inv; [apply keeps_quiet_target; done|done]).
    + apply library_click_page_inv. by apply Nat.ltb_lt.
    + by apply retry_page_inv.
  - destruct (find_request rid (requests p)) as [[L|]|] eqn:Hf; try done. invc Hs.
    by eapply settle_page_inv.
  - destruct (find_request rid (requests p)) as [[|i t]|]; try done. invc Hs.
    eapply quiet_page_inv; [apply keeps_quiet_download_settled|].
    eapply quiet_page_inv; [apply quiet_drop_request|done].
  - destruct (find_preload pid (preloads p)); [|done]. invc Hs.
    eapply quiet_page_inv; [apply keeps_quiet_preload|].
    eapply quiet_page_inv; [apply quiet_drop_preload|done].
  - destruct (find_preload pid (preloads p)); [|done]. invc Hs.
    eapply quiet_page_inv; [apply quiet_drop_preload|done].
  - destruct (next_timer (timers p)); [|done]. invc Hs.
    eapply quiet_page_inv; [apply keeps_quiet_timer_step|done].
  - invc Hs. eapply quiet_page_inv; [apply quiet_set_clock|done].
  - destruct (fullscreen p); [|done]. invc Hs.
    eapply quiet_page_inv; [apply quiet_set_fullscreen|done].
Qed.

(** [inv_pres p p']: the invariant of [p] carries over to [p']. *)
Definition inv_pres (p p' : page) : Prop := page_inv p -> page_inv p'.

#[export] Instance inv_pres_preorder : PreOrder inv_pres.
Proof. split; unfold inv_pres; [intros p|intros p1 p2 p3]; auto. Qed.

Lemma keeps_inv_quiet {A} (m : M A) : keeps quiet m -> keeps inv_pres m.
Proof. apply keeps_weaken. intros p p' H. unfold inv_pres. by apply quiet_page_inv. Qed.

Lemma keeps_inv_restore_library B `{!browser_ok B} : keeps inv_pres (restore_library B).
Proof.
  intros p Hp. unfold run, restore_library, mbind at 1, gets. simpl.
  destruct (saved_library (store p)) as [last|]; [|done].
  unfold mbind at 1 2, lift. simpl.
  destruct (attr_query B last (map btn_library (buttons p))) as [[i|]|e] eqn:E;
    cbn -[loadVisualizations page_inv]; try done.
  apply attr_query_range in E. rewrite length_map in E.
  apply (load_page_inv last (set_buttons (activate_only i (buttons p)) p)).
  by apply active_count_activate_only.
Qed.

Lemma html_page_inv bs st : active_count bs <= 1 -> page_inv (html_page bs st).
Proof. intros H. unfold page_inv, view_ok. simpl. repeat split; auto; done. Qed.

Lemma init_page_inv B `{!browser_ok B} bs st :
  active_count bs <= 1 -> page_inv (run (init B) (html_page bs st)).
Proof.
  intros H. assert (K : keeps inv_pres (init B)).
  { unfold init. solve_keeps.
    all: first [ apply keeps_inv_quiet, keeps_quiet_restore_theme
               | by apply keeps_inv_restore_library
               | apply keeps_inv_quiet; unfold inject_styles; solve_keeps ]. }
  apply K. by apply html_page_inv.
Qed.

Lemma reachable_page_inv B `{!browser_ok B} p : reachable B p -> page_inv p.
Proof.
  induction 1 as [bs st H|p p' _ IH Hs].
  - by apply init_page_inv.
  - by eapply step_page_inv.
Qed.

(** ** Properties of reachable pages *)

(** C1: on every page the dashboard can reach, at most one library
    button is active, and once a load has started (the welcome message
    is hidden) exactly one is. *)
Theorem reachable_one_active B `{!browser_ok B} p :
  reachable B p ->
  active_count (buttons p) <= 1 /\ (welcome_shown p = false -> active_count (buttons p) = 1).
Proof. intros H. destruct (reachable_page_inv B p H) as (? & _ & ? & _). auto. Qed.

Lemma reachable_one_active_witness :
  let p := run (init ref_browser) (html_page two_buttons {[key_selectedLibrary := "pandas"%string]}) in
  reachable ref_browser p /\
  active_count (buttons p) <= 1 /\ (welcome_shown p = false -> active_count (buttons p) = 1).
Proof.
  assert (H : reachable ref_browser
    (run (init ref_browser) (html_page two_buttons {[key_selectedLibrary := "pandas"%string]})))
    by (apply reach_init; vm_compute; lia).
  split; [exact H|]. apply (reachable_one_active ref_browser); exact H.
Defined.

(** C2: on every page the dashboard can reach, exactly one view
    state is visible: the welcome message, the loading indicator, or a
    non-empty container (an error card or the results). *)
Theorem reachable_one_view B `{!browser_ok B} p : reachable B p -> view_ok p.
Proof. intros H. apply (reachable_page_inv B p H). Qed.

Lemma reachable_one_view_witness :
  let p := run (init ref_browser) (html_page two_buttons ∅) in
  reachable ref_browser p /\ view_ok p.
Proof.
  assert (H : reachable ref_browser (run (init ref_browser) (html_page two_buttons ∅)))
    by (apply reach_init; vm_compute; lia).
  split; [exact H|]. apply (reachable_one_view ref_browser); exact H.
Defined.

Lemma reach_event B p ev p' : reachable B p -> step_fn B ev p = Some p' -> reachable B p'.
Proof. intros H Hs. eapply reach_step; [exact H|]. by exists ev. Qed.

(** ** Retry *)

(** C10: on every page the dashboard can reach that shows the error
    card, the retry button reloads the library of the one active button:
    it stores it as [selectedLibrary], hides the welcome message, shows
    the loading indicator, clears the container and issues a request for
    it. *)
Theorem retry_reloads_active B `{!browser_ok B} p :
  reachable B p -> is_error_view (container p) = true ->
  exists i b, buttons p !! i = Some b /\ btn_active b = true /\
    (forall j c, buttons p !! j = Some c -> btn_active c = true -> j = i) /\
    load_post (attr_string (btn_library b)) p (run retry_click p).
Proof.
  intros Hr He. pose proof (reachable_page_inv B p Hr) as Hi.
  pose proof (error_view_welcome p Hi He) as Hw. destruct Hi as (_ & _ & H3 & _).
  specialize (H3 Hw). destruct (active_count_first_active (buttons p)) as [b Hb]; [lia|].
  destruct (first_active_unique _ _ H3 Hb) as (i & Hi & Ha & Hu).
  exists i, b. split_and!; [done|done|done|]. rewrite (run_retry_click p b Hb).
  apply loadVisualizations_post.
Qed.

(** Select "pandas", let its request fail, then retry. *)
Lemma retry_reloads_active_witness :
  let p0 := run (init ref_browser) (html_page two_buttons ∅) in
  let p1 := run (dispatch ref_browser (TgLibrary 1)) p0 in
  let p := run (handle_response ref_browser VisNetworkError) (drop_request 0 p1) in
  reachable ref_browser p /\ is_error_view (container p) = true /\
  exists i b, buttons p !! i = Some b /\ btn_active b = true /\
    (forall j c, buttons p !! j = Some c -> btn_active c = true -> j = i) /\
    load_post (attr_string (btn_library b)) p (run retry_click p).
Proof.
  cbv zeta.
  set (p0 := run (init ref_browser) (html_page two_buttons ∅)).
  set (p1 := run (dispatch ref_browser (TgLibrary 1)) p0).
  assert (H : reachable ref_browser (run (handle_response ref_browser VisNetworkError) (drop_request 0 p1))).
  { apply (reach_event _ p1 (EvVisSettled 0 VisNetworkError)); [|reflexivity].
    apply (reach_event _ p0 (EvClick (TgLibrary 1))); [|reflexivity].
    apply reach_init. vm_compute. lia. }
  assert (He : is_error_view (container (run (handle_response ref_browser VisNetworkError) (drop_request 0 p1))) = true)
    by (vm_compute; reflexivity).
  split; [exact H|split; [exact He|]]. apply (retry_reloads_active ref_browser); [exact H|exact He].
Defined.

(** ** The dataset-info panel under a click *)

(** C18: after any click the panel is open exactly when the click was on
    its toggle, or landed inside the panel (its close button excepted)
    while it was open: the target's listener runs first, then the
    document's, which closes the panel for every target outside the
    panel and the toggle. *)
Theorem dispatch_panel B t p :
  panel_active (run (dispatch B t) p) =
  match t with
  | TgInfoToggle => true
  | TgClosePanel => false
  | TgPanel => panel_active p
  | _ => false
  end.
Proof.
  rewrite run_dispatch.
  destruct t; cbn [in_panel in_toggle];
    first [ rewrite document_click_inside by auto; reflexivity
          | apply document_click_outside ].
Qed.

(** ** The load listener stopped by the saved library *)

(** The load listener on the template's page: the theme restore
    succeeds, then the library restore throws. *)
Lemma init_selector_error_run B bs st last e :
  saved_library st = Some last -> attr_query B last (map btn_library bs) = Exc e ->
  exists p1, init B (html_page bs st) = (Exc e, p1) /\
    styles_in p1 = false /\ buttons p1 = bs /\ requests p1 = [] /\ welcome_shown p1 = true /\
    dark_theme p1 = saved_dark st.
Proof.
  intros Hs Hq.
  assert (exists p1, restore_theme (html_page bs st) = (Ret tt, p1) /\ store p1 = st /\
            buttons p1 = bs /\ requests p1 = [] /\ welcome_shown p1 = true /\
            styles_in p1 = false /\ dark_theme p1 = saved_dark st)
    as (p1 & H1 & Hst & Hb & Hrq & Hw & Hsty & Hd).
  { unfold restore_theme, mbind, gets. cbn -[saved_dark].
    destruct (saved_dark st); eexists; split_and!; reflexivity. }
  assert (H2 : restore_library B p1 = (Exc e, p1)).
  { unfold restore_library, mbind, gets, lift. rewrite Hst, Hs, Hb, Hq. reflexivity. }
  exists p1. unfold init. rewrite (run_mbind_ret _ _ _ _ _ H1), (run_mbind_exc _ _ _ _ _ H2).
  by split_and!.
Qed.

(** C28: when the stored [selectedLibrary] makes the selector of line
    75 invalid (the browser's [querySelector] throws), the
    [DOMContentLoaded] listener stops there: the theme is restored, no
    button is activated, no request is sent, the welcome message stays,
    and the style element of lines 448-638 is never appended. *)
Theorem init_selector_error B bs st last e :
  saved_library st = Some last -> attr_query B last (map btn_library bs) = Exc e ->
  let p := run (init B) (html_page bs st) in
  fst (init B (html_page bs st)) = Exc e /\
  styles_in p = false /\ buttons p = bs /\ requests p = [] /\ welcome_shown p = true /\
  dark_theme p = saved_dark st.
Proof.
  intros Hs Hq. destruct (init_selector_error_run B bs st last e Hs Hq) as (p1 & Hi & Hp).
  unfold run. by rewrite Hi.
Qed.

(** A stored library with a double quote, as written by [setItem] from a
    [data-library] attribute holding one. *)
Lemma init_selector_error_witness :
  let last := ("seaborn" +:+ String "034"%char EmptyString)%string in
  let st := {[key_selectedLibrary := last]} : gmap string string in
  saved_library st = Some last /\
  attr_query ref_browser last (map btn_library two_buttons) = Exc SyntaxError /\
  let p := run (init ref_browser) (html_page two_buttons st) in
  fst (init ref_browser (html_page two_buttons st)) = Exc SyntaxError /\
  styles_in p = false /\ buttons p = two_buttons /\ requests p = [] /\ welcome_shown p = true /\
  dark_theme p = saved_dark st.
Proof.
  split; [reflexivity|split; [vm_compute; reflexivity|]].
  apply (init_selector_error ref_browser two_buttons _ ("seaborn" +:+ String "034"%char EmptyString)%string);
    [reflexivity|vm_compute; reflexivity].
Defined.

(** ** The theme icon on reachable pages *)

(** [theme_pres p p']: a consistent icon on [p] stays consistent on
    [p']. *)
Definition theme_pres (p p' : page) : Prop := theme_consistent p -> theme_consistent p'.

#[export] Instance theme_pres_preorder : PreOrder theme_pres.
Proof. split; unfold theme_pres; [intros p|intros p1 p2 p3]; auto. Qed.

(** A write of any field but the theme and its icon keeps the icon
    consistent: the two sides are convertible. *)
#[export] Hint Extern 1 (theme_pres _ _) => (let H := fresh in intros H; exact H) : dash.

Lemma keeps_theme_fresh : keeps theme_pres fresh.
Proof. intros p H. exact H. Qed.

Lemma keeps_theme_response B r : keeps theme_pres (handle_response B r).
Proof.
  intros p H. destruct (keeps_response_handle B r p) as (_ & Hd & Hi & _).
  unfold theme_consistent in *. by rewrite Hd, Hi.
Qed.

#[export] Hint Resolve keeps_theme_fresh : dash.

Lemma keeps_theme_set_timeout d a : keeps theme_pres (set_timeout d a).
Proof. unfold set_timeout. solve_keeps. Qed.

Lemma keeps_theme_send r : keeps theme_pres (send r).
Proof. unfold send. solve_keeps. Qed.

#[export] Hint Resolve keeps_theme_set_timeout keeps_theme_send : dash.

Lemma keeps_theme_showNotification m t : keeps theme_pres (showNotification m t).
Proof. unfold showNotification, append_overlay. solve_keeps. Qed.

Lemma keeps_theme_remove_overlay id : keeps theme_pres (remove_overlay id).
Proof. unfold remove_overlay. solve_keeps. Qed.

Lemma keeps_theme_load L : keeps theme_pres (loadVisualizations L).
Proof. unfold loadVisualizations, set_item. solve_keeps. Qed.

#[export] Hint Resolve keeps_theme_showNotification keeps_theme_remove_overlay keeps_theme_load : dash.

Lemma keeps_theme_target B t : keeps theme_pres (target_handler B t).
Proof.
  destruct t; simpl;
    unfold menu_click, info_toggle_click, close_panel_click, library_click, retry_click,
      toggleFullscreen, card_download_click, downloadImage, card_info_click, showChartInfo,
      append_overlay, modal_close_click, modal_click;
    solve_keeps.
  intros p _. apply theme_click_consistent.
Qed.

Lemma keeps_theme_dispatch B t : keeps theme_pres (dispatch B t).
Proof.
  unfold dispatch, listener, document_click. solve_keeps. apply keeps_theme_target.
Qed.

Lemma keeps_theme_init B : keeps theme_pres (init B).
Proof.
  unfold init, restore_library, inject_styles. solve_keeps.
  intros p. exact (restore_theme_consistent p).
Qed.


Lemma keeps_theme_preload pl : keeps theme_pres (listener (preload_loaded pl)).
Proof. unfold listener, preload_loaded. solve_keeps. Qed.

Lemma keeps_theme_download t r : keeps theme_pres (download_settled t r).
Proof. unfold download_settled, download_catch. solve_keeps. Qed.

Lemma keeps_theme_timer : keeps theme_pres
  (let* a := fire in match a with Some a => listener (run_timer_action a) | None => mret tt end).
Proof.
  unfold fire, listener. solve_keeps.
  destruct t; simpl; unfold reveal_card, modal_open, toast_show, toast_hide, toast_remove; solve_keeps.
Qed.

Lemma step_theme B p p' : step B p p' -> theme_pres p p'.
Proof.
  intros [ev Hs]. destruct ev as [t|rid r|rid r|pid|pid| |d|]; cbn [step_fn] in Hs.
  - destruct (enabled t p); [|done]. invc Hs. apply keeps_theme_dispatch.
  - destruct (find_request rid (requests p)) as [[L|]|]; try done. invc Hs.
    etransitivity; [|apply keeps_theme_response]. auto with dash.
  - destruct (find_request rid (requests p)) as [[|i t]|]; try done. invc Hs.
    etransitivity; [|apply keeps_theme_download]. auto with dash.
  - destruct (find_preload pid (preloads p)); [|done]. invc Hs.
    etransitivity; [|apply keeps_theme_preload]. auto with dash.
  - destruct (find_preload pid (preloads p)); [|done]. invc Hs. auto with dash.
  - destruct (next_timer (timers p)); [|done]. invc Hs.
    apply keeps_theme_timer.
  - invc Hs. auto with dash.
  - destruct (fullscreen p); [|done]. invc Hs. auto with dash.
Qed.

(** C29: on every page the dashboard can reach, the theme toggle's icon
    shows the theme in force: the sun on the dark theme, the moon on the
    light one. *)
Theorem reachable_theme_consistent B p : reachable B p -> theme_consistent p.
Proof.
  induction 1 as [bs st _|p p' _ IH Hs].
  - apply keeps_theme_init. reflexivity.
  - by apply (step_theme B p p').
Qed.

Lemma reachable_theme_consistent_witness :
  let p := run (init ref_browser) (html_page two_buttons {[key_darkTheme := "true"%string]}) in
  reachable ref_browser p /\ theme_consistent p.
Proof.
  assert (H : reachable ref_browser
    (run (init ref_browser) (html_page two_buttons {[key_darkTheme := "true"%string]})))
    by (apply reach_init; vm_compute; lia).
  split; [exact H|]. exact (reachable_theme_consistent _ _ H).
Defined.
