(* ===== verification/ViewMachine.v ===== *)
(** * The view-state machine of the specification and its refinement

    The specification (§4.2) describes the visible state of the page as
    a machine: [Welcome], then [Loading] on a selection, then [Results]
    or [Error] when the request settles, re-entrant (a selection in any
    state restarts at [Loading]).  [abs_view] reads that state off a
    page of the model of [Dashboard]; [astep] is the machine.
    - [view_refinement]: while at most one visualization request is in
      flight ([reachable1]), every step of the dashboard is a step of
      the machine.  The proof classifies steps ([step_cases]: a quiet
      handler, the start of a load, the settlement of a request) and
      carries the invariant [one_flight] (the loading indicator is shown
      while the request is pending).
    - [stale_response_shown], [race_leaves_view_machine]: with two
      requests in flight (selecting "seaborn" then "pandas"), the first
      response is shown under the "pandas" selection, and a failure of
      the second then takes Results to Error, which the machine does not
      allow: the race the specification leaves open (§9). *)

From S2P Require Import Prelude JsValue Text Storage Page Render Library Theme Timers Notify Download Modal Dashboard.

(** ** The stale-response race *)

(** The page after selecting "seaborn", then "pandas", and receiving the
    "seaborn" response. *)
Definition race_page : page :=
  let p0 := run (init ref_browser) (html_page two_buttons ∅) in
  let p1 := run (dispatch ref_browser (TgLibrary 0)) p0 in
  let p2 := run (dispatch ref_browser (TgLibrary 1)) p1 in
  run (handle_response ref_browser (empty_results "seaborn")) (drop_request 0 p2).

Lemma race_page_reachable : reachable ref_browser race_page.
Proof.
  unfold race_page. cbv zeta.
  set (p0 := run (init ref_browser) (html_page two_buttons ∅)).
  set (p1 := run (dispatch ref_browser (TgLibrary 0)) p0).
  set (p2 := run (dispatch ref_browser (TgLibrary 1)) p1).
  apply (reach_event _ p2 (EvVisSettled 0 (empty_results "seaborn"))); [|reflexivity].
  apply (reach_event _ p1 (EvClick (TgLibrary 1))); [|reflexivity].
  apply (reach_event _ p0 (EvClick (TgLibrary 0))); [|reflexivity].
  apply reach_init. vm_compute. lia.
Qed.

(** C11: the request of an earlier selection is not cancelled:
    select "seaborn", then "pandas", and let the first response arrive;
    the page shows the Seaborn results and hides the loading indicator
    while the active button and the stored preference say "pandas" and
    the "pandas" request is still pending. *)
Theorem stale_response_shown :
  exists p, reachable ref_browser p /\
    container p = VResults "Seaborn" [] /\
    first_active (buttons p) = Some (mk_button (Some "pandas") true) /\
    store p !! key_selectedLibrary = Some "pandas"%string /\
    loading_shown p = false /\ vis_requests p = [(1, RqVisualizations "pandas")].
Proof. exists race_page. split; [apply race_page_reachable|vm_compute; repeat split]. Qed.

(** ** The view-state machine of the specification *)

(** The states of §4.2 of the specification. *)
Inductive aview := AWelcome | ALoading | AResults | AError.

(** The abstract state a page shows. *)
Definition abs_view (p : page) : aview :=
  if welcome_shown p then AWelcome
  else if loading_shown p then ALoading
  else if is_error_view (container p) then AError else AResults.

(** Its transitions: a selection (or retry) from any state enters
    [Loading]; [Loading] resolves to [Results] or [Error]; any other
    event leaves the state as it is. *)
Inductive astep : aview -> aview -> Prop :=
| as_select v : astep v ALoading
| as_results : astep ALoading AResults
| as_error : astep ALoading AError
| as_stay v : astep v v.

(** The pages reachable when at most one visualization request is ever
    in flight, the assumption of the specification (§4.2, step 4). *)
Inductive reachable1 (B : browser) : page -> Prop :=
| r1_init bs st :
    active_count bs <= 1 -> reachable1 B (run (init B) (html_page bs st))
| r1_step p p' :
    reachable1 B p -> step B p p' -> length (vis_requests p') <= 1 -> reachable1 B p'.

Lemma reachable1_reachable B p : reachable1 B p -> reachable B p.
Proof. induction 1; econstructor; eauto. Qed.

Lemma quiet_abs_view p p' : quiet p p' -> abs_view p' = abs_view p.
Proof. intros (_ & Hw & Hl & _ & _ & He). unfold abs_view. by rewrite Hw, Hl, He. Qed.

Lemma quiet_vis_pending p p' : quiet p p' -> vis_requests p' <> [] -> vis_requests p <> [].
Proof. intros Hq H E. by apply H, (quiet_vis_nil p p'). Qed.

Lemma quiet_loading p p' : quiet p p' -> loading_shown p' = loading_shown p.
Proof. by intros (_ & _ & Hl & _). Qed.

(** The loading indicator is shown whenever a request is in flight. *)
Definition flight_inv (p : page) : Prop := vis_requests p <> [] -> loading_shown p = true.

Lemma quiet_flight_inv p p' : quiet p p' -> flight_inv p -> flight_inv p'.
Proof.
  intros Hq H Hv. rewrite (quiet_loading _ _ Hq). by apply H, (quiet_vis_pending p p').
Qed.

Lemma load_flight_inv L p : flight_inv (run (loadVisualizations L) p).
Proof. intros _. apply (loadVisualizations_post L p). Qed.

Lemma drop_request_only rid rs L :
  find_request rid rs = Some (RqVisualizations L) ->
  length (filter (fun r => is_vis r = true) rs) <= 1 ->
  filter (fun r => is_vis r = true) (filter (fun r => fst r <> rid) rs) = [].
Proof.
  unfold find_request. induction rs as [|[i r] rs IH]; simpl; [done|].
  destruct (Nat.eqb_spec i rid) as [->|Hne]; simpl.
  - intros [= ->]. rewrite !filter_cons. rewrite decide_True by done. simpl. intros Hlen.
    rewrite decide_False by tauto.
    apply filter_nil_filter. destruct (filter _ rs); simpl in *; [done|lia].
  - intros Hf Hlen. rewrite (filter_cons _ (i, r)), decide_True by done.
    rewrite filter_cons in Hlen |- *.
    pose proof (find_request_vis rid rs L) as Hv. unfold find_request in Hv.
    rewrite Hf in Hv. specialize (Hv eq_refl).
    case_decide; simpl in *.
    + exfalso. destruct (filter _ rs); [done|]. simpl in Hlen. lia.
    + by apply IH.
Qed.

Lemma keeps_quiet_inject_styles : keeps quiet inject_styles.
Proof. unfold inject_styles. solve_keeps. Qed.

(** Every step is quiet, starts a load, or settles a pending
    visualization request. *)
Lemma step_cases B p p' : step B p p' ->
  quiet p p' \/ (welcome_shown p' = false /\ loading_shown p' = true) \/
  exists rid L r, find_request rid (requests p) = Some (RqVisualizations L) /\
    p' = run (handle_response B r) (drop_request rid p).
Proof.
  intros [ev Hs]. destruct ev as [t|rid r|rid r|pid|pid| |d|]; simpl in Hs.
  - destruct (enabled t p) eqn:He; [|done]. invc Hs. rewrite run_dispatch.
    pose proof (keeps_quiet_document_click (in_panel t) (in_toggle t)) as Hd.
    set (m := run (target_handler B t) p).
    assert (quiet p m \/ (welcome_shown m = false /\ loading_shown m = true)) as [Hq|[Hw Hl]].
    { subst m. destruct t; simpl in He;
        try (left; apply keeps_quiet_target; done).
      - right. apply Nat.ltb_lt, lookup_lt_is_Some_2 in He as [b Hb].
        destruct (library_click_post p _ b Hb) as (_ & _ & _ & ? & ? & _). auto.
      - simpl. unfold run, retry_click, mbind, gets. simpl.
        destruct (first_active (buttons p)); [right|left; reflexivity].
        destruct (loadVisualizations_post (attr_string (btn_library b)) p) as [_ (_ & ? & ? & _)].
        auto. }
    + left. etransitivity; [exact Hq|apply Hd].
    + right; left. destruct (Hd m) as (_ & Hw' & Hl' & _). by rewrite Hw', Hl'.
  - destruct (find_request rid (requests p)) as [[L|]|] eqn:Hf; try done. invc Hs. eauto 7.
  - destruct (find_request rid (requests p)) as [[|i t]|]; try done. invc Hs. left.
    etransitivity; [apply quiet_drop_request|apply keeps_quiet_download_settled].
  - destruct (find_preload pid (preloads p)); [|done]. invc Hs. left.
    etransitivity; [apply quiet_drop_preload|apply keeps_quiet_preload].
  - destruct (find_preload pid (preloads p)); [|done]. invc Hs. left. apply quiet_drop_preload.
  - destruct (next_timer (timers p)); [|done]. invc Hs. left. apply keeps_quiet_timer_step.
  - invc Hs. left. apply quiet_set_clock.
  - destruct (fullscreen p); [|done]. invc Hs. left. apply quiet_set_fullscreen.
Qed.

(** A settled response leaves the welcome message hidden and the loading
    indicator off. *)
Lemma settle_view B p rid L r :
  page_inv p -> find_request rid (requests p) = Some (RqVisualizations L) ->
  let p' := run (handle_response B r) (drop_request rid p) in
  welcome_shown p' = false /\ loading_shown p' = false /\
  vis_requests p' = filter (fun r => is_vis r = true) (filter (fun r => fst r <> rid) (requests p)).
Proof.
  intros (_ & _ & _ & H4) Hf.
  destruct (handle_response_settles B r (drop_request rid p))
    as (Hl & _ & (_ & _ & _ & _ & _ & _ & Hw' & _ & Hr & _)).
  unfold vis_requests. rewrite Hr, Hw'. simpl. split; [|done].
  destruct (welcome_shown p) eqn:Hw; [|done].
  exfalso. apply (find_request_vis _ _ _ Hf), H4. done.
Qed.

(** At most one request in flight, and the loading indicator shown
    while it is. *)
Definition one_flight (p : page) : Prop := flight_inv p /\ length (vis_requests p) <= 1.

Lemma idle_one_flight p : vis_requests p = [] -> one_flight p.
Proof. intros H. split; [by intros ?|]. rewrite H. simpl. lia. Qed.

Lemma quiet_one_flight p p' : quiet p p' -> one_flight p -> one_flight p'.
Proof.
  intros Hq [Hf Hn]. split; [by apply (quiet_flight_inv p)|].
  destruct Hq as (_ & _ & _ & _ & Hv & _). lia.
Qed.

Lemma restore_library_one_flight B p :
  vis_requests p = [] -> one_flight (snd (restore_library B p)).
Proof.
  intros H. unfold restore_library, mbind at 1, gets. simpl.
  destruct (saved_library (store p)) as [last|]; [|by apply idle_one_flight].
  unfold mbind at 1 2, lift. simpl.
  destruct (attr_query B last (map btn_library (buttons p))) as [[i|]|e];
    cbn -[loadVisualizations one_flight]; try by apply idle_one_flight.
  destruct (loadVisualizations_post last (set_buttons (activate_only i (buttons p)) p))
    as [_ (_ & _ & Hl & _ & Hr & _)].
  unfold run in Hl, Hr. split; [by intros _|].
  unfold vis_requests. rewrite Hr, filter_app. simpl. fold (vis_requests p). rewrite H. simpl. lia.
Qed.

Lemma init_one_flight B bs st : one_flight (run (init B) (html_page bs st)).
Proof.
  unfold run, init, mbind at 1. set (p0 := html_page bs st).
  pose proof (keeps_quiet_restore_theme p0) as Hq. unfold run in Hq.
  destruct (restore_theme p0) as [[[]|e] p1]; simpl in Hq |- *.
  - assert (vis_requests p1 = []) as H1 by (by apply (quiet_vis_nil p0)).
    pose proof (restore_library_one_flight B p1 H1) as H2.
    unfold mbind. destruct (restore_library B p1) as [[[]|e] p2]; simpl in *; [|done].
    apply (quiet_one_flight p2); [apply keeps_quiet_inject_styles|done].
  - by apply idle_one_flight, (quiet_vis_nil p0).
Qed.

Lemma step_flight_inv B p p' :
  page_inv p -> one_flight p -> step B p p' -> flight_inv p'.
Proof.
  intros Hi [Hf Hn] Hs. destruct (step_cases B p p' Hs) as [Hq|[[_ Hl]|(rid & L & r & Hr & ->)]].
  - by apply (quiet_flight_inv p).
  - by intros _.
  - unfold flight_inv. destruct (settle_view B p rid L r Hi Hr) as (_ & _ & ->).
    intros E. exfalso. apply E. by apply (drop_request_only rid (requests p) L).
Qed.

Lemma reachable1_inv B `{!browser_ok B} p : reachable1 B p -> page_inv p /\ one_flight p.
Proof.
  induction 1 as [bs st H|p p' _ [IH1 IH2] Hs Hn].
  - split; [by apply init_page_inv|apply init_one_flight].
  - split; [by eapply step_page_inv|split; [by eapply step_flight_inv|done]].
Qed.

Lemma abs_view_loading p :
  welcome_shown p = false -> loading_shown p = true -> abs_view p = ALoading.
Proof. unfold abs_view. by intros -> ->. Qed.

Lemma astep_settled p :
  welcome_shown p = false -> loading_shown p = false -> astep ALoading (abs_view p).
Proof.
  unfold abs_view. intros -> ->. destruct (is_error_view (container p)); constructor.
Qed.

Lemma settle_pending p rid L :
  page_inv p -> flight_inv p -> find_request rid (requests p) = Some (RqVisualizations L) ->
  abs_view p = ALoading.
Proof.
  intros (_ & _ & _ & H4) Hf Hr. pose proof (find_request_vis _ _ _ Hr) as Hv.
  apply abs_view_loading; [|by apply Hf].
  destruct (welcome_shown p); [|done]. exfalso. by apply Hv, H4.
Qed.

(** ** Refinement of the view-state machine *)

(** C3: while at most one visualization request is in flight,
    every step of the dashboard is a transition of the view-state machine
    of the specification: a selection or retry enters Loading, the
    settled request takes Loading to Results or Error, and every other
    event leaves the visible state as it is. *)
Theorem view_refinement B `{!browser_ok B} p p' :
  reachable1 B p -> step B p p' -> astep (abs_view p) (abs_view p').
Proof.
  intros Hr Hs. destruct (reachable1_inv B p Hr) as [Hi [Hf _]].
  destruct (step_cases B p p' Hs) as [Hq|[[Hw Hl]|(rid & L & r & Hr' & ->)]].
  - rewrite (quiet_abs_view p p' Hq). constructor.
  - rewrite (abs_view_loading p' Hw Hl). constructor.
  - rewrite (settle_pending p rid L Hi Hf Hr').
    destruct (settle_view B p rid L r Hi Hr') as (Hw & Hl & _). by apply astep_settled.
Qed.

Lemma view_refinement_witness :
  let p := run (init ref_browser) (html_page two_buttons ∅) in
  let p' := run (dispatch ref_browser (TgLibrary 1)) p in
  reachable1 ref_browser p /\ step ref_browser p p' /\ astep (abs_view p) (abs_view p').
Proof.
  assert (H : reachable1 ref_browser (run (init ref_browser) (html_page two_buttons ∅)))
    by (apply r1_init; vm_compute; lia).
  assert (Hs : step ref_browser (run (init ref_browser) (html_page two_buttons ∅))
                 (run (dispatch ref_browser (TgLibrary 1)) (run (init ref_browser) (html_page two_buttons ∅))))
    by (exists (EvClick (TgLibrary 1)); reflexivity).
  split; [exact H|split; [exact Hs|]]. apply (view_refinement ref_browser); [exact H|exact Hs].
Defined.

(** C12: with two requests in flight the dashboard leaves the
    view-state machine: after the stale "seaborn" results are shown, a
    network failure of the pending "pandas" request turns Results into
    Error, which no transition allows. *)
Theorem race_leaves_view_machine :
  exists p p', reachable ref_browser p /\ step ref_browser p p' /\
    abs_view p = AResults /\ abs_view p' = AError /\ ~ astep (abs_view p) (abs_view p').
Proof.
  exists race_page, (run (handle_response ref_browser VisNetworkError) (drop_request 1 race_page)).
  split; [apply race_page_reachable|].
  split.
  { exists (EvVisSettled 1 VisNetworkError). cbn [step_fn].
    assert (find_request 1 (requests race_page) = Some (RqVisualizations "pandas")) as ->
      by (vm_compute; reflexivity).
    reflexivity. }
  assert (abs_view race_page = AResults) as -> by (vm_compute; reflexivity).
  assert (abs_view (run (handle_response ref_browser VisNetworkError) (drop_request 1 race_page))
          = AError) as -> by (vm_compute; reflexivity).
  split; [done|split; [done|]]. inversion 1.
Qed.
