(* ===== verification/EventLoop.v ===== *)
(** * The timer queue under the event loop: liveness and termination

    The callbacks the controller registers with [setTimeout] (the card
    reveals, lines 272-275; the modal fade-in, 382-385; the toast's
    slide-in, hiding and removal, 415-425) run when the host's event
    loop reaches them, one [EvTimer] event each ([Dashboard.step_fn]).
    This file shows what the queue does when the loop runs it:
    - a toast is shown, hidden and removed from the body 3300 ms after
      [showNotification], by exactly three timer events
      ([toast_lifecycle]);
    - the queue always drains: each timer event lowers a weight of the
      queue ([queue_weight]: 2 for a toast's hiding, which registers the
      removal, 1 for every other callback), so [drain], the loop that
      runs timer events until none is pending, is defined by
      well-founded recursion on it; it leaves an empty queue and takes
      at most [queue_weight] events;
    - every card [displayVisualizations] renders is revealed by its
      reveal timer, one event per card ([images_revealed]). *)

From S2P Require Import Prelude JsValue Text Storage Page Render Library Theme Timers Notify Download Modal Dashboard.
From Equations Require Import Equations.

(** ** The toast callbacks as timer events *)

Lemma step_toast_show B q t id :
  next_timer (timers q) = Some t -> tm_action t = TToastShow id ->
  exists q', step_fn B EvTimer q = Some q' /\
    overlays q' = map (set_toast_shown id true) (overlays q) /\
    timers q' = remove_timer (tm_seq t) (timers q) /\ clock q' = Nat.max (clock q) (tm_due t).
Proof. intros Hn Ha. eexists. split; [apply step_timer, Hn|]. by rewrite Ha. Qed.

Lemma step_toast_hide B q t id :
  next_timer (timers q) = Some t -> tm_action t = TToastHide id ->
  exists q', step_fn B EvTimer q = Some q' /\
    overlays q' = map (set_toast_shown id false) (overlays q) /\
    timers q' = remove_timer (tm_seq t) (timers q) ++
                [mk_timer (Nat.max (clock q) (tm_due t) + 300) (next_id q) (TToastRemove id)] /\
    clock q' = Nat.max (clock q) (tm_due t).
Proof. intros Hn Ha. eexists. split; [apply step_timer, Hn|]. by rewrite Ha. Qed.

Lemma step_toast_remove B q t id :
  next_timer (timers q) = Some t -> tm_action t = TToastRemove id ->
  existsb (fun o => overlay_id o =? id) (overlays q) = true ->
  exists q', step_fn B EvTimer q = Some q' /\
    overlays q' = filter (fun o => overlay_id o <> id) (overlays q) /\
    timers q' = remove_timer (tm_seq t) (timers q) /\ clock q' = Nat.max (clock q) (tm_due t).
Proof.
  intros Hn Ha He. eexists. split; [apply step_timer, Hn|]. rewrite Ha. cbn [run_timer_action].
  rewrite run_toast_remove by exact He. done.
Qed.

(** The three events of one toast, from the page [showNotification]
    leaves when no other callback is pending. *)
Lemma toast_timers_run B q id ty ic msg os c :
  Forall (fun o => overlay_id o <> id) os ->
  overlays q = os ++ [OToast id ty ic msg false] ->
  timers q = [mk_timer (c + 10) (S id) (TToastShow id); mk_timer (c + 3000) (S (S id)) (TToastHide id)] ->
  clock q = c ->
  exists p2 p3 p4,
    step_fn B EvTimer q = Some p2 /\ step_fn B EvTimer p2 = Some p3 /\
    step_fn B EvTimer p3 = Some p4 /\
    overlays p2 = os ++ [OToast id ty ic msg true] /\
    overlays p3 = os ++ [OToast id ty ic msg false] /\
    overlays p4 = os /\ timers p4 = [] /\ clock p4 = c + 3300.
Proof.
  intros Hos Ho Ht Hc.
  destruct (step_toast_show B q (mk_timer (c + 10) (S id) (TToastShow id)) id)
    as (p2 & S2 & O2 & T2 & C2); [rewrite Ht; simpl; by rewrite timer_before_due by (simpl; lia)|done|].
  rewrite Ht, (remove_timer_hit (S id)) in T2 by (repeat constructor; simpl; lia).
  rewrite Ho, set_toast_shown_last in O2 by done. rewrite Hc in C2.
  destruct (step_toast_hide B p2 (mk_timer (c + 3000) (S (S id)) (TToastHide id)) id)
    as (p3 & S3 & O3 & T3 & C3); [by rewrite T2|done|].
  rewrite T2, (remove_timer_hit (S (S id))), app_nil_l in T3 by (repeat constructor).
  rewrite O2, set_toast_shown_last in O3 by done. rewrite C2 in C3, T3.
  destruct (step_toast_remove B p3
              (mk_timer (Nat.max (Nat.max c (c + 10)) (c + 3000) + 300) (next_id p2) (TToastRemove id)) id)
    as (p4 & S4 & O4 & T4 & C4); [by rewrite T3|done|rewrite O3; by apply existsb_overlay_last|].
  rewrite T3, remove_timer_hit in T4 by (repeat constructor).
  rewrite O3, remove_overlay_last in O4 by done. rewrite C3 in C4.
  exists p2, p3, p4. split_and!; try done. rewrite C4. cbn [tm_due]. lia.
Qed.

(** C25: no toast outlives its scheduled removal: on a page with no
    other pending callback, the three timer events after
    [showNotification] slide the toast in, hide it, and remove it from
    the body, 3300 ms after the call, leaving the other overlays and an
    empty queue. *)
Theorem toast_lifecycle B p msg ty :
  timers p = [] -> Forall (fun o => overlay_id o <> next_id p) (overlays p) ->
  let id := next_id p in
  let p1 := run (showNotification msg ty) p in
  exists p2 p3 p4,
    step_fn B EvTimer p1 = Some p2 /\ step_fn B EvTimer p2 = Some p3 /\
    step_fn B EvTimer p3 = Some p4 /\
    overlays p2 = overlays p ++ [OToast id ty (notification_icon ty) msg true] /\
    overlays p3 = overlays p ++ [OToast id ty (notification_icon ty) msg false] /\
    overlays p4 = overlays p /\ timers p4 = [] /\ clock p4 = clock p + 3300.
Proof.
  intros Ht Hos. cbv zeta.
  destruct (showNotification_fields msg ty p) as (Ho1 & Ht1 & Hc1 & _). cbv zeta in Ho1, Ht1, Hc1.
  rewrite Ht, app_nil_l in Ht1. by apply toast_timers_run.
Qed.

Lemma toast_lifecycle_witness :
  let p := html_page [] ∅ in
  timers p = [] /\ Forall (fun o => overlay_id o <> next_id p) (overlays p) /\
  exists p2 p3 p4,
    step_fn ref_browser EvTimer (run (showNotification "Saved" "success") p) = Some p2 /\
    step_fn ref_browser EvTimer p2 = Some p3 /\ step_fn ref_browser EvTimer p3 = Some p4 /\
    overlays p2 = overlays p ++ [OToast 0 "success" (notification_icon "success") "Saved" true] /\
    overlays p3 = overlays p ++ [OToast 0 "success" (notification_icon "success") "Saved" false] /\
    overlays p4 = overlays p /\ timers p4 = [] /\ clock p4 = clock p + 3300.
Proof.
  split; [reflexivity|split; [constructor|]].
  apply (toast_lifecycle ref_browser (html_page [] ∅)); [reflexivity|constructor].
Defined.

(** ** The queue drains *)

(** The weight of a callback: the events it and the callbacks it
    registers still need.  Only a toast's hiding registers another
    callback, its removal. *)
Definition action_weight (a : timer_action) : nat :=
  match a with TToastHide _ => 2 | _ => 1 end.

Definition queue_weight (ts : list timer) : nat :=
  sum_list_with (fun t => action_weight (tm_action t)) ts.

Lemma queue_weight_app ts1 ts2 : queue_weight (ts1 ++ ts2) = queue_weight ts1 + queue_weight ts2.
Proof. apply sum_list_with_app. Qed.

(** What a callback adds to the queue weighs less than the callback. *)
Lemma run_timer_action_timers a q :
  exists added, timers (run (run_timer_action a) q) = timers q ++ added /\
                queue_weight added < action_weight a.
Proof.
  destruct a as [c|m|t|t|t]; cbn [run_timer_action action_weight].
  - exists []. rewrite app_nil_r. split; [reflexivity|simpl; lia].
  - exists []. rewrite app_nil_r. split; [reflexivity|simpl; lia].
  - exists []. rewrite app_nil_r, run_toast_show_timers. split; [reflexivity|simpl; lia].
  - eexists. rewrite run_toast_hide_timers. split; [reflexivity|simpl; lia].
  - exists []. rewrite app_nil_r, run_toast_remove_timers. split; [reflexivity|simpl; lia].
Qed.

Lemma remove_timer_weight t ts :
  In t ts -> queue_weight (remove_timer (tm_seq t) ts) + action_weight (tm_action t) <= queue_weight ts.
Proof.
  unfold remove_timer, queue_weight. induction ts as [|u ts IH]; [done|]. intros Hin.
  rewrite filter_cons. simpl. case_decide as Hu; simpl.
  - destruct Hin as [->|Hin]; [done|]. specialize (IH Hin). lia.
  - destruct Hin as [->|Hin].
    + pose proof (sum_list_with_filter_le (fun v => tm_seq v <> tm_seq t)
                    (fun v => action_weight (tm_action v)) ts). lia.
    + specialize (IH Hin). lia.
Qed.

(** Each timer event lowers the weight of the queue. *)
Lemma timer_event_weight B p p' :
  step_fn B EvTimer p = Some p' -> queue_weight (timers p') < queue_weight (timers p).
Proof.
  intros H. destruct (next_timer (timers p)) as [t|] eqn:Hn;
    [|by cbn [step_fn] in H; rewrite Hn in H].
  rewrite (step_timer B p t Hn) in H. injection H as <-.
  destruct (run_timer_action_timers (tm_action t)
              (set_clock (Nat.max (clock p) (tm_due t)) (set_timers (remove_timer (tm_seq t) (timers p)) p)))
    as (added & -> & Ha).
  cbn [timers set_clock set_timers]. rewrite queue_weight_app.
  pose proof (remove_timer_weight t (timers p) (proj1 (next_timer_earliest _ _ Hn))). lia.
Qed.

(** [inspect a]: [a] paired with the equation that names it, so that a
    [with] clause keeps the fact it branches on. *)
Definition inspect {A} (a : A) : {b | a = b} := exist _ a eq_refl.

(** The event loop running timer events until none is pending. *)
Equations? drain (B : browser) (p : page) : page by wf (queue_weight (timers p)) lt :=
  drain B p with inspect (step_fn B EvTimer p) => {
    | exist _ (Some p') H => drain B p';
    | exist _ None _ => p }.
Proof. by apply (timer_event_weight B p p'). Qed.

(** [timer_steps B n p p']: [n] timer events lead from [p] to [p']. *)
Inductive timer_steps (B : browser) : nat -> page -> page -> Prop :=
| ts_refl p : timer_steps B 0 p p
| ts_step n p p' p'' :
    step_fn B EvTimer p = Some p' -> timer_steps B n p' p'' -> timer_steps B (S n) p p''.

(** Take one timer event on a concrete page, computing the next page. *)
Ltac timer_step_vm :=
  match goal with
  | |- timer_steps ?B (S _) ?q _ =>
      let r := eval vm_compute in (step_fn B EvTimer q) in
      match r with
      | Some ?q' => apply (ts_step B _ q q'); [vm_compute; reflexivity|]
      end
  end.

Lemma timer_steps_reachable B p n p' : reachable B p -> timer_steps B n p p' -> reachable B p'.
Proof.
  intros Hr Hs. induction Hs as [|n q q' q'' H _ IH]; [done|].
  apply IH. by apply (reach_event B q EvTimer q').
Qed.

Lemma no_timer_event B p : step_fn B EvTimer p = None -> timers p = [].
Proof. cbn [step_fn]. by destruct (timers p). Qed.

(** C26: the event loop drains the queue: [drain] (total, by
    well-founded recursion on the queue's weight) reaches, by timer
    events only, a page on which no callback is pending. *)
Theorem drain_empty B p :
  timers (drain B p) = [] /\ exists n, timer_steps B n p (drain B p).
Proof.
  funelim (drain B p).
  - match goal with IH : _ /\ _ |- _ => destruct IH as [He [n Hn]] end.
    split; [done|]. exists (S n). econstructor; [eassumption|done].
  - split; [by apply (no_timer_event B)|]. exists 0. constructor.
Qed.

(** C27: no chain of timer events is longer than the queue's weight:
    [n] timer events from [p] lower the weight by at least [n], so the
    loop runs at most twice as many callbacks as are pending. *)
Theorem timer_steps_bound B n p p' :
  timer_steps B n p p' -> n + queue_weight (timers p') <= queue_weight (timers p).
Proof.
  induction 1 as [p|n p p' p'' Hs _ IH]; [lia|].
  pose proof (timer_event_weight B p p' Hs). lia.
Qed.

Lemma timer_steps_bound_witness :
  let p1 := run (showNotification "Saved" "success") (html_page [] ∅) in
  exists p', timer_steps ref_browser 3 p1 p' /\ 3 + queue_weight (timers p') <= queue_weight (timers p1).
Proof.
  cbv zeta. assert (H : exists p', timer_steps ref_browser 3
    (run (showNotification "Saved" "success") (html_page [] ∅)) p').
  { eexists. do 3 timer_step_vm. apply ts_refl. }
  destruct H as [p' H]. exists p'. split; [exact H|]. apply (timer_steps_bound ref_browser 3 _ _ H).
Defined.

(** ** Every card is revealed *)

(** The cards of [cs] whose id is in [ids], revealed. *)
Definition reveal_ids (ids : list nat) (cs : list card) : list card :=
  map (fun c => if bool_decide (card_id c ∈ ids) then set_revealed c else c) cs.

Lemma reveal_ids_cons cid ids cs :
  reveal_ids ids (map (fun c => if decide (card_id c = cid) then set_revealed c else c) cs) =
  reveal_ids (cid :: ids) cs.
Proof.
  unfold reveal_ids. rewrite map_map. apply map_ext. intros c.
  destruct (decide (card_id c = cid)) as [<-|Hne].
  - rewrite (bool_decide_true (card_id c ∈ card_id c :: ids)) by set_solver.
    case_bool_decide; destruct c; reflexivity.
  - rewrite (bool_decide_ext (card_id c ∈ cid :: ids) (card_id c ∈ ids)); [reflexivity|].
    rewrite elem_of_cons. intuition congruence.
Qed.

Lemma reveal_ids_all cs : reveal_ids (map card_id cs) cs = map set_revealed cs.
Proof.
  unfold reveal_ids. apply map_ext_in. intros c Hc.
  rewrite bool_decide_true; [done|]. apply list_elem_of_In, in_map, Hc.
Qed.

Lemma step_reveal B q t cid :
  next_timer (timers q) = Some t -> tm_action t = TReveal cid ->
  exists q', step_fn B EvTimer q = Some q' /\
    container q' = update_card cid set_revealed (container q) /\
    timers q' = remove_timer (tm_seq t) (timers q).
Proof. intros Hn Ha. eexists. split; [apply step_timer, Hn|]. by rewrite Ha. Qed.

(** The reveal timers are due in order: the first runs first. *)
Lemma next_timer_reveal t n i c cs :
  next_timer (reveal_timers t n i (c :: cs)) = Some (mk_timer (t + 100 * i) n (TReveal (card_id c))).
Proof.
  cbn [reveal_timers next_timer]. f_equal.
  enough (H : forall k j, n < k -> i < j ->
    earliest (mk_timer (t + 100 * i) n (TReveal (card_id c))) (reveal_timers t k j cs) =
    mk_timer (t + 100 * i) n (TReveal (card_id c))) by (apply H; lia).
  induction cs as [|c' cs IH]; intros k j Hk Hj; [done|]. cbn [reveal_timers earliest].
  rewrite timer_before_due by (simpl; lia). apply IH; lia.
Qed.

Lemma reveal_timers_seqs t n i cs k :
  k < n -> Forall (fun u => tm_seq u <> k) (reveal_timers t n i cs).
Proof.
  revert n i. induction cs as [|c cs IH]; intros n i Hk; constructor; [simpl; lia|apply IH; lia].
Qed.

(** The pending reveal timers run one event each and reveal their
    cards. *)
Lemma reveal_run B q h cs pend t n i :
  container q = VResults h cs -> timers q = reveal_timers t n i pend ->
  exists q', timer_steps B (length pend) q q' /\ timers q' = [] /\
    container q' = VResults h (reveal_ids (map card_id pend) cs).
Proof.
  revert q cs n i. induction pend as [|c pend IH]; intros q cs n i Hc Ht.
  - exists q. split_and!; [constructor|done|]. rewrite Hc. unfold reveal_ids. f_equal.
    rewrite <- (map_id cs) at 1. apply map_ext. intros c. by rewrite bool_decide_false by set_solver.
  - destruct (step_reveal B q (mk_timer (t + 100 * i) n (TReveal (card_id c))) (card_id c))
      as (q1 & S1 & C1 & T1); [rewrite Ht; apply next_timer_reveal|done|].
    rewrite Ht in T1. cbn [reveal_timers tm_seq] in T1.
    rewrite remove_timer_hit in T1 by (done || apply reveal_timers_seqs; lia).
    rewrite Hc in C1. cbn [update_card] in C1.
    destruct (IH q1 _ (S n) (S i) C1 T1) as (q' & Hs & Ht' & Hc').
    exists q'. split_and!; [econstructor; eassumption|done|].
    rewrite Hc', reveal_ids_cons. done.
Qed.

(** C31: every chart card becomes visible: after [displayVisualizations]
    renders a non-Plotly payload on a page with no pending callback, as
    many timer events as there are cards reveal every card (the
    [opacity: 1] of line 273) and leave the queue empty. *)
Theorem images_revealed B fs s xs p :
  field_last "library" fs = Some (JStr s) -> s <> "plotly"%string ->
  field_last "visualizations" fs = Some (JArr xs) -> forallb readable xs = true ->
  timers p = [] ->
  exists p' p'', displayVisualizations B (JObj fs) p = (Ret tt, p') /\
    timer_steps B (length xs) p' p'' /\ timers p'' = [] /\
    container p'' = VResults (capitalize s) (map set_revealed (image_cards B (clock p) (next_id p) xs)) /\
    Forall (fun c => card_revealed c = true) (view_cards (container p'')).
Proof.
  intros Hlib Hs Hviz Hxs Ht.
  destruct (display_images_post B fs s xs p Hlib Hs Hviz Hxs) as (p' & Hd & Hc & Ht' & _).
  rewrite Ht, app_nil_l in Ht'.
  destruct (reveal_run B p' _ _ _ _ _ _ Hc Ht') as (p'' & Hst & Hte & Hce).
  exists p', p''. split_and!; [done| |done| |].
  - by rewrite length_image_cards in Hst.
  - by rewrite Hce, reveal_ids_all.
  - rewrite Hce, reveal_ids_all. cbn [view_cards].
    apply Forall_map, Forall_forall. intros c _. reflexivity.
Qed.

Lemma images_revealed_witness :
  let xs := [JObj [("title", JStr "Pair plot"); ("image", JStr "iVBOR")];
             JObj [("title", JStr "Heat map"); ("image", JStr "R0lGO")]] in
  let fs := [("library", JStr "seaborn"); ("visualizations", JArr xs)] in
  let p := html_page [] ∅ in
  timers p = [] /\
  exists p' p'', displayVisualizations ref_browser (JObj fs) p = (Ret tt, p') /\
    timer_steps ref_browser (length xs) p' p'' /\ timers p'' = [] /\
    container p'' = VResults (capitalize "seaborn") (map set_revealed (image_cards ref_browser (clock p) (next_id p) xs)) /\
    Forall (fun c => card_revealed c = true) (view_cards (container p'')).
Proof.
  split; [reflexivity|].
  apply images_revealed; [reflexivity|discriminate|reflexivity|reflexivity|reflexivity].
Defined.
