(* ===== verification/Overlays.v ===== *)
(** * The elements appended to the body: well-formed ids

    [showNotification] (line 389) and [showChartInfo] (line 339) create
    an element and append it to [body]; the toast callbacks and the
    modal's listeners later find it again ([removeChild], lines 371,
    377, 423) through the JavaScript reference the closure holds.  The
    model names each element by the id [fresh] gave it ([Page.fresh]),
    so the model is faithful as long as no two elements share an id.
    [ids_ok] states it: the ids of the overlays are distinct and below
    the counter.  Every handler keeps it ([id_pres]), so it holds on
    every reachable page, and the properties of one toast or one modal
    hold there without a freshness hypothesis. *)

From S2P Require Import Prelude JsValue Text Storage Page Render Library Theme Timers Notify Download Modal Dashboard EventLoop.

Definition overlay_ids (os : list overlay) : list nat := map overlay_id os.

Definition ids_ok (p : page) : Prop :=
  Forall (fun i => i < next_id p) (overlay_ids (overlays p)) /\ NoDup (overlay_ids (overlays p)).

(** [id_pres p p']: the counter only grows, and well-formed ids stay
    well-formed. *)
Definition id_pres (p p' : page) : Prop := next_id p <= next_id p' /\ (ids_ok p -> ids_ok p').

#[export] Instance id_pres_preorder : PreOrder id_pres.
Proof.
  split; unfold id_pres.
  - intros p. split; [lia|auto].
  - intros p1 p2 p3 [H1 H1'] [H2 H2']. split; [lia|auto].
Qed.

(** A write of any field but the overlays and the counter: both sides
    are convertible. *)
#[export] Hint Extern 1 (id_pres _ _) =>
  (split; [exact (le_n _)|let H := fresh in intros H; exact H]) : dash.

Lemma ids_ok_grow p p' :
  overlays p' = overlays p -> next_id p <= next_id p' -> ids_ok p -> ids_ok p'.
Proof.
  intros Ho Hn [Hf Hd]. unfold ids_ok. rewrite Ho. split; [|done].
  eapply Forall_impl; [exact Hf|]. simpl. lia.
Qed.

Lemma keeps_ids_fresh : keeps id_pres fresh.
Proof. intros p. split; [simpl; lia|]. apply ids_ok_grow; simpl; [done|lia]. Qed.

(** Appending an element whose id is the counter at the time, with the
    counter moved past it. *)
Lemma ids_ok_append p p' o :
  overlays p' = overlays p ++ [o] -> overlay_id o = next_id p -> next_id p < next_id p' ->
  ids_ok p -> ids_ok p'.
Proof.
  unfold ids_ok, overlay_ids. intros Ho Hid Hn [Hf Hd]. rewrite Ho, map_app. simpl.
  split.
  - apply Forall_app. split; [eapply Forall_impl; [exact Hf|]; simpl; lia|].
    constructor; [lia|constructor].
  - apply NoDup_app. split_and!; [done| |apply NoDup_singleton].
    intros i Hi Hin. apply list_elem_of_singleton in Hin as ->.
    rewrite Forall_forall in Hf. specialize (Hf _ Hi). lia.
Qed.

(** The overlay maps of the callbacks keep every id. *)
Lemma overlay_ids_set_toast_shown id b os :
  overlay_ids (map (set_toast_shown id b) os) = overlay_ids os.
Proof.
  unfold overlay_ids. induction os as [|o os IH]; [done|]. simpl. rewrite IH. f_equal.
  destruct o; simpl; try case_match; done.
Qed.

Lemma overlay_ids_set_modal_opened id os :
  overlay_ids (map (set_modal_opened id) os) = overlay_ids os.
Proof.
  unfold overlay_ids. induction os as [|o os IH]; [done|]. simpl. rewrite IH. f_equal.
  destruct o; simpl; try case_match; done.
Qed.

Lemma overlay_ids_remove id os :
  overlay_ids (filter (fun o => overlay_id o <> id) os) = filter (fun i => i <> id) (overlay_ids os).
Proof.
  unfold overlay_ids. induction os as [|o os IH]; [done|]. cbn [map]. rewrite !filter_cons.
  case_decide; simpl; by rewrite IH.
Qed.

Lemma ids_ok_ids p p' :
  overlay_ids (overlays p') = overlay_ids (overlays p) -> next_id p' = next_id p -> ids_ok p -> ids_ok p'.
Proof. unfold ids_ok. intros -> ->. done. Qed.

Lemma keeps_ids_toast_show id : keeps id_pres (toast_show id).
Proof.
  intros p. split; [done|]. apply ids_ok_ids; [apply overlay_ids_set_toast_shown|done].
Qed.

Lemma id_pres_set_toast_shown id b p :
  id_pres p (set_overlays (map (set_toast_shown id b) (overlays p)) p).
Proof. split; [done|]. apply ids_ok_ids; [apply overlay_ids_set_toast_shown|done]. Qed.

Lemma id_pres_set_modal_opened id p :
  id_pres p (set_overlays (map (set_modal_opened id) (overlays p)) p).
Proof. split; [done|]. apply ids_ok_ids; [apply overlay_ids_set_modal_opened|done]. Qed.

Lemma id_pres_remove id p :
  id_pres p (set_overlays (filter (fun o => overlay_id o <> id) (overlays p)) p).
Proof.
  split; [done|]. intros [Hf Hd]. unfold ids_ok. cbn [overlays next_id set_overlays].
  rewrite overlay_ids_remove. split; [by apply Forall_filter_keep|by apply NoDup_filter].
Qed.

#[export] Hint Resolve keeps_ids_fresh id_pres_set_toast_shown id_pres_set_modal_opened
  id_pres_remove : dash.

Lemma keeps_ids_set_timeout d a : keeps id_pres (set_timeout d a).
Proof. unfold set_timeout. solve_keeps. Qed.

Lemma keeps_ids_send r : keeps id_pres (send r).
Proof. unfold send. solve_keeps. Qed.

Lemma keeps_ids_remove_overlay id : keeps id_pres (remove_overlay id).
Proof. unfold remove_overlay. solve_keeps. Qed.

Lemma keeps_ids_showNotification m t : keeps id_pres (showNotification m t).
Proof.
  intros p. destruct (showNotification_fields m t p) as (Ho & _ & _ & Hn). cbv zeta in Ho, Hn.
  split; [rewrite Hn; lia|]. apply (ids_ok_append p _ _ Ho); [done|rewrite Hn; lia].
Qed.

Lemma keeps_ids_showChartInfo v : keeps id_pres (showChartInfo v).
Proof.
  intros p. destruct v; try reflexivity.
  split; [simpl; lia|]. apply (ids_ok_append p _ (OModal (next_id p) s (to_lower s) false));
    [reflexivity|reflexivity|simpl; lia].
Qed.

#[export] Hint Resolve keeps_ids_set_timeout keeps_ids_send keeps_ids_remove_overlay
  keeps_ids_showNotification keeps_ids_showChartInfo : dash.

Lemma keeps_ids_load L : keeps id_pres (loadVisualizations L).
Proof. unfold loadVisualizations, set_item. solve_keeps. Qed.

Lemma keeps_ids_display B data : keeps id_pres (displayVisualizations B data).
Proof.
  unfold displayVisualizations, render_plotly_card, render_image_card, schedule_reveals, append_card.
  solve_keeps.
Qed.

#[export] Hint Resolve keeps_ids_load keeps_ids_display : dash.

Lemma keeps_ids_response B r : keeps id_pres (handle_response B r).
Proof. unfold handle_response, on_data, on_failure, showErrorMessage. solve_keeps. Qed.

Lemma keeps_ids_target B t : keeps id_pres (target_handler B t).
Proof.
  destruct t; simpl;
    unfold menu_click, theme_click, set_item, info_toggle_click, close_panel_click, library_click,
      retry_click, toggleFullscreen, card_download_click, downloadImage, card_info_click,
      modal_close_click, modal_click;
    solve_keeps.
Qed.

Lemma keeps_ids_dispatch B t : keeps id_pres (dispatch B t).
Proof.
  unfold dispatch, listener, document_click. solve_keeps. apply keeps_ids_target.
Qed.

Lemma keeps_ids_init B : keeps id_pres (init B).
Proof. unfold init, restore_theme, restore_library, inject_styles. solve_keeps. Qed.

Lemma keeps_ids_preload pl : keeps id_pres (listener (preload_loaded pl)).
Proof. unfold listener, preload_loaded. solve_keeps. Qed.

Lemma keeps_ids_download t r : keeps id_pres (download_settled t r).
Proof. unfold download_settled, download_catch. solve_keeps. Qed.

Lemma keeps_ids_timer : keeps id_pres
  (let* a := fire in match a with Some a => listener (run_timer_action a) | None => mret tt end).
Proof.
  unfold fire, listener. solve_keeps.
  destruct t; simpl; unfold reveal_card, modal_open, toast_show, toast_hide, toast_remove; solve_keeps.
Qed.

Lemma step_ids B p p' : step B p p' -> id_pres p p'.
Proof.
  intros [ev Hs]. destruct ev as [t|rid r|rid r|pid|pid| |d|]; cbn [step_fn] in Hs.
  - destruct (enabled t p); [|done]. invc Hs. apply keeps_ids_dispatch.
  - destruct (find_request rid (requests p)) as [[L|]|]; try done. invc Hs.
    etransitivity; [|apply keeps_ids_response]. auto with dash.
  - destruct (find_request rid (requests p)) as [[|i t]|]; try done. invc Hs.
    etransitivity; [|apply keeps_ids_download]. auto with dash.
  - destruct (find_preload pid (preloads p)); [|done]. invc Hs.
    etransitivity; [|apply keeps_ids_preload]. auto with dash.
  - destruct (find_preload pid (preloads p)); [|done]. invc Hs. auto with dash.
  - destruct (next_timer (timers p)); [|done]. invc Hs. apply keeps_ids_timer.
  - invc Hs. auto with dash.
  - destruct (fullscreen p); [|done]. invc Hs. auto with dash.
Qed.

Lemma reachable_ids_ok B p : reachable B p -> ids_ok p.
Proof.
  induction 1 as [bs st _|p p' _ IH Hs].
  - apply keeps_ids_init. split; constructor.
  - by apply (step_ids B p p').
Qed.

(** A page with well-formed ids has no element with the next id. *)
Lemma ids_ok_fresh p : ids_ok p -> Forall (fun o => overlay_id o <> next_id p) (overlays p).
Proof.
  intros [Hf _]. unfold overlay_ids in Hf. apply Forall_fmap in Hf.
  eapply Forall_impl; [exact Hf|]. simpl. lia.
Qed.

Lemma document_click_overlays a b q : overlays (run (document_click a b) q) = overlays q.
Proof. unfold run, document_click, mbind, gets. simpl. by case_match. Qed.

(** A trace that appends a toast: select "seaborn", receive one chart,
    download it. *)
Definition sample_payload : vis_response :=
  VisHttp 200 (Some (JObj [("library", JStr "seaborn");
    ("visualizations", JArr [JObj [("title", JStr "Pair plot"); ("image", JStr "iVBOR")]])])).

Definition sample_toast_page : page :=
  let p0 := run (init ref_browser) (html_page two_buttons ∅) in
  let p1 := run (dispatch ref_browser (TgLibrary 0)) p0 in
  let p2 := run (handle_response ref_browser sample_payload) (drop_request 0 p1) in
  let p3 := run (dispatch ref_browser (TgCardDownload 1)) p2 in
  run (download_settled "Pair plot" (DlHttp 200 true)) (drop_request 3 p3).

Lemma sample_toast_page_reachable : reachable ref_browser sample_toast_page.
Proof.
  unfold sample_toast_page. cbv zeta.
  set (p0 := run (init ref_browser) (html_page two_buttons ∅)).
  set (p1 := run (dispatch ref_browser (TgLibrary 0)) p0).
  set (p2 := run (handle_response ref_browser sample_payload) (drop_request 0 p1)).
  set (p3 := run (dispatch ref_browser (TgCardDownload 1)) p2).
  apply (reach_event _ p3 (EvDlSettled 3 (DlHttp 200 true))); [|vm_compute; reflexivity].
  apply (reach_event _ p2 (EvClick (TgCardDownload 1))); [|vm_compute; reflexivity].
  apply (reach_event _ p1 (EvVisSettled 0 sample_payload)); [|vm_compute; reflexivity].
  apply (reach_event _ p0 (EvClick (TgLibrary 0))); [|vm_compute; reflexivity].
  apply reach_init. vm_compute. lia.
Qed.

Lemma remove_overlay_present id q :
  existsb (fun o => overlay_id o =? id) (overlays q) = true ->
  remove_overlay id q = (Ret tt, set_overlays (filter (fun o => overlay_id o <> id) (overlays q)) q).
Proof. intros H. unfold remove_overlay, mbind, gets. cbn [fst snd]. by rewrite H. Qed.

Lemma run_remove_overlay_last id q os o :
  Forall (fun o => overlay_id o <> id) os -> overlay_id o = id -> overlays q = os ++ [o] ->
  overlays (run (remove_overlay id) q) = os.
Proof.
  intros Hos Ho Hq. unfold run. rewrite remove_overlay_present by (rewrite Hq; by apply existsb_overlay_last).
  cbn. rewrite Hq. by apply remove_overlay_last.
Qed.

(** C30: on every reachable page, opening the info modal of a chart
    titled [t] and then clicking its close button, or the modal's
    background, gives back exactly the elements the body had; a click on
    the modal's content leaves the modal open.  The close button's
    listener removes the modal, and the modal's own listener, reached
    by bubbling, does nothing more. *)
Theorem chart_info_roundtrip B `{!browser_ok B} p t :
  reachable B p ->
  let m := next_id p in
  let p1 := run (showChartInfo (JStr t)) p in
  overlays (run (dispatch B (TgModalClose m)) p1) = overlays p /\
  overlays (run (dispatch B (TgModalBackground m)) p1) = overlays p /\
  overlays (run (dispatch B (TgModalContent m)) p1) = overlays p1.
Proof.
  intros Hr m p1. pose proof (ids_ok_fresh p (reachable_ids_ok B p Hr)) as Hos.
  assert (Ho : overlays p1 = overlays p ++ [OModal m t (to_lower t) false]) by reflexivity.
  rewrite !run_dispatch, !document_click_overlays. cbn [target_handler].
  unfold modal_close_click, modal_click. split_and!.
  - assert (He : existsb (fun o => overlay_id o =? m) (overlays p1) = true)
      by (rewrite Ho; by apply existsb_overlay_last).
    unfold run at 1. rewrite (run_mbind_ret _ _ _ tt _ (remove_overlay_present m p1 He)).
    cbn [snd fst modal_click mret overlays set_overlays]. rewrite Ho. by apply remove_overlay_last.
  - by apply (run_remove_overlay_last _ _ _ (OModal m t (to_lower t) false)).
  - reflexivity.
Qed.

Lemma chart_info_roundtrip_witness :
  let p := sample_toast_page in
  let m := next_id p in
  let p1 := run (showChartInfo (JStr "Pair plot")) p in
  reachable ref_browser p /\
  overlays (run (dispatch ref_browser (TgModalClose m)) p1) = overlays p /\
  overlays (run (dispatch ref_browser (TgModalBackground m)) p1) = overlays p /\
  overlays (run (dispatch ref_browser (TgModalContent m)) p1) = overlays p1.
Proof.
  split; [apply sample_toast_page_reachable|].
  apply (chart_info_roundtrip ref_browser). apply sample_toast_page_reachable.
Defined.
