(* ===== verification/Styles.v ===== *)
(** * What the page looks like: the style sheet on the controller's elements

    The controller animates by classes and inline styles only: a toast
    slides in when its [show] class is added (line 416) and out when it
    is removed (line 421); the info modal fades in when its callback sets
    [style.opacity] and the content's [style.transform] (lines 383-384);
    a card appears when the reveal callback sets its [opacity] and
    [transform] (lines 273-274).  The starting points of those
    animations, the positions and the icon colours come from the sheet
    of [Css], and only once [init] has appended it ([styles_in]).

    This file gives the elements the code builds ([toast_elem],
    [modal_elem], [card_elem], ...) with their ancestors, and computes
    their style with [Css.computed].  [toasts_ok] (every toast carries
    one of the four severities and its icon) and the presence of the
    sheet are kept by every handler after [init]. *)

From S2P Require Import Prelude JsValue Text Css Storage Page Render Library Theme Timers Notify Download Modal Dashboard EventLoop Overlays.

Local Open Scope string_scope.

(** ** The elements and their ancestors *)

(** The rules in force: the injected sheet once [init] appended it. *)
Definition the_sheet (p : page) : list rule := if styles_in p then style_rules else [].

Definition style_of (p : page) (path : list elem) (prop : string) : option string :=
  computed (the_sheet p) path prop.

Definition html_elem : elem := mk_elem "html" [] false [].

(** [body], with the [dark-theme] class of lines 21 and 38. *)
Definition body_elem (p : page) : elem :=
  mk_elem "body" (if dark_theme p then ["dark-theme"] else []) false [].

(** The toast's [div]: [className = `notification ${type}`] (line 390),
    with [show] once the callback of line 416 added it and until the one
    of line 421 removed it. *)
Definition toast_elem (kind : string) (shown : bool) : elem :=
  mk_elem "div" (words ("notification " +:+ kind) ++ (if shown then ["show"] else [])) false [].

(** The toast's icon, [<i class="${icon}">] (line 408). *)
Definition toast_icon_elem (icon : string) : elem := mk_elem "i" (words icon) false [].

(** [modal.className = 'modal'] (line 340); [modal.style.opacity = '1']
    (line 383). *)
Definition modal_elem (opened : bool) : elem :=
  mk_elem "div" ["modal"] false (if opened then [("opacity", "1")] else []).

(** The template's [.modal-content] (line 342), whose [style.transform]
    the callback sets (line 384). *)
Definition modal_content_elem (opened : bool) : elem :=
  mk_elem "div" ["modal-content"] false (if opened then [("transform", "translateY(0)")] else []).

(** [vizCard.className = 'visualization-card'] (lines 165, 224) and the
    reveal callback's inline style (lines 273-274). *)
Definition card_elem (c : card) : elem :=
  mk_elem "div" ["visualization-card"] false
    (if card_revealed c then [("opacity", "1"); ("transform", "translateY(0)")] else []).

(** [#visualization-container] of the template, which carries none of
    the sheet's classes. *)
Definition container_elem : elem := mk_elem "div" [] false [].

Definition toast_path (p : page) (kind : string) (shown : bool) : list elem :=
  [toast_elem kind shown; body_elem p; html_elem].

Definition toast_icon_path (p : page) (kind icon : string) (shown : bool) : list elem :=
  toast_icon_elem icon :: toast_path p kind shown.

Definition modal_path (p : page) (opened : bool) : list elem :=
  [modal_elem opened; body_elem p; html_elem].

Definition modal_content_path (p : page) (opened : bool) : list elem :=
  modal_content_elem opened :: modal_path p opened.

Definition card_path (p : page) (c : card) : list elem :=
  [card_elem c; container_elem; body_elem p; html_elem].

(** ** Well-formed toasts *)

(** The four severities of [showNotification]'s [type]. *)
Definition is_severity (t : string) : bool :=
  bool_decide (t ∈ ["info"; "success"; "warning"; "error"]).

(** A toast carries a severity and that severity's icon. *)
Definition overlay_ok (o : overlay) : Prop :=
  match o with
  | OToast _ k i _ _ => is_severity k = true /\ i = notification_icon k
  | OModal _ _ _ _ => True
  end.

Definition toasts_ok (p : page) : Prop := Forall overlay_ok (overlays p).

(** [ov_pres p p']: well-formed toasts stay well-formed; [sty_pres]
    also keeps the sheet in or out. *)
Definition ov_pres (p p' : page) : Prop := toasts_ok p -> toasts_ok p'.
Definition sty_pres (p p' : page) : Prop := styles_in p' = styles_in p /\ ov_pres p p'.

#[export] Instance ov_pres_preorder : PreOrder ov_pres.
Proof. split; unfold ov_pres; auto. Qed.

#[export] Instance sty_pres_preorder : PreOrder sty_pres.
Proof.
  split; unfold sty_pres, ov_pres.
  - intros p. split; auto.
  - intros p1 p2 p3 [H1 H1'] [H2 H2']. split; [congruence|auto].
Qed.

(** A write of any field but the overlays and the sheet. *)
#[export] Hint Extern 1 (ov_pres _ _) => (let H := fresh in intros H; exact H) : dash.
#[export] Hint Extern 1 (sty_pres _ _) =>
  (split; [reflexivity|let H := fresh in intros H; exact H]) : dash.

Lemma sty_pres_append o p : overlay_ok o -> sty_pres p (set_overlays (overlays p ++ [o]) p).
Proof. intros Ho. split; [done|]. intros Hp. apply Forall_app. split; [exact Hp|by constructor]. Qed.

Lemma overlay_ok_set_toast_shown id b o : overlay_ok o -> overlay_ok (set_toast_shown id b o).
Proof. destruct o; simpl; [done|]. by case_match. Qed.

Lemma overlay_ok_set_modal_opened id o : overlay_ok o -> overlay_ok (set_modal_opened id o).
Proof. destruct o; simpl; [|done]. by case_match. Qed.

Lemma sty_pres_set_toast_shown id b p :
  sty_pres p (set_overlays (map (set_toast_shown id b) (overlays p)) p).
Proof.
  split; [done|]. intros Hp. apply Forall_fmap. eapply Forall_impl; [exact Hp|].
  apply overlay_ok_set_toast_shown.
Qed.

Lemma sty_pres_set_modal_opened id p :
  sty_pres p (set_overlays (map (set_modal_opened id) (overlays p)) p).
Proof.
  split; [done|]. intros Hp. apply Forall_fmap. eapply Forall_impl; [exact Hp|].
  apply overlay_ok_set_modal_opened.
Qed.

Lemma sty_pres_remove id p :
  sty_pres p (set_overlays (filter (fun o => overlay_id o <> id) (overlays p)) p).
Proof. split; [done|]. intros Hp. by apply Forall_filter_keep. Qed.

#[export] Hint Resolve sty_pres_set_toast_shown sty_pres_set_modal_opened sty_pres_remove : dash.

Lemma keeps_sty_fresh : keeps sty_pres fresh.
Proof. intros p. auto with dash. Qed.

Lemma keeps_sty_set_timeout d a : keeps sty_pres (set_timeout d a).
Proof. unfold set_timeout. solve_keeps. apply keeps_sty_fresh. Qed.

#[export] Hint Resolve keeps_sty_fresh keeps_sty_set_timeout : dash.

Lemma keeps_sty_send r : keeps sty_pres (send r).
Proof. unfold send. solve_keeps. Qed.

Lemma keeps_sty_remove_overlay id : keeps sty_pres (remove_overlay id).
Proof. unfold remove_overlay. solve_keeps. Qed.

Lemma keeps_sty_showNotification m t : is_severity t = true -> keeps sty_pres (showNotification m t).
Proof.
  intros Ht. unfold showNotification, append_overlay. solve_keeps.
  apply sty_pres_append. by split.
Qed.

Lemma keeps_sty_showChartInfo v : keeps sty_pres (showChartInfo v).
Proof. unfold showChartInfo, append_overlay. solve_keeps. by apply sty_pres_append. Qed.

#[export] Hint Resolve keeps_sty_send keeps_sty_remove_overlay keeps_sty_showChartInfo : dash.
#[export] Hint Extern 2 (keeps sty_pres (showNotification _ _)) =>
  (apply keeps_sty_showNotification; reflexivity) : dash.

Lemma keeps_sty_load L : keeps sty_pres (loadVisualizations L).
Proof. unfold loadVisualizations, set_item. solve_keeps. Qed.

Lemma keeps_sty_display B data : keeps sty_pres (displayVisualizations B data).
Proof.
  unfold displayVisualizations, render_plotly_card, render_image_card, schedule_reveals, append_card.
  solve_keeps.
Qed.

#[export] Hint Resolve keeps_sty_load keeps_sty_display : dash.

Lemma keeps_sty_response B r : keeps sty_pres (handle_response B r).
Proof. unfold handle_response, on_data, on_failure, showErrorMessage. solve_keeps. Qed.

Lemma keeps_sty_target B t : keeps sty_pres (target_handler B t).
Proof.
  destruct t; simpl;
    unfold menu_click, theme_click, set_item, info_toggle_click, close_panel_click, library_click,
      retry_click, toggleFullscreen, card_download_click, downloadImage, card_info_click,
      modal_close_click, modal_click;
    solve_keeps.
Qed.

Lemma keeps_sty_dispatch B t : keeps sty_pres (dispatch B t).
Proof. unfold dispatch, listener, document_click. solve_keeps. apply keeps_sty_target. Qed.

Lemma keeps_sty_download t r : keeps sty_pres (download_settled t r).
Proof. unfold download_settled, download_catch. solve_keeps. Qed.

Lemma keeps_sty_timer : keeps sty_pres
  (let* a := fire in match a with Some a => listener (run_timer_action a) | None => mret tt end).
Proof.
  unfold fire, listener. solve_keeps.
  destruct t; simpl; unfold reveal_card, modal_open, toast_show, toast_hide, toast_remove; solve_keeps.
Qed.

(** Every event after [init] keeps the sheet in or out, and keeps the
    toasts well-formed. *)
Lemma step_sty B p p' : step B p p' -> sty_pres p p'.
Proof.
  intros [ev Hs]. destruct ev as [t|rid r|rid r|pid|pid| |d|]; cbn [step_fn] in Hs.
  - destruct (enabled t p); [|done]. invc Hs. apply keeps_sty_dispatch.
  - destruct (find_request rid (requests p)) as [[L|]|]; try done. invc Hs.
    etransitivity; [|apply keeps_sty_response]. auto with dash.
  - destruct (find_request rid (requests p)) as [[|i t]|]; try done. invc Hs.
    etransitivity; [|apply keeps_sty_download]. auto with dash.
  - destruct (find_preload pid (preloads p)); [|done]. invc Hs.
    etransitivity; [|apply (keeps_weaken _ _ _ (fun _ _ H => H))]; [auto with dash|].
    unfold listener, preload_loaded. solve_keeps.
  - destruct (find_preload pid (preloads p)); [|done]. invc Hs. auto with dash.
  - destruct (next_timer (timers p)); [|done]. invc Hs. apply keeps_sty_timer.
  - invc Hs. auto with dash.
  - destruct (fullscreen p); [|done]. invc Hs. auto with dash.
Qed.

Lemma keeps_ov_sty {A} (m : M A) : keeps sty_pres m -> keeps ov_pres m.
Proof. apply keeps_weaken. by intros ? ? []. Qed.

#[export] Hint Resolve keeps_ov_sty : dash.

Lemma keeps_ov_init B : keeps ov_pres (init B).
Proof. unfold init, restore_theme, restore_library, inject_styles. solve_keeps. Qed.

Lemma reachable_toasts_ok B p : reachable B p -> toasts_ok p.
Proof.
  induction 1 as [bs st _|p p' _ IH Hs].
  - apply keeps_ov_init. constructor.
  - by apply (step_sty B p p').
Qed.

(** ** The style of each element *)

(** The colour the sheet gives a severity's icon (lines 552-566). *)
Definition severity_color (k : string) : string :=
  if String.eqb k "error" then "var(--danger-color)" else "var(--" +:+ k +:+ "-color)".

Lemma is_severity_cases k :
  is_severity k = true -> k = "info" \/ k = "success" \/ k = "warning" \/ k = "error".
Proof. intros H%bool_decide_eq_true_1. rewrite !elem_of_cons, elem_of_nil in H. tauto. Qed.

(** [the_sheet] on a page with the sheet, and the body's two forms. *)
Ltac styled Hs :=
  unfold style_of, the_sheet; rewrite Hs; unfold body_elem; destruct (dark_theme _).

(** A well-formed toast on a styled page: fixed in the bottom-right
    corner, off-screen until [show] is added, and its icon in its
    severity's colour. *)
Lemma toast_style p k i shown :
  styles_in p = true -> is_severity k = true -> i = notification_icon k ->
  style_of p (toast_path p k shown) "transform" = Some (if shown then "translateX(0)" else "translateX(150%)") /\
  style_of p (toast_path p k shown) "position" = Some "fixed" /\
  style_of p (toast_path p k shown) "bottom" = Some "20px" /\
  style_of p (toast_path p k shown) "right" = Some "20px" /\
  style_of p (toast_icon_path p k i shown) "color" = Some (severity_color k).
Proof.
  intros Hs Hk ->. unfold toast_icon_path, toast_path. styled Hs;
    destruct (is_severity_cases k Hk) as [-> | [-> | [-> | ->]]]; destruct shown; vm_compute; auto.
Qed.

(** A card on a styled page: transparent and 20px low until its reveal
    callback ran, opaque and in place after. *)
Lemma card_style p c :
  styles_in p = true ->
  style_of p (card_path p c) "opacity" = Some (if card_revealed c then "1" else "0") /\
  style_of p (card_path p c) "transform" = Some (if card_revealed c then "translateY(0)" else "translateY(20px)").
Proof. intros Hs. unfold card_path, card_elem. styled Hs; destruct (card_revealed c); vm_compute; auto. Qed.

(** The modal and its content on a styled page, before and after the
    fade-in callback. *)
Lemma modal_style p opened :
  styles_in p = true ->
  style_of p (modal_path p opened) "opacity" = Some (if opened then "1" else "0") /\
  style_of p (modal_content_path p opened) "transform" =
    Some (if opened then "translateY(0)" else "translateY(-20px)").
Proof. intros Hs. unfold modal_content_path, modal_path. styled Hs; destruct opened; vm_compute; auto. Qed.

(** Every timer event keeps the sheet in or out. *)
Lemma timer_steps_styles_in B n q q' : timer_steps B n q q' -> styles_in q' = styles_in q.
Proof.
  induction 1 as [|n q1 q2 q3 Hs _ IH]; [done|].
  rewrite IH. apply (step_sty B q1 q2). by exists EvTimer.
Qed.

Lemma image_cards_hidden B t n xs : Forall (fun c => card_revealed c = false) (image_cards B t n xs).
Proof. revert n. induction xs as [|x xs IH]; intros n; constructor; [done|apply IH]. Qed.

(** ** Properties *)

(** C33: on every page the dashboard can reach with the style sheet in
    place, every toast is fixed 20px from the bottom-right corner (so
    toasts shown together overlap), stays off-screen
    ([translateX(150%)]) until its [show] class is added and is on screen
    ([translateX(0)]) while it has it, and its icon has its severity's
    colour ([--danger-color] for errors). *)
Theorem reachable_toast_style B p id kind icon msg shown :
  reachable B p -> styles_in p = true -> OToast id kind icon msg shown ∈ overlays p ->
  style_of p (toast_path p kind shown) "transform" = Some (if shown then "translateX(0)" else "translateX(150%)") /\
  style_of p (toast_path p kind shown) "position" = Some "fixed" /\
  style_of p (toast_path p kind shown) "bottom" = Some "20px" /\
  style_of p (toast_path p kind shown) "right" = Some "20px" /\
  style_of p (toast_icon_path p kind icon shown) "color" = Some (severity_color kind).
Proof.
  intros Hr Hs Ho. pose proof (reachable_toasts_ok B p Hr) as Hok.
  unfold toasts_ok in Hok. rewrite Forall_forall in Hok.
  destruct (Hok _ Ho) as [Hk Hi]. by apply toast_style.
Qed.

Lemma reachable_toast_style_witness :
  let p := sample_toast_page in
  reachable ref_browser p /\ styles_in p = true /\
  OToast 4 "success" "fas fa-check-circle" "Chart downloaded successfully!" false ∈ overlays p /\
  style_of p (toast_path p "success" false) "transform" = Some "translateX(150%)" /\
  style_of p (toast_path p "success" false) "position" = Some "fixed" /\
  style_of p (toast_path p "success" false) "bottom" = Some "20px" /\
  style_of p (toast_path p "success" false) "right" = Some "20px" /\
  style_of p (toast_icon_path p "success" "fas fa-check-circle" false) "color" =
    Some (severity_color "success").
Proof.
  split; [apply sample_toast_page_reachable|split; [vm_compute; reflexivity|split]].
  - vm_compute. left.
  - apply (reachable_toast_style ref_browser _ 4 _ _ "Chart downloaded successfully!");
      [apply sample_toast_page_reachable|vm_compute; reflexivity|vm_compute; left].
Defined.

(** C34: the cards fade in: on a page with the style sheet and no
    pending callback, [displayVisualizations] of a non-Plotly payload
    renders one card per descriptor, each transparent ([opacity: 0] of
    line 616); as many timer events as there are cards later, every card
    is opaque and in place, by the inline style of lines 273-274. *)
Theorem cards_fade_in B fs s xs p :
  field_last "library" fs = Some (JStr s) -> s <> "plotly" ->
  field_last "visualizations" fs = Some (JArr xs) -> forallb readable xs = true ->
  timers p = [] -> styles_in p = true ->
  exists p' p'', displayVisualizations B (JObj fs) p = (Ret tt, p') /\
    timer_steps B (length xs) p' p'' /\
    length (view_cards (container p')) = length xs /\
    Forall (fun c => style_of p' (card_path p' c) "opacity" = Some "0") (view_cards (container p')) /\
    length (view_cards (container p'')) = length xs /\
    Forall (fun c => style_of p'' (card_path p'' c) "opacity" = Some "1" /\
                     style_of p'' (card_path p'' c) "transform" = Some "translateY(0)")
           (view_cards (container p'')).
Proof.
  intros Hlib Hs Hviz Hxs Ht Hsty.
  destruct (display_images_post B fs s xs p Hlib Hs Hviz Hxs) as (p' & Hd & Hc & Ht' & _).
  rewrite Ht, app_nil_l in Ht'.
  destruct (reveal_run B p' _ _ _ _ _ _ Hc Ht') as (p'' & Hst & _ & Hce).
  assert (Hs' : styles_in p' = true).
  { rewrite <- Hsty. pose proof (proj1 (keeps_sty_display B (JObj fs) p)) as H.
    unfold run in H. by rewrite Hd in H. }
  assert (Hs'' : styles_in p'' = true) by by rewrite (timer_steps_styles_in _ _ _ _ Hst).
  exists p', p''. rewrite length_image_cards in Hst.
  split_and!; [done|done|rewrite Hc; cbn [view_cards]; by rewrite length_image_cards| | |].
  - rewrite Hc. cbn [view_cards]. eapply Forall_impl; [apply image_cards_hidden|].
    intros c Hc'. rewrite (proj1 (card_style p' c Hs')), Hc'. done.
  - rewrite Hce, reveal_ids_all. cbn [view_cards]. by rewrite length_map, length_image_cards.
  - rewrite Hce, reveal_ids_all. cbn [view_cards]. apply Forall_map, Forall_forall.
    intros c _. destruct (card_style p'' (set_revealed c) Hs'') as [-> ->]. by destruct c.
Qed.

Lemma cards_fade_in_witness :
  let xs := [JObj [("title", JStr "Pair plot"); ("image", JStr "iVBOR")];
             JObj [("title", JStr "Heat map"); ("image", JStr "R0lGO")]] in
  let fs := [("library", JStr "seaborn"); ("visualizations", JArr xs)] in
  let p := set_styles_in true (html_page [] ∅) in
  timers p = [] /\ styles_in p = true /\
  exists p' p'', displayVisualizations ref_browser (JObj fs) p = (Ret tt, p') /\
    timer_steps ref_browser (length xs) p' p'' /\
    length (view_cards (container p')) = length xs /\
    Forall (fun c => style_of p' (card_path p' c) "opacity" = Some "0") (view_cards (container p')) /\
    length (view_cards (container p'')) = length xs /\
    Forall (fun c => style_of p'' (card_path p'' c) "opacity" = Some "1" /\
                     style_of p'' (card_path p'' c) "transform" = Some "translateY(0)")
           (view_cards (container p'')).
Proof.
  split; [reflexivity|split; [reflexivity|]].
  apply (cards_fade_in ref_browser _ "seaborn"); [reflexivity|discriminate|reflexivity|reflexivity|reflexivity|reflexivity].
Defined.

(** C35: the info modal fades in: on a page with the style sheet,
    [showChartInfo] appends a transparent modal ([opacity: 0], line 463)
    whose content sits 20px high (line 475), and schedules its fade-in
    10 ms later; that callback makes the modal opaque and puts the
    content in place. *)
Theorem modal_fade_in p s :
  styles_in p = true ->
  let id := next_id p in
  let p1 := run (showChartInfo (JStr s)) p in
  let p2 := run (modal_open id) p1 in
  OModal id s (to_lower s) false ∈ overlays p1 /\
  mk_timer (clock p + 10) (S id) (TModalOpen id) ∈ timers p1 /\
  style_of p1 (modal_path p1 false) "opacity" = Some "0" /\
  style_of p1 (modal_content_path p1 false) "transform" = Some "translateY(-20px)" /\
  OModal id s (to_lower s) true ∈ overlays p2 /\
  style_of p2 (modal_path p2 true) "opacity" = Some "1" /\
  style_of p2 (modal_content_path p2 true) "transform" = Some "translateY(0)".
Proof.
  intros Hs id p1 p2.
  assert (Ho : overlays p1 = (overlays p ++ [OModal id s (to_lower s) false])%list) by reflexivity.
  assert (Ht : timers p1 = (timers p ++ [mk_timer (clock p + 10) (S id) (TModalOpen id)])%list) by reflexivity.
  assert (Hs1 : styles_in p1 = true) by exact Hs.
  assert (Hs2 : styles_in p2 = true) by exact Hs.
  destruct (modal_style p1 false Hs1) as [H1 H2]. destruct (modal_style p2 true Hs2) as [H3 H4].
  split_and!; [rewrite Ho; set_solver|rewrite Ht; set_solver|done|done| |done|done].
  change (overlays p2) with (map (set_modal_opened id) (overlays p1)). rewrite Ho, map_app.
  apply elem_of_app. right. cbn. rewrite Nat.eqb_refl. set_solver.
Qed.

Lemma modal_fade_in_witness :
  let p := sample_toast_page in
  styles_in p = true /\
  let id := next_id p in
  let p1 := run (showChartInfo (JStr "Pair plot")) p in
  let p2 := run (modal_open id) p1 in
  OModal id "Pair plot" (to_lower "Pair plot") false ∈ overlays p1 /\
  mk_timer (clock p + 10) (S id) (TModalOpen id) ∈ timers p1 /\
  style_of p1 (modal_path p1 false) "opacity" = Some "0" /\
  style_of p1 (modal_content_path p1 false) "transform" = Some "translateY(-20px)" /\
  OModal id "Pair plot" (to_lower "Pair plot") true ∈ overlays p2 /\
  style_of p2 (modal_path p2 true) "opacity" = Some "1" /\
  style_of p2 (modal_content_path p2 true) "transform" = Some "translateY(0)".
Proof. split; [vm_compute; reflexivity|]. apply modal_fade_in. vm_compute. reflexivity. Defined.

(** C36: a toast is removed only once it has slid out: the delay of the
    removal callback that [toast_hide] schedules (line 424) is the
    duration of the [transform] transition the sheet gives a toast
    without [show] (line 539). *)
Theorem toast_removal_after_slide_out p id kind :
  styles_in p = true -> is_severity kind = true ->
  exists d, (style_of p (toast_path p kind false) "transition" ≫= transition_ms "transform") = Some d /\
    timers (run (toast_hide id) p) = (timers p ++ [mk_timer (clock p + d) (next_id p) (TToastRemove id)])%list.
Proof.
  intros Hs Hk. exists 300. split; [|apply run_toast_hide_timers].
  unfold toast_path. styled Hs;
    destruct (is_severity_cases kind Hk) as [-> | [-> | [-> | ->]]]; vm_compute; reflexivity.
Qed.

Lemma toast_removal_after_slide_out_witness :
  let p := sample_toast_page in
  styles_in p = true /\ is_severity "success" = true /\
  exists d, (style_of p (toast_path p "success" false) "transition" ≫= transition_ms "transform") = Some d /\
    timers (run (toast_hide 4) p) = (timers p ++ [mk_timer (clock p + d) (next_id p) (TToastRemove 4)])%list.
Proof.
  split; [vm_compute; reflexivity|split; [reflexivity|]].
  apply toast_removal_after_slide_out; [vm_compute|]; reflexivity.
Defined.

