(* ===== verification/Flows.v ===== *)
(** * End-to-end flows across the components

    A user-visible flow crosses several components: the settlement of a
    download request ([Download.download_settled], script.js lines
    288-310) shows a toast ([Notify.showNotification], 388-426), whose
    three callbacks the event loop runs ([EventLoop]), and whose
    position on screen the style sheet decides ([Styles]).  This file
    follows such a flow through the real events of [Dashboard.step_fn],
    from a reachable page, with the invariants of the other files
    ([Overlays.reachable_ids_ok] for the toast's id, [Styles.step_sty]
    for the sheet) discharging the side conditions. *)

From S2P Require Import Prelude JsValue Text Css Storage Page Render Library Theme Timers Notify Download Modal Dashboard EventLoop Overlays Styles.

Local Open Scope string_scope.

(** ** The download settlement as a call of [showNotification] *)

(** [download_settled] is the save (on success), one [showNotification]
    and, on failure, the log: field by field. *)
Lemma download_settled_fields title r q :
  let ok := match r with DlHttp st b => response_ok st && b | DlNetworkError => false end in
  let kind := if ok then "success" else "error" in
  let msg := if ok then download_success_msg else download_failure_msg in
  let id := next_id q in
  let p1 := run (download_settled title r) q in
  overlays p1 = (overlays q ++ [OToast id kind (notification_icon kind) msg false])%list /\
  timers p1 = (timers q ++ [mk_timer (clock q + 10) (S id) (TToastShow id);
                            mk_timer (clock q + 3000) (S (S id)) (TToastHide id)])%list /\
  clock p1 = clock q /\ styles_in p1 = styles_in q /\
  downloads p1 = (if ok then (downloads q ++ [title +:+ ".png"])%list else downloads q).
Proof.
  unfold run, download_settled, download_catch.
  destruct r as [|st b]; [|destruct (response_ok st); [destruct b|]]; cbn;
    (split_and!; [reflexivity|by rewrite <- app_assoc|reflexivity..]).
Qed.

(** Timer events keep the sheet in or out. *)
Lemma step_timer_styles_in B q q' : step_fn B EvTimer q = Some q' -> styles_in q' = styles_in q.
Proof. intros H. apply (step_sty B q q'). by exists EvTimer. Qed.

(** ** Properties *)

(** C21: a settled download ends with its toast gone: on a reachable page
    with the style sheet and no pending callback, the settlement of a
    pending download request saves [title.png] when the response is a
    2xx whose blob is read, and shows a success toast (an error toast
    otherwise) placed off-screen; the next timer event slides it on
    screen, the one after slides it off, and the third removes it, 3300
    ms after the settlement, leaving the body's other elements and an
    empty queue. *)
Theorem download_toast_flow B p rid img title r :
  reachable B p -> styles_in p = true -> timers p = [] ->
  find_request rid (requests p) = Some (RqDownload img title) ->
  let ok := match r with DlHttp st b => response_ok st && b | DlNetworkError => false end in
  let kind := if ok then "success" else "error" in
  let msg := if ok then download_success_msg else download_failure_msg in
  let id := next_id p in
  exists p1 p2 p3 p4,
    step_fn B (EvDlSettled rid r) p = Some p1 /\ step_fn B EvTimer p1 = Some p2 /\
    step_fn B EvTimer p2 = Some p3 /\ step_fn B EvTimer p3 = Some p4 /\
    downloads p1 = (if ok then (downloads p ++ [title +:+ ".png"])%list else downloads p) /\
    overlays p1 = (overlays p ++ [OToast id kind (notification_icon kind) msg false])%list /\
    style_of p1 (toast_path p1 kind false) "transform" = Some "translateX(150%)" /\
    overlays p2 = (overlays p ++ [OToast id kind (notification_icon kind) msg true])%list /\
    style_of p2 (toast_path p2 kind true) "transform" = Some "translateX(0)" /\
    overlays p3 = (overlays p ++ [OToast id kind (notification_icon kind) msg false])%list /\
    style_of p3 (toast_path p3 kind false) "transform" = Some "translateX(150%)" /\
    overlays p4 = overlays p /\ timers p4 = [] /\ clock p4 = clock p + 3300.
Proof.
  intros Hr Hs Ht Hf ok kind msg id.
  pose proof (ids_ok_fresh p (reachable_ids_ok B p Hr)) as Hos.
  destruct (download_settled_fields title r (drop_request rid p)) as (Ho1 & Ht1 & Hc1 & Hs1 & Hd1).
  fold ok kind msg in Ho1, Hd1.
  change (overlays (drop_request rid p)) with (overlays p) in Ho1.
  change (next_id (drop_request rid p)) with (next_id p) in Ho1, Ht1.
  change (timers (drop_request rid p)) with (timers p) in Ht1.
  change (clock (drop_request rid p)) with (clock p) in Ht1, Hc1.
  change (styles_in (drop_request rid p)) with (styles_in p) in Hs1.
  change (downloads (drop_request rid p)) with (downloads p) in Hd1.
  rewrite Ht, app_nil_l in Ht1. rewrite Hs in Hs1.
  destruct (toast_timers_run B _ id kind (notification_icon kind) msg (overlays p) (clock p) Hos Ho1 Ht1 Hc1)
    as (p2 & p3 & p4 & S2 & S3 & S4 & O2 & O3 & O4 & T4 & C4).
  assert (Hk : is_severity kind = true) by (unfold kind; by destruct ok).
  pose proof (step_timer_styles_in _ _ _ S2) as Hs2. pose proof (step_timer_styles_in _ _ _ S3) as Hs3.
  rewrite Hs1 in Hs2. rewrite Hs2 in Hs3.
  exists (run (download_settled title r) (drop_request rid p)), p2, p3, p4.
  split_and!; try done.
  - cbn [step_fn]. by rewrite Hf.
  - apply (toast_style _ _ (notification_icon kind) false Hs1 Hk eq_refl).
  - apply (toast_style _ _ (notification_icon kind) true Hs2 Hk eq_refl).
  - apply (toast_style _ _ (notification_icon kind) false Hs3 Hk eq_refl).
Qed.

(** The sample trace of [Overlays] up to the response, then the reveal
    of the one card, then a click on its download button: the download
    request 3 is pending and no callback is. *)
Definition sample_download_page : page :=
  let p0 := run (init ref_browser) (html_page two_buttons ∅) in
  let p1 := run (dispatch ref_browser (TgLibrary 0)) p0 in
  let p2 := run (handle_response ref_browser sample_payload) (drop_request 0 p1) in
  let p3 := default p2 (step_fn ref_browser EvTimer p2) in
  run (dispatch ref_browser (TgCardDownload 1)) p3.

Lemma sample_download_page_reachable : reachable ref_browser sample_download_page.
Proof.
  unfold sample_download_page. cbv zeta.
  set (p0 := run (init ref_browser) (html_page two_buttons ∅)).
  set (p1 := run (dispatch ref_browser (TgLibrary 0)) p0).
  set (p2 := run (handle_response ref_browser sample_payload) (drop_request 0 p1)).
  set (p3 := default p2 (step_fn ref_browser EvTimer p2)).
  apply (reach_event _ p3 (EvClick (TgCardDownload 1))); [|vm_compute; reflexivity].
  apply (reach_event _ p2 EvTimer); [|vm_compute; reflexivity].
  apply (reach_event _ p1 (EvVisSettled 0 sample_payload)); [|vm_compute; reflexivity].
  apply (reach_event _ p0 (EvClick (TgLibrary 0))); [|vm_compute; reflexivity].
  apply reach_init. vm_compute. lia.
Qed.

Lemma download_toast_flow_witness :
  let p := sample_download_page in
  reachable ref_browser p /\ styles_in p = true /\ timers p = [] /\
  find_request 3 (requests p) = Some (RqDownload "iVBOR" "Pair plot") /\
  let ok := match DlHttp 200 true with DlHttp st b => response_ok st && b | DlNetworkError => false end in
  let kind := if ok then "success" else "error" in
  let msg := if ok then download_success_msg else download_failure_msg in
  let id := next_id p in
  exists p1 p2 p3 p4,
    step_fn ref_browser (EvDlSettled 3 (DlHttp 200 true)) p = Some p1 /\
    step_fn ref_browser EvTimer p1 = Some p2 /\
    step_fn ref_browser EvTimer p2 = Some p3 /\ step_fn ref_browser EvTimer p3 = Some p4 /\
    downloads p1 = (if ok then (downloads p ++ ["Pair plot" +:+ ".png"])%list else downloads p) /\
    overlays p1 = (overlays p ++ [OToast id kind (notification_icon kind) msg false])%list /\
    style_of p1 (toast_path p1 kind false) "transform" = Some "translateX(150%)" /\
    overlays p2 = (overlays p ++ [OToast id kind (notification_icon kind) msg true])%list /\
    style_of p2 (toast_path p2 kind true) "transform" = Some "translateX(0)" /\
    overlays p3 = (overlays p ++ [OToast id kind (notification_icon kind) msg false])%list /\
    style_of p3 (toast_path p3 kind false) "transform" = Some "translateX(150%)" /\
    overlays p4 = overlays p /\ timers p4 = [] /\ clock p4 = clock p + 3300.
Proof.
  split; [apply sample_download_page_reachable|].
  split; [vm_compute; reflexivity|split; [vm_compute; reflexivity|split; [vm_compute; reflexivity|]]].
  apply (download_toast_flow ref_browser sample_download_page 3 "iVBOR" "Pair plot" (DlHttp 200 true));
    [apply sample_download_page_reachable|vm_compute; reflexivity..].
Defined.
